(** * Layout persistence and widget identity of the dashboard shell

  A shallow embedding of [app/main_window.py], [app/db.py] and the
  renaming path of [modules/custom_list/widget.py], with the properties
  the specification states about them.

  Conventions of the embedding:
    - a Python [str] is the [string] of its code points, which covers
    the text whose code points are below 256 (Latin-1); [str.lower],
    [str.upper] and [str.strip] are those of Python on such text;
    - a Python object that is mutated through several references (a dock
    of a dashboard) lives in the list of docks of its dashboard and is
    referred to by its position there;
    - the windowing toolkit's dock-state serializer and layout and the
    [json] module are collaborators of the program: they are the fields
    of the class [Toolkit]; so are the widget classes of the plugins,
    whose constructor and [widget_id] setter are fields of
    [widget_class]. *)

From Stdlib Require Import ZArith Ascii String List Lia Bool.
From Stdlib.Strings Require Import Byte.
From stdpp Require Import base option list gmap strings pretty.

Open Scope string_scope.
Open Scope Z_scope.
Open Scope list_scope.

(** ** Python string primitives *)

Module Py.

(** [c.lower()] on one character: the letters [A] to [Z] and the
    capital letters of Latin-1, which are the code points 192 to 222
    without the multiplication sign, have their small letter 32 code
    points further. *)
Definition lower_char (c : ascii) : ascii :=
  let n := N_of_ascii c in
  if (((65 <=? n) && (n <=? 90))
      || ((192 <=? n) && (n <=? 222) && negb (n =? 215)))%N
  then ascii_of_N (n + 32) else c.

(** [s.lower()]. *)
Fixpoint lower (s : string) : string :=
  match s with
  | EmptyString => EmptyString
  | String c s' => String (lower_char c) (lower s')
  end.

(** [s.replace(' ', '_')]: only the space character is replaced. *)
Fixpoint replace_space (s : string) : string :=
  match s with
  | EmptyString => EmptyString
  | String c s' =>
      String (if Ascii.eqb c " " then "_"%char else c) (replace_space s')
  end.

(** [s.startswith(p)]. *)
Definition startswith (s p : string) : bool := String.prefix p s.

(** ASCII whitespace, which is what [bytes.fromhex] skips. *)
Definition is_space (c : ascii) : bool :=
  let n := N_of_ascii c in
  ((n =? 32) || ((9 <=? n) && (n <=? 13)))%N.

(** [c.isspace()], which is what [str.strip] removes: the ASCII
    whitespace, the four separators 28 to 31, the next-line control
    133 and the no-break space 160. *)
Definition isspace (c : ascii) : bool :=
  let n := N_of_ascii c in
  ((n =? 32) || ((9 <=? n) && (n <=? 13)) || ((28 <=? n) && (n <=? 31))
   || (n =? 133) || (n =? 160))%N.

(** [not s.strip()]: the string holds nothing but whitespace. *)
Fixpoint is_blank (s : string) : bool :=
  match s with
  | EmptyString => true
  | String c s' => isspace c && is_blank s'
  end.

(** Truth value of a string: [if s:]. *)
Definition truthy (s : string) : bool :=
  match s with EmptyString => false | _ => true end.

(** [f"{n}"] for a non-negative counter. *)
Definition str_of_nat (n : nat) : string := pretty n.

(** [max(a, b)] and [min(a, b)] on integers. *)
Definition max (a b : Z) : Z := Z.max a b.
Definition min (a b : Z) : Z := Z.min a b.

End Py.

(** ** [bytes.hex] and [bytes.fromhex] *)

Module Hex.

Definition hex_digit (n : N) : ascii :=
  (if n <? 10 then ascii_of_N (48 + n) else ascii_of_N (87 + n))%N.

(** Value of a hexadecimal digit; [fromhex] takes both cases. *)
Definition hex_val (c : ascii) : option N :=
  let n := N_of_ascii c in
  (if (48 <=? n) && (n <=? 57) then Some (n - 48)
   else if (97 <=? n) && (n <=? 102) then Some (n - 87)
   else if (65 <=? n) && (n <=? 70) then Some (n - 55)
   else None)%N.

(** [b.hex()]: two lower-case digits per byte. *)
Fixpoint hex (bs : list byte) : string :=
  match bs with
  | [] => EmptyString
  | b :: bs' =>
      let n := Byte.to_N b in
      String (hex_digit (n / 16)%N) (String (hex_digit (n mod 16)%N) (hex bs'))
  end.

(** [bytes.fromhex(s)]: whitespace is skipped between bytes; anything
    else that is not a pair of digits raises [ValueError] ([None]). *)
Fixpoint fromhex (s : string) : option (list byte) :=
  match s with
  | EmptyString => Some []
  | String c s' =>
      if Py.is_space c then fromhex s'
      else
        match hex_val c, s' with
        | Some hi, String c2 s'' =>
            match hex_val c2 with
            | Some lo =>
                match Byte.of_N (hi * 16 + lo)%N, fromhex s'' with
                | Some b, Some bs => Some (b :: bs)
                | _, _ => None
                end
            | None => None
            end
        | _, _ => None
        end
  end.

End Hex.

(** ** Exceptions

    The body of a [try] block is a computation that may raise; the
    handler of the block is the [match] on its result. *)

Inductive exn := KeyError | ValueError | AttributeError | OverflowError.

Inductive result (A : Type) : Type :=
| Ok (a : A)
| Raise (e : exn).
Arguments Ok {A} a.
Arguments Raise {A} e.

#[global] Instance result_ret : MRet result := fun A a => Ok a.

#[global] Instance result_bind : MBind result := fun A B k r =>
  match r with
  | Ok a => k a
  | Raise e => Raise e
  end.

(** [d[key]] on a dict: [KeyError] when the key is missing. *)
Definition getitem {A : Type} (field : option A) : result A :=
  match field with
  | Some a => Ok a
  | None => Raise KeyError
  end.

(** ** The key-value store ([app/db.py])

    The table [widget_settings] has the primary key [(widget_id, key)];
    [INSERT OR REPLACE] is [insert]. *)

Abbreviation store := (gmap (string * string) string).

(** [get_widget_setting(widget_id, key)]: [None] when there is no row. *)
Definition get_widget_setting (db : store) (widget_id key : string) : option string :=
  db !! (widget_id, key).

(** [get_widget_setting(widget_id, key, default)]. *)
Definition get_widget_setting_or (db : store) (widget_id key dflt : string) : string :=
  default dflt (db !! (widget_id, key)).

Definition set_widget_setting (db : store) (widget_id key value : string) : store :=
  <[(widget_id, key) := value]> db.

(** ** The persisted workspace document

    The document is the list that [json.loads] returns; a field is
    [None] when its key is missing from the dict, which is what the
    [.get(key, default)] calls of the program provide for. *)

Record geometry_info := {
  geom_x : option Z;
  geom_y : option Z;
  geom_width : option Z;
  geom_height : option Z }.

Record widget_info := {
  wi_module_name : option string;
  wi_dock_name : option string;
  wi_title : option string;
  wi_area : option Z;
  wi_floating : option bool;
  wi_visible : option bool;
  wi_geometry : option geometry_info }.

Record dashboard_info := {
  di_title : option string;
  di_state : option string;
  di_widgets : option (list widget_info) }.

(** An element of the list [restore_layout] loops over: a dict the
    loop can read, or a value on which lines 520-526 raise before the
    tab is added, which is one that is no dict ([.get] is missing),
    one whose [widgets] have no [len], or one whose [title] is no
    text. *)
Inductive saved_dashboard :=
| Saved (dashboard_info : dashboard_info)
| Unreadable.

(** The records of a document that the loop can read, in order. *)
Definition readable (dashboards : list saved_dashboard) : list dashboard_info :=
  omap (fun r => match r with Saved info => Some info | Unreadable => None end) dashboards.

(** ** Plugins and live objects *)

(** The value of an attribute read with [getattr]. *)
Inductive attr := NoAttr | PyNone | PyStr (s : string).

(** [hasattr(widget, 'widget_id')], from what the attribute reads. *)
Definition hasattr (a : attr) : bool :=
  match a with NoAttr => false | _ => true end.

(** A widget class of a plugin, as the program uses it. Every widget
    is given [db_manager], so what its methods do depends on the store
    and may change it. The classes are taken to return from the calls
    the program makes.
    - [cls_init db title widget_id] is the constructor, called with the
      keyword [title] (or [list_title]) and the keyword [widget_id]
      where the program passes them: what [widget_id] reads on the new
      instance, and the store the constructor leaves;
    - [cls_set_widget_id db a value] is the assignment
      [widget.widget_id = value] on an instance whose [widget_id] reads
      [a]: a plain attribute stores [value], a property does what its
      setter does ([TreeListWidget]'s stores nothing, lines 75-89 of
      [tree_list/widget.py]);
    - [cls_save_state db a] is [widget.save_state()], the identity for
      a class without that method;
    - [cls_restore_state db a module_name] is what lines 714-723 do
      with the state stored under [module_name]: nothing for a class
      without [restore_state], else the call, which may assign
      [widget_id];
    - [cls_size_hint] is the size hint of the instances, when valid. *)
Record widget_class := {
  cls_name : string;
  cls_init : store -> option string -> option string -> attr * store;
  cls_set_widget_id : store -> attr -> string -> attr * store;
  cls_save_state : store -> attr -> store;
  cls_restore_state : store -> attr -> string -> attr * store;
  cls_size_hint : option (Z * Z) }.

(** The dict a plugin's [register_plugin()] returns. *)
Record plugin_info := {
  pi_name : option string;
  pi_title : option string;
  pi_widget_class : option widget_class;
  pi_supports_multiple : option bool }.

(** A widget: [w_widget_id] is what [getattr(widget, 'widget_id')]
    reads, [w_list_title] what [getattr(widget, 'list_title')] does. *)
Record widget := {
  w_class : widget_class;
  w_widget_id : attr;
  w_list_title : option string }.

Record rect := {
  rect_x : Z;
  rect_y : Z;
  rect_width : Z;
  rect_height : Z }.

(** A [QDockWidget]; [dock_widget] is the widget inside its wrapper. *)
Record dock := {
  objectName : string;
  windowTitle : string;
  dock_area : Z;
  isFloating : bool;
  isVisible : bool;
  geometry : rect;
  dock_widget : option widget }.

(** A [DashboardTab]; [dash_docks] is [findChildren(QDockWidget)], in
    the order of creation. *)
Record DashboardTab := {
  dash_title : string;
  dash_docks : list dock }.

(** Where the toolkit's [restoreState] puts one dock. *)
Record placement := {
  pl_area : Z;
  pl_floating : bool;
  pl_visible : bool;
  pl_geometry : rect }.

(** The collaborators of the program: the dock-state serializer of the
    windowing toolkit, what it gives a dock that was just created, the
    geometry [qt_setGeometry docks k r] that the dock at [k] reports
    once [setGeometry] was called with [r] and the toolkit has laid
    the docks out again (a docked dock is resized by the layout of its
    area, whatever it was given), and the [json] module on workspace
    documents ([json_loads] is [None] when [json.loads] raises or
    gives a value without [len]). *)
Class Toolkit := {
  qt_saveState : DashboardTab -> list byte;
  qt_restoreState : list byte -> list dock -> nat -> placement;
  qt_new_dock_visible : bool;
  qt_new_dock_geometry : rect;
  qt_setGeometry : list dock -> nat -> rect -> rect;
  json_dumps : list dashboard_info -> string;
  json_loads : string -> option (list saved_dashboard) }.

(** What the program does to its objects, in the order it does it;
    [EvSetGeometry k r] is the call [setGeometry] with the fields of
    [r] on the dock at [k]. *)
Inductive event :=
| EvCreate (dock_index : nat) (widget_id : string)
| EvReadVisible (dock_index : nat) (visible : bool)
| EvRestoreState (blob : list byte)
| EvSetVisible (dock_index : nat)
| EvSetGeometry (dock_index : nat) (r : rect).

Record MainWindow := {
  tabs : list (string * DashboardTab);
  currentIndex : option nat;
  db : store;
  plugins : gmap string plugin_info;
  window_visible : bool;
  trace : list (nat * event) }.

Definition RightDockWidgetArea : Z := 2.

(** ** Widget identifiers ([MainWindow.add_widget], lines 245-316) *)

(** [title.lower().replace(' ', '_')]. *)
Definition sanitize (title : string) : string :=
  Py.replace_space (Py.lower title).

(** The loop [while dock_name in existing_names] of [add_widget]. Each
    round tries a name not tried before, so [S (length existing_names)]
    rounds are enough ([find_dock_name_fresh]). *)
Fixpoint find_dock_name_loop (fuel : nat) (existing_names : list string)
    (base_name dock_name : string) (counter : nat) : string * nat :=
  if bool_decide (dock_name ∈ existing_names) then
    match fuel with
    | O => (dock_name, counter)
    | S fuel' =>
        find_dock_name_loop fuel' existing_names base_name
          (base_name +:+ "_" +:+ Py.str_of_nat counter) (S counter)
    end
  else (dock_name, counter).

Definition find_dock_name (existing_names : list string) (base_name : string)
    : string * nat :=
  find_dock_name_loop (S (length existing_names)) existing_names
    base_name base_name 1.

(** [display_title = widget_title if counter == 1 else f"{widget_title} {counter}"]. *)
Definition display_title_of (widget_title : string) (counter : nat) : string :=
  if bool_decide (counter = 1%nat) then widget_title
  else widget_title +:+ " " +:+ Py.str_of_nat counter.

(** The branches of [add_widget] on [widget_name] that choose the
    [widget_id] (lines 273-311). *)
Definition new_widget_id (widget_name display_title : string)
    (dashboard_index counter : nat) : string :=
  if String.eqb widget_name "tree_list" then
    "treelist_d" +:+ Py.str_of_nat dashboard_index +:+ "_" +:+ Py.str_of_nat counter
  else if String.eqb widget_name "custom_list" then
    "custom_list_" +:+ sanitize display_title
  else if String.eqb widget_name "code_viewer" then
    "code_viewer_" +:+ sanitize display_title
  else if String.eqb widget_name "wysiwyg_editor" then
    "wysiwyg_editor_" +:+ sanitize display_title
  else widget_name.

(** The title the same branches pass to the constructor, as [title]
    or as [list_title]; the last branch passes none. *)
Definition title_keyword (widget_name display_title : string) : option string :=
  if String.eqb widget_name "tree_list" || String.eqb widget_name "custom_list"
     || String.eqb widget_name "code_viewer" || String.eqb widget_name "wysiwyg_editor"
  then Some display_title
  else None.

(** The widget [add_widget] creates (lines 273-316), and the store
    afterwards: the constructor runs; then the tree list has its
    [_widget_id] set directly, which is what its [widget_id] reads,
    and the other kinds are assigned [widget_id] when the instance has
    that attribute. What the widget reads as its id afterwards is the
    business of its class. *)
Definition new_widget (db : store) (widget_class : widget_class)
    (widget_name display_title widget_id : string) : widget * store :=
  let '(a, db) :=
    cls_init widget_class db (title_keyword widget_name display_title) None in
  let '(a, db) :=
    if String.eqb widget_name "tree_list" then (PyStr widget_id, db)
    else if hasattr a then cls_set_widget_id widget_class db a widget_id
    else (a, db) in
  ({| w_class := widget_class;
      w_widget_id := a;
      w_list_title :=
        if String.eqb widget_name "custom_list" then Some display_title else None |},
   db).

(** [dock.resize(size_hint)] when the hint is valid (lines 340-344). *)
Definition resize (r : rect) (hint : option (Z * Z)) : rect :=
  match hint with
  | Some (w, h) =>
      {| rect_x := rect_x r; rect_y := rect_y r; rect_width := w; rect_height := h |}
  | None => r
  end.

(** The arguments of [setGeometry] are C ints. *)
Definition c_int (z : Z) : bool :=
  (-2147483648 <=? z) && (z <=? 2147483647).

Definition fits (r : rect) : bool :=
  c_int (rect_x r) && c_int (rect_y r) && c_int (rect_width r) && c_int (rect_height r).

Section Program.
Context `{Toolkit}.

(** A [QDockWidget] as the toolkit hands it out. *)
Definition new_dock (name title : string) (area : Z) (w : widget) : dock :=
  {| objectName := name;
     windowTitle := title;
     dock_area := area;
     isFloating := false;
     isVisible := qt_new_dock_visible;
     geometry := qt_new_dock_geometry;
     dock_widget := Some w |}.

(** [add_widget] on the dashboard it found current, whose tab index is
    [dashboard_index]: the dashboard with the new dock, the position of
    the dock, the id chosen for its widget, and the store once the
    widget has saved its initial state (lines 346-348). *)
Definition add_widget_to (dashboard_index : nat) (db : store)
    (current_dashboard : DashboardTab) (widget_class : widget_class)
    (widget_name widget_title : string) (widget_area : Z)
    : DashboardTab * nat * string * store :=
  let base_name := "dock_" +:+ widget_name in
  let existing_names := map objectName (dash_docks current_dashboard) in
  let '(dock_name, counter) := find_dock_name existing_names base_name in
  let display_title := display_title_of widget_title counter in
  let widget_id := new_widget_id widget_name display_title dashboard_index counter in
  let created := new_widget db widget_class widget_name display_title widget_id in
  let d := new_dock dock_name display_title widget_area created.1 in
  let d := {| objectName := objectName d; windowTitle := windowTitle d;
              dock_area := dock_area d; isFloating := isFloating d;
              isVisible := isVisible d;
              geometry := resize (geometry d) (cls_size_hint widget_class);
              dock_widget := dock_widget d |} in
  ({| dash_title := dash_title current_dashboard;
      dash_docks := dash_docks current_dashboard ++ [d] |},
   length (dash_docks current_dashboard), widget_id,
   cls_save_state widget_class created.2 (w_widget_id created.1)).

(** ** Tabs *)

Definition currentWidget (mw : MainWindow) : option (string * DashboardTab) :=
  i ← currentIndex mw; tabs mw !! i.

(** [QTabWidget.addTab]: the first tab becomes the current one. *)
Definition addTab (mw : MainWindow) (dashboard : DashboardTab) (title : string)
    : MainWindow * nat :=
  ({| tabs := tabs mw ++ [(title, dashboard)];
      currentIndex := match tabs mw with [] => Some 0%nat | _ => currentIndex mw end;
      db := db mw; plugins := plugins mw; window_visible := window_visible mw;
      trace := trace mw |},
   length (tabs mw)).

Definition setCurrentIndex (mw : MainWindow) (i : nat) : MainWindow :=
  {| tabs := tabs mw;
     currentIndex := if bool_decide (i < length (tabs mw))%nat then Some i else currentIndex mw;
     db := db mw; plugins := plugins mw; window_visible := window_visible mw;
     trace := trace mw |}.

(** [add_dashboard] (lines 205-221). [answer] is what the user gives
    to the title dialog, which is only shown by a visible window. *)
Definition add_dashboard (answer : string * bool) (mw : MainWindow) : MainWindow :=
  let dflt := "Dashboard " +:+ Py.str_of_nat (length (tabs mw) + 1) in
  let title :=
    if window_visible mw then
      let '(text, ok) := answer in
      if negb ok || Py.is_blank text then dflt else text
    else dflt in
  let dashboard := {| dash_title := title; dash_docks := [] |} in
  let '(mw, index) := addTab mw dashboard title in
  setCurrentIndex mw index.

(** [add_widget] (lines 237-350) on the window. *)
Definition add_widget (answer : string * bool) (mw : MainWindow)
    (widget_class : widget_class) (widget_name widget_title : string) (widget_area : Z)
    : MainWindow :=
  let mw := match currentWidget mw with Some _ => mw | None => add_dashboard answer mw end in
  match currentIndex mw with
  | Some i =>
      match tabs mw !! i with
      | Some (t, dashboard) =>
          let '(dashboard, k, wid, db') :=
            add_widget_to i (db mw) dashboard widget_class widget_name widget_title
              widget_area in
          {| tabs := <[i := (t, dashboard)]> (tabs mw);
             currentIndex := currentIndex mw;
             db := db'; plugins := plugins mw; window_visible := window_visible mw;
             trace := trace mw ++ [(i, EvCreate k wid)] |}
      | None => mw
      end
  | None => mw
  end.

(** ** Saving ([save_dashboard_layout], lines 419-482; [save_layout], 377-417) *)

(** [getattr(widget, 'widget_id', '')]; the [startswith] that follows
    raises on [None]. *)
Definition module_name_of (w : widget) : result string :=
  match w_widget_id w with
  | NoAttr => Ok ""
  | PyNone => Raise AttributeError
  | PyStr s => Ok s
  end.

(** The body of the [try] for one dock: [None] when the dock has no
    widget in its wrapper. *)
Definition save_dock (d : dock) : result (option widget_info) :=
  match dock_widget d with
  | None => Ok None
  | Some widget =>
      module_name ← module_name_of widget;
      let title :=
        if Py.startswith module_name "custom_list"
        then default (windowTitle d) (w_list_title widget)
        else windowTitle d in
      Ok (Some {| wi_module_name := Some module_name;
                  wi_dock_name := Some (objectName d);
                  wi_title := Some title;
                  wi_area := Some (dock_area d);
                  wi_floating := Some (isFloating d);
                  wi_visible := Some true;
                  wi_geometry :=
                    Some {| geom_x := Some (rect_x (geometry d));
                            geom_y := Some (rect_y (geometry d));
                            geom_width := Some (rect_width (geometry d));
                            geom_height := Some (rect_height (geometry d)) |} |})
  end.

(** The loop over the docks: a dock whose capture raises is skipped. *)
Fixpoint save_docks (docks : list dock) : list widget_info :=
  match docks with
  | [] => []
  | d :: docks' =>
      match save_dock d with
      | Ok (Some widget_info) => widget_info :: save_docks docks'
      | Ok None => save_docks docks'
      | Raise _ => save_docks docks'
      end
  end.

(** [save_dashboard_layout]; the caller adds the title. *)
Definition save_dashboard_layout (dashboard : DashboardTab) : dashboard_info :=
  let widget_instances := save_docks (dash_docks dashboard) in
  let state_hex :=
    match widget_instances with
    | [] => ""
    | _ => Hex.hex (qt_saveState dashboard)
    end in
  {| di_title := None; di_state := Some state_hex; di_widgets := Some widget_instances |}.

(** The list [dashboards] that [save_layout] builds. *)
Definition save_document (mw : MainWindow) : list dashboard_info :=
  map (fun '(title, dashboard) =>
         let dashboard_info := save_dashboard_layout dashboard in
         {| di_title := Some title;
            di_state := di_state dashboard_info;
            di_widgets := di_widgets dashboard_info |})
      (tabs mw).

Definition save_layout (mw : MainWindow) : MainWindow :=
  {| tabs := tabs mw; currentIndex := currentIndex mw;
     db := set_widget_setting (db mw) "main_window" "dashboards"
             (json_dumps (save_document mw));
     plugins := plugins mw; window_visible := window_visible mw;
     trace := trace mw |}.

(** ** Restoring one dashboard ([restore_dashboard_layout], lines 577-794) *)

(** The base module of a persisted id (lines 599-609). *)
Definition base_module_of (module_name : string) : string :=
  if Py.startswith module_name "custom_list_" then "custom_list"
  else if Py.startswith module_name "code_viewer_" then "code_viewer"
  else if Py.startswith module_name "treelist_" then "tree_list"
  else if Py.startswith module_name "wysiwyg_editor_" then "wysiwyg_editor"
  else module_name.

(** The class the entry resolves to: [None] when the loop says
    [continue] (lines 595-597 and 611-615). *)
Definition resolve (plugins : gmap string plugin_info) (instance : widget_info)
    : option (string * plugin_info * widget_class) :=
  let module_name := default "" (wi_module_name instance) in
  if negb (Py.truthy module_name) then None
  else
    plugin_info ← plugins !! base_module_of module_name;
    widget_class ← pi_widget_class plugin_info;
    Some (module_name, plugin_info, widget_class).

(** The widget in the wrapper of the dock at [k] (lines 703-706). *)
Definition widget_at (k : nat) (dashboard : DashboardTab) : option widget :=
  d ← dash_docks dashboard !! k; dock_widget d.

(** The dock whose widget reads [a] as its [widget_id]. *)
Definition with_widget_id (a : attr) (d : dock) : dock :=
  {| objectName := objectName d; windowTitle := windowTitle d;
     dock_area := dock_area d; isFloating := isFloating d;
     isVisible := isVisible d; geometry := geometry d;
     dock_widget :=
       match dock_widget d with
       | Some w => Some {| w_class := w_class w; w_widget_id := a;
                           w_list_title := w_list_title w |}
       | None => None
       end |}.

Definition with_widget_id_at (a : attr) (k : nat) (dashboard : DashboardTab)
    : DashboardTab :=
  {| dash_title := dash_title dashboard;
     dash_docks := alter (with_widget_id a) k (dash_docks dashboard) |}.

(** [widget.widget_id = module_name] on the widget of dock [k] (line
    711): what the widget reads afterwards is what the setter of its
    class leaves. *)
Definition set_widget_id (k : nat) (module_name : string) (db : store)
    (dashboard : DashboardTab) : DashboardTab * store :=
  match widget_at k dashboard with
  | Some w =>
      let r := cls_set_widget_id (w_class w) db (w_widget_id w) module_name in
      (with_widget_id_at r.1 k dashboard, r.2)
  | None => (dashboard, db)
  end.

(** Lines 714-723 on the widget of dock [k]: the state stored under
    [module_name], when there is one, is given to the widget. *)
Definition restore_widget_state (k : nat) (module_name : string) (db : store)
    (dashboard : DashboardTab) : DashboardTab * store :=
  match widget_at k dashboard, get_widget_setting db module_name "state" with
  | Some w, Some saved_state =>
      if Py.truthy saved_state then
        let r := cls_restore_state (w_class w) db (w_widget_id w) module_name in
        (with_widget_id_at r.1 k dashboard, r.2)
      else (dashboard, db)
  | _, _ => (dashboard, db)
  end.

(** One round of the loop that creates the widgets (lines 590-731):
    [None] when the entry is skipped, else the dashboard with the new
    dock, the position of that dock and the store afterwards. A custom
    list is constructed with the saved title and id; a tree list is
    constructed with the saved title and has its [_widget_id] set
    directly; every other kind goes through [add_widget], which finds
    the dashboard current because line 586 made it so, and is then
    assigned the saved id. *)
Definition restore_instance (plugins : gmap string plugin_info) (dashboard_index : nat)
    (db : store) (dashboard : DashboardTab) (instance : widget_info)
    : option (DashboardTab * nat * store) :=
  match resolve plugins instance with
  | None => None
  | Some (module_name, plugin_info, widget_class) =>
      let base_module := base_module_of module_name in
      let title := default (default "Widget" (pi_title plugin_info)) (wi_title instance) in
      let area := default RightDockWidgetArea (wi_area instance) in
      if String.eqb base_module "custom_list" then
        let created := cls_init widget_class db (Some title) (Some module_name) in
        let widget := {| w_class := widget_class; w_widget_id := created.1;
                         w_list_title := Some title |} in
        let d := new_dock (default "dock_custom_list" (wi_dock_name instance)) title area widget in
        Some ({| dash_title := dash_title dashboard;
                 dash_docks := dash_docks dashboard ++ [d] |},
              length (dash_docks dashboard), created.2)
      else if String.eqb base_module "tree_list" then
        let created := cls_init widget_class db (Some title) None in
        let widget := {| w_class := widget_class; w_widget_id := PyStr module_name;
                         w_list_title := None |} in
        let d := new_dock (default "dock_tree_list" (wi_dock_name instance)) title area widget in
        Some ({| dash_title := dash_title dashboard;
                 dash_docks := dash_docks dashboard ++ [d] |},
              length (dash_docks dashboard), created.2)
      else
        let '(dashboard, k, _, db) :=
          add_widget_to dashboard_index db dashboard widget_class base_module title area in
        let '(dashboard, db) := set_widget_id k module_name db dashboard in
        let '(dashboard, db) := restore_widget_state k module_name db dashboard in
        Some (dashboard, k, db)
  end.

(** The loop itself: [docks] collects the positions of the docks
    created, each with its entry. *)
Fixpoint create_widgets (plugins : gmap string plugin_info) (dashboard_index : nat)
    (db : store) (instances : list widget_info) (dashboard : DashboardTab)
    : DashboardTab * list (nat * widget_info) * list event * store :=
  match instances with
  | [] => (dashboard, [], [], db)
  | instance :: instances' =>
      match restore_instance plugins dashboard_index db dashboard instance with
      | None => create_widgets plugins dashboard_index db instances' dashboard
      | Some (dashboard', k, db') =>
          let '(dashboard'', docks, evs, db'') :=
            create_widgets plugins dashboard_index db' instances' dashboard' in
          (dashboard'', (k, instance) :: docks,
           EvCreate k (default "" (wi_module_name instance)) :: evs, db'')
      end
  end.

Definition set_visible (d : dock) : dock :=
  {| objectName := objectName d; windowTitle := windowTitle d;
     dock_area := dock_area d; isFloating := isFloating d;
     isVisible := true; geometry := geometry d; dock_widget := dock_widget d |}.

Definition set_geometry (r : rect) (d : dock) : dock :=
  {| objectName := objectName d; windowTitle := windowTitle d;
     dock_area := dock_area d; isFloating := isFloating d;
     isVisible := isVisible d; geometry := r; dock_widget := dock_widget d |}.

Definition place (p : placement) (d : dock) : dock :=
  {| objectName := objectName d; windowTitle := windowTitle d;
     dock_area := pl_area p; isFloating := pl_floating p;
     isVisible := pl_visible p; geometry := pl_geometry p;
     dock_widget := dock_widget d |}.

(** [dashboard.restoreState(blob)]: every dock goes where the toolkit
    puts it. *)
Definition restoreState (blob : list byte) (docks : list dock) : list dock :=
  imap (fun i d => place (qt_restoreState blob docks i) d) docks.

(** [dock.isVisible()] of the dock at position [k]. *)
Definition dock_visible (docks : list dock) (k : nat) : bool :=
  match docks !! k with Some d => isVisible d | None => false end.

(** The loop that shows again what was visible (lines 748-750). *)
Fixpoint reapply_visibility (widget_states : list (nat * bool)) (docks : list dock)
    : list dock * list event :=
  match widget_states with
  | [] => (docks, [])
  | (k, was_visible) :: rest =>
      if was_visible then
        let '(docks', evs) := reapply_visibility rest (alter set_visible k docks) in
        (docks', EvSetVisible k :: evs)
      else reapply_visibility rest docks
  end.

(** The body of the [try] that restores the docking state (lines
    737-750). *)
Definition restore_state_body (state : string) (docks : list (nat * widget_info))
    (live : list dock) : result (list dock * list event) :=
  state_data ← match Hex.fromhex state with
               | Some bs => Ok bs
               | None => Raise ValueError
               end;
  match state_data with
  | [] => Ok (live, [])
  | _ =>
      let widget_states := map (fun '(k, _) => (k, dock_visible live k)) docks in
      let live' := restoreState state_data live in
      let '(live'', evs) := reapply_visibility widget_states live' in
      Ok (live'',
          map (fun '(k, v) => EvReadVisible k v) widget_states
            ++ EvRestoreState state_data :: evs)
  end.

(** Lines 736-752: the condition, the [try] and its handler. *)
Definition restore_dashboard_state (dashboard_info : dashboard_info)
    (docks : list (nat * widget_info)) (live : list dock) : list dock * list event :=
  match docks, di_state dashboard_info with
  | _ :: _, Some state =>
      if Py.truthy state then
        match restore_state_body state docks live with
        | Ok r => r
        | Raise _ => (live, [])
        end
      else (live, [])
  | _, _ => (live, [])
  end.

(** The geometry line 764 asks for (lines 760-763). The fields are
    Python integers, which have no bound. *)
Definition normalize_geometry (geom : geometry_info) : result rect :=
  gx ← getitem (geom_x geom);
  let x := Py.max 0 gx in
  gy ← getitem (geom_y geom);
  let y := Py.max 0 gy in
  gw ← getitem (geom_width geom);
  let width := Py.min (Py.max 100 gw) 2000 in
  gh ← getitem (geom_height geom);
  let height := Py.min (Py.max 100 gh) 1200 in
  Ok {| rect_x := x; rect_y := y; rect_width := width; rect_height := height |}.

(** [dock.setGeometry(x, y, width, height)] (line 764) on the dock at
    [k]: [OverflowError] when an argument is no C int; else the dock
    gets the geometry the toolkit makes of the request. *)
Definition setGeometry (k : nat) (r : rect) (live : list dock) : result (list dock) :=
  if fits r
  then Ok (alter (set_geometry (qt_setGeometry live k r)) k live)
  else Raise OverflowError.

(** The body of the [try] for one dock of the last loop (lines 757-779). *)
Definition ensure_visible_body (k : nat) (instance : widget_info) (live : list dock)
    : result (list dock * list event) :=
  '(live, evs) ← match wi_geometry instance with
                 | Some geom =>
                     r ← normalize_geometry geom;
                     live ← setGeometry k r live;
                     Ok (live, [EvSetGeometry k r])
                 | None => Ok (live, [])
                 end;
  Ok (alter set_visible k live, evs ++ [EvSetVisible k]).

(** The last loop (lines 755-782): a dock whose round raises is left
    as it is. *)
Fixpoint ensure_visible (docks : list (nat * widget_info)) (live : list dock)
    : list dock * list event :=
  match docks with
  | [] => (live, [])
  | (k, instance) :: docks' =>
      match ensure_visible_body k instance live with
      | Ok (live', evs) =>
          let '(live'', evs') := ensure_visible docks' live' in
          (live'', evs ++ evs')
      | Raise _ => ensure_visible docks' live
      end
  end.

(** The body of the outer [try] of [restore_dashboard_layout], on the
    dashboard itself: the dashboard restored, the docks created, what
    was done, in order, and the store the widgets leave. *)
Definition restore_dashboard_body (plugins : gmap string plugin_info)
    (dashboard_index : nat) (db : store) (dashboard : DashboardTab)
    (dashboard_info : dashboard_info)
    : result (DashboardTab * list (nat * widget_info) * list event * store) :=
  let '(dashboard, docks, evs1, db) :=
    create_widgets plugins dashboard_index db
      (default [] (di_widgets dashboard_info)) dashboard in
  let '(live, evs2) := restore_dashboard_state dashboard_info docks (dash_docks dashboard) in
  let '(live, evs3) := ensure_visible docks live in
  Ok ({| dash_title := dash_title dashboard; dash_docks := live |},
      docks, evs1 ++ evs2 ++ evs3, db).

(** The number of widgets restored, which line 733 prints. *)
Definition restored_widgets (plugins : gmap string plugin_info) (dashboard_index : nat)
    (db : store) (dashboard : DashboardTab) (dashboard_info : dashboard_info) : nat :=
  length (create_widgets plugins dashboard_index db
            (default [] (di_widgets dashboard_info)) dashboard).1.1.2.

(** ** Restoring the workspace ([restore_layout], lines 484-575) *)

Definition with_tabs (mw : MainWindow) (ts : list (string * DashboardTab))
    (cur : option nat) (evs : list (nat * event)) : MainWindow :=
  {| tabs := ts; currentIndex := cur; db := db mw; plugins := plugins mw;
     window_visible := window_visible mw; trace := trace mw ++ evs |}.

Definition with_db (mw : MainWindow) (db' : store) : MainWindow :=
  {| tabs := tabs mw; currentIndex := currentIndex mw; db := db';
     plugins := plugins mw; window_visible := window_visible mw; trace := trace mw |}.

(** [restore_dashboard_layout(dashboard, dashboard_info)] for the
    dashboard that is the tab at [index], as at its only call (line
    529). It returns nothing; its handler catches every exception. *)
Definition restore_dashboard_layout (mw : MainWindow) (index : nat)
    (dashboard_info : dashboard_info) : MainWindow :=
  let current_dashboard := i ← currentIndex mw; _ ← tabs mw !! i; Some i in
  let mw := setCurrentIndex mw index in
  match tabs mw !! index with
  | Some (t, dashboard) =>
      match restore_dashboard_body (plugins mw) index (db mw) dashboard dashboard_info with
      | Ok (dashboard', _, evs, db') =>
          let mw := with_db (with_tabs mw (<[index := (t, dashboard')]> (tabs mw))
                               (currentIndex mw) (map (pair index) evs)) db' in
          match current_dashboard with
          | Some i => setCurrentIndex mw i
          | None => mw
          end
      | Raise _ => mw
      end
  | None => mw
  end.

(** The loop over the saved dashboards (lines 517-544): an element on
    which lines 520-526 raise is given up by the handler of line 540,
    before a tab was added and without being counted. *)
Fixpoint restore_dashboards (dashboards : list saved_dashboard) (mw : MainWindow)
    (restored_count : nat) : MainWindow * nat :=
  match dashboards with
  | [] => (mw, restored_count)
  | Unreadable :: dashboards' => restore_dashboards dashboards' mw restored_count
  | Saved dashboard_info :: dashboards' =>
      let title := default "Dashboard" (di_title dashboard_info) in
      let dashboard := {| dash_title := title; dash_docks := [] |} in
      let '(mw, index) := addTab mw dashboard title in
      let mw := restore_dashboard_layout mw index dashboard_info in
      restore_dashboards dashboards' mw (S restored_count)
  end.

(** Lines 553-565: the first tab is selected and its docks shown. *)
Definition show_first_tab (mw : MainWindow) : MainWindow :=
  match tabs mw with
  | [] => mw
  | (t, dashboard) :: rest =>
      let mw := setCurrentIndex mw 0 in
      with_tabs mw
        ((t, {| dash_title := dash_title dashboard;
                dash_docks := map set_visible (dash_docks dashboard) |}) :: rest)
        (currentIndex mw)
        (imap (fun k _ => (0%nat, EvSetVisible k)) (dash_docks dashboard))
  end.

Definition restore_layout (answer : string * bool) (mw : MainWindow) : MainWindow :=
  let dashboards_json := get_widget_setting_or (db mw) "main_window" "dashboards" "[]" in
  match json_loads dashboards_json with
  | None => add_dashboard answer mw
  | Some [] => add_dashboard answer mw
  | Some dashboards =>
      let mw := with_tabs mw [] None [] in
      let '(mw, restored_count) := restore_dashboards dashboards mw 0 in
      if bool_decide (restored_count = 0%nat) then add_dashboard answer mw
      else show_first_tab mw
  end.

End Program.

(** ** Renaming a custom list ([modules/custom_list/widget.py]) *)

Module CustomList.

(** The [json] module on the lists a custom list persists; [loads] is
    [None] when it raises. *)
Class JsonList (A : Type) := {
  dumps : list A -> string;
  loads : string -> option (list A) }.

Section Widget.
Context {column item : Type} `{JsonList column} `{JsonList item}.

Record CustomListWidget := {
  base_widget_id : string;
  _widget_id : string;
  list_title : string;
  default_column : column;
  columns : list column;
  items : list item }.

Definition with_columns (w : CustomListWidget) (cs : list column) : CustomListWidget :=
  {| base_widget_id := base_widget_id w; _widget_id := _widget_id w;
     list_title := list_title w; default_column := default_column w;
     columns := cs; items := items w |}.

Definition with_items (w : CustomListWidget) (its : list item) : CustomListWidget :=
  {| base_widget_id := base_widget_id w; _widget_id := _widget_id w;
     list_title := list_title w; default_column := default_column w;
     columns := columns w; items := its |}.

(** [load_columns] (lines 869-887). *)
Definition load_columns (db : store) (w : CustomListWidget) : CustomListWidget :=
  match get_widget_setting db (_widget_id w) "columns" with
  | Some saved_columns =>
      if Py.truthy saved_columns then
        match loads saved_columns with
        | Some (c :: cs) => with_columns w (c :: cs)
        | Some [] => with_columns w [default_column w]
        | None => with_columns w [default_column w]
        end
      else with_columns w [default_column w]
  | None => with_columns w [default_column w]
  end.

(** [load_items] (lines 889-898). *)
Definition load_items (db : store) (w : CustomListWidget) : CustomListWidget :=
  match get_widget_setting db (_widget_id w) "items" with
  | Some saved_items =>
      if Py.truthy saved_items then
        match loads saved_items with
        | Some its => with_items w its
        | None => with_items w []
        end
      else w
  | None => w
  end.

(** [save_columns] (lines 724-728) and [save_items] (lines 715-722). *)
Definition save_columns (db : store) (w : CustomListWidget) : store :=
  set_widget_setting db (_widget_id w) "columns" (dumps (columns w)).

Definition save_items (db : store) (w : CustomListWidget) : store :=
  set_widget_setting db (_widget_id w) "items" (dumps (items w)).

(** The setter of the property [widget_id] (lines 340-349): it loads
    the state stored under the id it is given. *)
Definition set_widget_id (db : store) (w : CustomListWidget) (value : string)
    : CustomListWidget :=
  if Py.truthy value then
    let w := {| base_widget_id := base_widget_id w; _widget_id := value;
                list_title := list_title w; default_column := default_column w;
                columns := columns w; items := items w |} in
    load_items db (load_columns db w)
  else w.

(** [edit_title] (lines 516-553); [new_title] and [ok] are what the
    dialog returns. *)
Definition edit_title (new_title : string) (ok : bool) (db : store) (w : CustomListWidget)
    : store * CustomListWidget :=
  if ok && negb (Py.is_blank new_title) then
    let old_widget_id := _widget_id w in
    let w := {| base_widget_id := base_widget_id w; _widget_id := _widget_id w;
                list_title := new_title; default_column := default_column w;
                columns := columns w; items := items w |} in
    let w := set_widget_id db w (base_widget_id w +:+ "_" +:+ sanitize (list_title w)) in
    let db := set_widget_setting db (base_widget_id w) "current_title" (list_title w) in
    if negb (String.eqb old_widget_id (_widget_id w)) then
      let db := save_columns db w in
      let db := save_items db w in
      let db := set_widget_setting db old_widget_id "columns" "[]" in
      let db := set_widget_setting db old_widget_id "items" "[]" in
      (db, w)
    else (db, w)
  else (db, w).

End Widget.

Arguments CustomListWidget : clear implicits.

End CustomList.

(** ** A concrete toolkit and registry, for the examples *)

Module Demo.

Definition quote (s : string) : string :=
  String "034"%char (s +:+ String "034"%char "").

Fixpoint join (sep : string) (l : list string) : string :=
  match l with
  | [] => ""
  | [s] => s
  | s :: l' => s +:+ sep +:+ join sep l'
  end.

Definition field {A : Type} (key : string) (show : A -> string) (o : option A)
    : list string :=
  match o with
  | Some a => [quote key +:+ ": " +:+ show a]
  | None => []
  end.

Definition object (fields : list string) : string := "{" +:+ join ", " fields +:+ "}".
Definition array (elems : list string) : string := "[" +:+ join ", " elems +:+ "]".
Definition show_bool (b : bool) : string := if b then "true" else "false".
Definition show_Z (z : Z) : string := pretty z.

Definition show_geometry (g : geometry_info) : string :=
  object (field "x" show_Z (geom_x g) ++ field "y" show_Z (geom_y g)
          ++ field "width" show_Z (geom_width g) ++ field "height" show_Z (geom_height g)).

Definition show_widget (w : widget_info) : string :=
  object (field "module_name" quote (wi_module_name w)
          ++ field "dock_name" quote (wi_dock_name w)
          ++ field "title" quote (wi_title w)
          ++ field "area" show_Z (wi_area w)
          ++ field "floating" show_bool (wi_floating w)
          ++ field "visible" show_bool (wi_visible w)
          ++ field "geometry" show_geometry (wi_geometry w)).

Definition show_dashboard (d : dashboard_info) : string :=
  object (field "state" quote (di_state d)
          ++ field "widgets" (fun ws => array (map show_widget ws)) (di_widgets d)
          ++ field "title" quote (di_title d)).

(** The text of a document, as [json.dumps] lays it out (for titles
    and names that need no escape). *)
Definition show_document (doc : list dashboard_info) : string :=
  array (map show_dashboard doc).

(** An element that is no dict is written [null]. *)
Definition show_saved (r : saved_dashboard) : string :=
  match r with
  | Saved d => show_dashboard d
  | Unreadable => "null"
  end.

(** A decoder for the documents of a given list: it decodes the text
    of each of them and raises on every other text. *)
Definition read_document (known : list (list saved_dashboard)) (s : string)
    : option (list saved_dashboard) :=
  find (fun doc => String.eqb (array (map show_saved doc)) s) ([] :: known).

Definition hidden : placement :=
  {| pl_area := 1; pl_floating := false; pl_visible := false;
     pl_geometry := {| rect_x := 0; rect_y := 0; rect_width := 300; rect_height := 200 |} |}.

(** A toolkit whose dock state is the blob [0a0b], whose
    [restoreState] hides every dock, and which leaves a dock the
    geometry it is given, as it does for a floating dock. *)
Definition toolkit_of (known : list (list saved_dashboard)) : Toolkit :=
  {| qt_saveState := fun _ => [x0a; x0b];
     qt_restoreState := fun _ _ _ => hidden;
     qt_new_dock_visible := true;
     qt_new_dock_geometry :=
       {| rect_x := 0; rect_y := 0; rect_width := 640; rect_height := 480 |};
     qt_setGeometry := fun _ _ r => r;
     json_dumps := show_document;
     json_loads := read_document known |}.

Definition toolkit (known : list (list dashboard_info)) : Toolkit :=
  toolkit_of (map (map Saved) known).

(** A class in the manner of [ClockWidget]: [widget_id] is a plain
    attribute, which the constructor sets to [start] and
    [restore_state] to the id it is given; [save_state] stores the
    text [state] under the id. *)
Definition attribute_class (name start state : string) : widget_class :=
  {| cls_name := name;
     cls_init := fun db _ _ => (PyStr start, db);
     cls_set_widget_id := fun db _ value => (PyStr value, db);
     cls_save_state := fun db a =>
       match a with
       | PyStr id => if Py.truthy id then set_widget_setting db id "state" state else db
       | _ => db
       end;
     cls_restore_state := fun db _ module_name => (PyStr module_name, db);
     cls_size_hint := None |}.

(** A class in the manner of [CustomListWidget] and of
    [CodeViewerWidget]: the constructor takes the id it is given or
    makes one of the title, and the setter of [widget_id] keeps an id
    that is not empty. *)
Definition titled_class (name base dflt : string) : widget_class :=
  {| cls_name := name;
     cls_init := fun db title widget_id =>
       let made := base +:+ "_" +:+ sanitize (default dflt title) in
       (PyStr (match widget_id with
               | Some id => if Py.truthy id then id else made
               | None => made
               end), db);
     cls_set_widget_id := fun db a value =>
       (if Py.truthy value then PyStr value else a, db);
     cls_save_state := fun db _ => db;
     cls_restore_state := fun db a _ => (a, db);
     cls_size_hint := None |}.

(** The first of [treelist], [treelist_1], [treelist_2], ... under
    which no state is stored (lines 26-31 of [tree_list/widget.py]).
    Each round but the last finds another key of the store, so one
    round more than the store has keys is enough. *)
Fixpoint free_tree_id (fuel : nat) (db : store) (test_id : string) (counter : nat)
    : string :=
  if Py.truthy (get_widget_setting_or db test_id "test_state" "") then
    match fuel with
    | O => test_id
    | S fuel' =>
        free_tree_id fuel' db ("treelist_" +:+ Py.str_of_nat counter) (S counter)
    end
  else test_id.

(** [TreeListWidget]: the constructor makes the id of the title, or
    takes the first that is free; the setter of [widget_id] loads a
    state and stores nothing (lines 75-89); [save_state] stores the
    text of the items under the id. *)
Definition tree_class : widget_class :=
  {| cls_name := "TreeListWidget";
     cls_init := fun db title _ =>
       (PyStr (match title with
               | Some t =>
                   if Py.truthy t && negb (String.eqb t "Tree List")
                   then "treelist_" +:+ sanitize t
                   else free_tree_id (S (size db)) db "treelist" 1
               | None => free_tree_id (S (size db)) db "treelist" 1
               end), db);
     cls_set_widget_id := fun db a _ => (a, db);
     cls_save_state := fun db a =>
       match a with
       | PyStr id =>
           if Py.truthy id
           then set_widget_setting db id "test_state"
                  (default (object [quote "items" +:+ ": []"])
                           (get_widget_setting db id "test_state"))
           else db
       | _ => db
       end;
     cls_restore_state := fun db a _ => (a, db);
     cls_size_hint := None |}.

Definition plugin (name : string) (cls : widget_class) (multiple : bool) : plugin_info :=
  {| pi_name := Some name; pi_title := Some name;
     pi_widget_class := Some cls;
     pi_supports_multiple := if multiple then Some true else None |}.

Definition clock_state : string := object [quote "timezones" +:+ ": []"].

(** Some of the plugins [_load_builtin_plugins] registers; the tree
    list is there under the name made of its class, [treelist]. *)
Definition registry : gmap string plugin_info :=
  <["clock" := plugin "Clock" (attribute_class "ClockWidget" "clock" clock_state) false]>
  (<["custom_list" :=
       plugin "Custom List" (titled_class "CustomListWidget" "custom_list" "Custom List")
         true]>
  (<["code_viewer" :=
       plugin "Code Viewer" (titled_class "CodeViewerWidget" "code_viewer" "Code Viewer")
         true]>
  (<["tree_list" := plugin "Tree List" tree_class true]>
  (<["treelist" := plugin "Tree List" tree_class true]> ∅)))).

Definition window (ts : list (string * DashboardTab)) (stored : store) : MainWindow :=
  {| tabs := ts; currentIndex := match ts with [] => None | _ => Some 0%nat end;
     db := stored; plugins := registry; window_visible := false; trace := [] |}.

Definition entry (module_name dock_name title : string) (x y w h : Z) : widget_info :=
  {| wi_module_name := Some module_name; wi_dock_name := Some dock_name;
     wi_title := Some title; wi_area := Some 2; wi_floating := Some false;
     wi_visible := Some true;
     wi_geometry := Some {| geom_x := Some x; geom_y := Some y;
                            geom_width := Some w; geom_height := Some h |} |}.

End Demo.

(** * Properties *)

(** ** Hexadecimal text of a blob *)




(** ** Dock names and widget identifiers *)

(** The name the loop of [add_widget] tries in its round [j]. *)
Definition name_at (base_name : string) (j : nat) : string :=
  match j with
  | O => base_name
  | S _ => base_name +:+ "_" +:+ Py.str_of_nat j
  end.

Lemma append_length (s t : string) :
  String.length (s +:+ t) = (String.length s + String.length t)%nat.
Proof. induction s as [|c s IH]; simpl; [reflexivity|]. now f_equal. Qed.

Lemma name_at_inj (base_name : string) (i j : nat) :
  name_at base_name i = name_at base_name j -> i = j.
Proof.
  destruct i as [|i], j as [|j]; cbv beta iota delta [name_at]; intros E;
    [reflexivity| | |].
  - apply (f_equal String.length) in E. rewrite !append_length in E. simpl in E. lia.
  - apply (f_equal String.length) in E. rewrite !append_length in E. simpl in E. lia.
  - apply (inj (String.app base_name)) in E. simpl in E. injection E as E.
    unfold Py.str_of_nat in E. exact (pretty_nat_inj _ _ E).
Qed.

Lemma names_taken_bound (existing : list string) (base_name : string) (n : nat) :
  (forall i, (i < n)%nat -> name_at base_name i ∈ existing) ->
  (n <= length existing)%nat.
Proof.
  intros Hall.
  assert (Hsub : (name_at base_name <$> seq 0 n) ⊆+ existing).
  { apply NoDup_submseteq.
    - apply NoDup_fmap_2_strong; [|apply NoDup_seq].
      intros i j _ _. apply name_at_inj.
    - intros x Hx. apply list_elem_of_fmap in Hx as (i & -> & Hi).
      apply elem_of_seq in Hi. apply Hall. lia. }
  apply submseteq_length in Hsub. now rewrite length_fmap, length_seq in Hsub.
Qed.

Lemma find_dock_name_loop_spec (fuel : nat) (existing : list string)
    (base_name : string) (j : nat) :
  (forall i, (i < j)%nat -> name_at base_name i ∈ existing) ->
  (length existing < j + fuel)%nat ->
  exists m,
    find_dock_name_loop fuel existing base_name (name_at base_name j) (S j)
    = (name_at base_name m, S m)
    /\ (name_at base_name m ∉ existing)
    /\ forall i, (i < m)%nat -> name_at base_name i ∈ existing.
Proof.
  revert j. induction fuel as [|fuel IH]; intros j Hbefore Hlen.
  - cbn. case_bool_decide as Hin.
    + exfalso. assert (S j <= length existing)%nat; [|lia].
      apply (names_taken_bound existing base_name). intros i Hi.
      destruct (decide (i = j)) as [->|]; [exact Hin|apply Hbefore; lia].
    + exists j. auto.
  - cbn [find_dock_name_loop]. case_bool_decide as Hin.
    + apply (IH (S j)); [|lia]. intros i Hi.
      destruct (decide (i = j)) as [->|]; [exact Hin|apply Hbefore; lia].
    + exists j. auto.
Qed.

(** The loop ends on the first free name of [dock_B, dock_B_1, ...]. *)
Lemma find_dock_name_fresh (existing : list string) (base_name : string) :
  exists m,
    find_dock_name existing base_name = (name_at base_name m, S m)
    /\ (name_at base_name m ∉ existing)
    /\ forall i, (i < m)%nat -> name_at base_name i ∈ existing.
Proof.
  unfold find_dock_name.
  apply (find_dock_name_loop_spec (S (length existing)) existing base_name 0); [|lia].
  intros i Hi. lia.
Qed.

(** ** The base module of a persisted id *)

(** The literal prefixes of lines 600-607, each with its module. *)
Definition known_prefixes : list (string * string) :=
  [("custom_list_", "custom_list"); ("code_viewer_", "code_viewer");
   ("treelist_", "tree_list"); ("wysiwyg_editor_", "wysiwyg_editor")].

(** The chain of [startswith] tests, for the prefixes in any order. *)
Fixpoint strip_by (table : list (string * string)) (module_name : string) : string :=
  match table with
  | [] => module_name
  | (p, b) :: table' =>
      if Py.startswith module_name p then b else strip_by table' module_name
  end.

(** The rule in the words of the specification: the longest registered
    module name that is a prefix of the id. *)
Definition longest_prefix_match (registered : list string) (module_name : string)
    : option string :=
  foldr (fun m best =>
           if Py.startswith module_name m then
             match best with
             | Some b => if (String.length b <? String.length m)%nat then Some m else best
             | None => Some m
             end
           else best)
        None registered.

Lemma base_module_of_strip (module_name : string) :
  base_module_of module_name = strip_by known_prefixes module_name.
Proof. reflexivity. Qed.

Lemma prefix_cons (a : ascii) (p m : string) :
  String.prefix (String a p) m = true ->
  exists m', m = String a m' /\ String.prefix p m' = true.
Proof.
  destruct m as [|c m]; cbn [String.prefix]; [discriminate|].
  destruct (ascii_dec a c) as [->|]; [|discriminate].
  intros Hp. now exists m.
Qed.

Lemma known_prefix_unique (module_name p b p' b' : string) :
  (p, b) ∈ known_prefixes -> (p', b') ∈ known_prefixes ->
  Py.startswith module_name p = true -> Py.startswith module_name p' = true ->
  b = b'.
Proof.
  unfold known_prefixes, Py.startswith. intros Hp Hp' H1 H2.
  repeat (apply elem_of_cons in Hp as [Hp|Hp]; [injection Hp as -> ->|]);
    [..|now apply elem_of_nil in Hp];
    (repeat (apply elem_of_cons in Hp' as [Hp'|Hp']; [injection Hp' as -> ->|]);
     [..|now apply elem_of_nil in Hp']);
    try reflexivity; exfalso;
    apply prefix_cons in H1 as (m1 & -> & H1);
    apply prefix_cons in H1 as (m2 & -> & H1);
    apply prefix_cons in H2 as (m3 & E & H2); try discriminate E;
    injection E as <-;
    apply prefix_cons in H2 as (m4 & E & H2); discriminate E.
Qed.

Lemma strip_by_match (table : list (string * string)) (module_name p b : string) :
  (p, b) ∈ table -> Py.startswith module_name p = true ->
  (forall p' b', (p', b') ∈ table -> Py.startswith module_name p' = true -> b' = b) ->
  strip_by table module_name = b.
Proof.
  induction table as [|[p0 b0] table IH]; intros Hin Hp Huniq.
  - now apply elem_of_nil in Hin.
  - cbn [strip_by]. destruct (Py.startswith module_name p0) eqn:E0.
    + apply (Huniq p0 b0); [left|exact E0].
    + apply elem_of_cons in Hin as [Hin|Hin]; [injection Hin as -> ->; congruence|].
      apply IH; [exact Hin|exact Hp|]. intros p' b' Hin'. apply Huniq. now right.
Qed.

Lemma strip_by_no_match (table : list (string * string)) (module_name : string) :
  (forall p b, (p, b) ∈ table -> Py.startswith module_name p = false) ->
  strip_by table module_name = module_name.
Proof.
  induction table as [|[p0 b0] table IH]; intros Hnone; [reflexivity|].
  cbn [strip_by]. rewrite (Hnone p0 b0) by left.
  apply IH. intros p b Hin. apply (Hnone p b). now right.
Qed.

Lemma strip_by_permutation (order : list (string * string)) (module_name : string) :
  order ≡ₚ known_prefixes ->
  strip_by order module_name = strip_by known_prefixes module_name.
Proof.
  intros Hperm.
  destruct (decide (Exists (fun pb => Py.startswith module_name pb.1 = true) known_prefixes))
    as [Hex|Hnot].
  - apply Exists_exists in Hex as ([p b] & Hin & Hp). cbn in Hp.
    rewrite (strip_by_match known_prefixes module_name p b Hin Hp).
    + apply (strip_by_match order module_name p b); [now rewrite Hperm|exact Hp|].
      intros p' b' Hin' Hp'. rewrite Hperm in Hin'.
      exact (known_prefix_unique module_name p' b' p b Hin' Hin Hp' Hp).
    + intros p' b' Hin' Hp'.
      exact (known_prefix_unique module_name p' b' p b Hin' Hin Hp' Hp).
  - assert (Hnone : forall p b, (p, b) ∈ known_prefixes ->
                                Py.startswith module_name p = false).
    { intros p b Hin. destruct (Py.startswith module_name p) eqn:E; [|reflexivity].
      exfalso. apply Hnot, Exists_exists. now exists (p, b). }
    rewrite (strip_by_no_match known_prefixes module_name Hnone).
    apply strip_by_no_match. intros p b Hin. rewrite Hperm in Hin. now apply (Hnone p b).
Qed.

Lemma startswith_append (p rest : string) : Py.startswith (p +:+ rest) p = true.
Proof.
  unfold Py.startswith. induction p as [|c p IH]; simpl; [now destruct rest|].
  destruct (ascii_dec c c); [exact IH|congruence].
Qed.

(** C6 (amended). The base module of a persisted id is found by the
    tests on the four literal prefixes alone, registered module names
    playing no part: an id made of one of the prefixes and any title,
    also a title that starts with another kind's prefix, resolves to
    the module of that prefix, and since no two of the prefixes match
    the same id the order of the tests does not matter. *)
Theorem base_module_of_literal_prefix (p b rest : string)
    (order : list (string * string))
    (Hin : (p, b) ∈ known_prefixes) (Hperm : order ≡ₚ known_prefixes) :
  base_module_of (p +:+ rest) = b
  /\ (forall module_name, strip_by order module_name = base_module_of module_name).
Proof.
  split.
  - rewrite base_module_of_strip.
    apply (strip_by_match known_prefixes _ p b Hin (startswith_append p rest)).
    intros p' b' Hin' Hp'.
    exact (known_prefix_unique _ p' b' p b Hin' Hin Hp' (startswith_append p rest)).
  - intros module_name. rewrite base_module_of_strip. now apply strip_by_permutation.
Qed.

Section Properties.
Context `{Toolkit}.

(** ** Saving *)

Lemma save_docks_visible (docks : list dock) :
  Forall (fun wi => wi_visible wi = Some true) (save_docks docks).
Proof.
  induction docks as [|d docks IH]; cbn [save_docks]; [constructor|].
  destruct (save_dock d) as [[wi|]|e] eqn:E; try exact IH.
  constructor; [|exact IH].
  unfold save_dock in E. destruct (dock_widget d) as [w|]; [|discriminate].
  destruct (module_name_of w); cbn in E; [|discriminate].
  injection E as <-. reflexivity.
Qed.

Definition with_visible (f : dock -> bool) (d : dock) : dock :=
  {| objectName := objectName d; windowTitle := windowTitle d;
     dock_area := dock_area d; isFloating := isFloating d;
     isVisible := f d; geometry := geometry d; dock_widget := dock_widget d |}.

Lemma save_docks_ignores_visibility (f : dock -> bool) (docks : list dock) :
  save_docks (map (with_visible f) docks) = save_docks docks.
Proof.
  induction docks as [|d docks IH]; [reflexivity|].
  cbn [map save_docks]. rewrite IH. reflexivity.
Qed.

(** C10. Every widget record that a save captures has [visible] equal
    to true, and the records are the same whatever the visibility of
    the docks at capture time (hidden docks included). *)
Theorem save_always_records_visible (dashboard : DashboardTab) (f : dock -> bool) :
  Forall (fun wi => wi_visible wi = Some true)
    (default [] (di_widgets (save_dashboard_layout dashboard)))
  /\ di_widgets (save_dashboard_layout
                   {| dash_title := dash_title dashboard;
                      dash_docks := map (with_visible f) (dash_docks dashboard) |})
     = di_widgets (save_dashboard_layout dashboard).
Proof.
  split.
  - apply save_docks_visible.
  - unfold save_dashboard_layout; cbn. now rewrite save_docks_ignores_visibility.
Qed.

(** ** The default dashboard *)

Lemma add_dashboard_tabs (answer : string * bool) (mw : MainWindow) :
  exists title,
    tabs (add_dashboard answer mw)
    = tabs mw ++ [(title, {| dash_title := title; dash_docks := [] |})]
    /\ (window_visible mw = false ->
        title = "Dashboard " +:+ Py.str_of_nat (length (tabs mw) + 1)).
Proof.
  unfold add_dashboard. destruct answer as [text ok].
  destruct (window_visible mw); cbn.
  - destruct (negb ok || Py.is_blank text); eexists; (split; [reflexivity|discriminate]).
  - eexists; split; reflexivity.
Qed.

Lemma add_dashboard_trace (answer : string * bool) (mw : MainWindow) :
  trace (add_dashboard answer mw) = trace mw.
Proof. unfold add_dashboard. destruct answer, (window_visible mw); reflexivity. Qed.

(** C2. When the workspace key is absent, or holds a text that is not
    JSON, or holds the empty list, [restore_layout] is one call of
    [add_dashboard]: the tabs gain exactly one dashboard, which has no
    widget, and nothing else is restored (no event on any dock). On
    the window as it starts, without tabs, that is exactly one
    dashboard. *)
Theorem restore_layout_default (answer : string * bool) (mw : MainWindow)
    (Hempty : json_loads "[]" = Some [])
    (Hstored :
       get_widget_setting (db mw) "main_window" "dashboards" = None
       \/ exists s, get_widget_setting (db mw) "main_window" "dashboards" = Some s
                    /\ (json_loads s = None \/ json_loads s = Some [])) :
  restore_layout answer mw = add_dashboard answer mw
  /\ (exists title,
        tabs (restore_layout answer mw)
        = tabs mw ++ [(title, {| dash_title := title; dash_docks := [] |})])
  /\ trace (restore_layout answer mw) = trace mw
  /\ (tabs mw = [] -> length (tabs (restore_layout answer mw)) = 1%nat).
Proof.
  assert (E : restore_layout answer mw = add_dashboard answer mw).
  { unfold restore_layout, get_widget_setting_or, get_widget_setting in *.
    destruct Hstored as [-> | (s & -> & [Hs | Hs])]; simpl;
      [rewrite Hempty | rewrite Hs ..]; reflexivity. }
  rewrite E. destruct (add_dashboard_tabs answer mw) as (title & Ht & _).
  split; [reflexivity|]. split; [exists title; exact Ht|].
  split; [apply add_dashboard_trace|].
  intros Hnil. rewrite Ht, Hnil. reflexivity.
Qed.

(** ** The phases of a dashboard restore *)

(** The entry names a plugin with a widget class. *)
Definition resolves (plugins : gmap string plugin_info) (instance : widget_info) : bool :=
  match resolve plugins instance with Some _ => true | None => false end.

(** The id of the widget in a dock, and the id an entry persists. *)
Definition dock_id (d : dock) : string :=
  match dock_widget d with
  | Some w => match w_widget_id w with PyStr s => s | _ => "" end
  | None => ""
  end.

Definition entry_id (instance : widget_info) : string :=
  default "" (wi_module_name instance).

(** The class of the widget in a dock, and the class an entry resolves
    to. *)
Definition dock_class (d : dock) : option widget_class :=
  w_class <$> dock_widget d.

Definition entry_class (plugins : gmap string plugin_info) (instance : widget_info)
    : option widget_class :=
  match resolve plugins instance with
  | Some (_, _, cls) => Some cls
  | None => None
  end.

(** The constructor of the class takes the id it is given by keyword,
    as that of [CustomListWidget] does. *)
Definition stores_keyword (cls : widget_class) : Prop :=
  forall db title v, Py.truthy v = true -> (cls_init cls db title (Some v)).1 = PyStr v.

(** The class keeps the id that is assigned to [widget_id], as a class
    with a plain attribute does, and [restore_state] leaves it. *)
Definition stores_assignment (cls : widget_class) : Prop :=
  forall db a v,
    Py.truthy v = true ->
    (cls_set_widget_id cls db a v).1 = PyStr v
    /\ (cls_restore_state cls db (PyStr v) v).1 = PyStr v.

(** The widget a restore creates of the class for the saved id reads
    that id: by the keyword for a custom list, in any case for a tree
    list, whose [_widget_id] is set, and by the assignment of line 711
    for the other kinds. [TreeListWidget], which the registry also has
    under [treelist], does not store what is assigned. *)
Definition keeps_saved_id (module_name : string) (cls : widget_class) : Prop :=
  if String.eqb (base_module_of module_name) "custom_list" then stores_keyword cls
  else if String.eqb (base_module_of module_name) "tree_list" then True
  else stores_assignment cls.

Definition create_event (p : nat * widget_info) : event :=
  EvCreate p.1 (entry_id p.2).

Lemma resolve_module_name (plugins : gmap string plugin_info) (instance : widget_info)
    (module_name : string) (pi : plugin_info) (cls : widget_class) :
  resolve plugins instance = Some (module_name, pi, cls) ->
  module_name = entry_id instance.
Proof.
  unfold resolve, entry_id.
  destruct (negb (Py.truthy (default "" (wi_module_name instance)))); [discriminate|].
  destruct (plugins !! _) as [pi'|]; [|discriminate]. cbn.
  destruct (pi_widget_class pi') as [cls'|]; [|discriminate]. cbn.
  now intros [= <- _ _].
Qed.

Lemma resolves_truthy (plugins : gmap string plugin_info) (instance : widget_info) :
  resolves plugins instance = true -> Py.truthy (entry_id instance) = true.
Proof.
  unfold resolves, resolve, entry_id.
  now destruct (Py.truthy (default "" (wi_module_name instance))).
Qed.

Lemma widget_at_last (t : string) (docks : list dock) (d : dock) :
  widget_at (length docks) {| dash_title := t; dash_docks := docks ++ [d] |}
  = dock_widget d.
Proof.
  unfold widget_at. cbn [dash_docks].
  rewrite lookup_app_r by lia. now rewrite Nat.sub_diag.
Qed.

Lemma with_widget_id_at_last (a : attr) (t : string) (docks : list dock) (d : dock) :
  with_widget_id_at a (length docks) {| dash_title := t; dash_docks := docks ++ [d] |}
  = {| dash_title := t; dash_docks := docks ++ [with_widget_id a d] |}.
Proof.
  unfold with_widget_id_at. cbn [dash_title dash_docks].
  rewrite alter_app_r_alt by reflexivity. now rewrite Nat.sub_diag.
Qed.

Lemma with_widget_id_none (a : attr) (d : dock) :
  dock_widget d = None -> with_widget_id a d = d.
Proof. intros Hw. destruct d. cbn in *. now rewrite Hw. Qed.

(** The assignment of line 711 on a dock that was just added: the
    dock keeps all but what its widget reads as its id. *)
Lemma set_widget_id_last (module_name : string) (db : store) (t : string)
    (docks : list dock) (d : dock) :
  exists a,
    (set_widget_id (length docks) module_name db
       {| dash_title := t; dash_docks := docks ++ [d] |}).1
    = {| dash_title := t; dash_docks := docks ++ [with_widget_id a d] |}
    /\ forall w, dock_widget d = Some w ->
         a = (cls_set_widget_id (w_class w) db (w_widget_id w) module_name).1.
Proof.
  unfold set_widget_id. rewrite widget_at_last.
  destruct (dock_widget d) as [w|] eqn:Hw.
  - eexists. cbn [fst]. rewrite with_widget_id_at_last. split; [reflexivity|].
    now intros w' [= <-].
  - exists NoAttr. cbn [fst]. split; [|discriminate].
    now rewrite with_widget_id_none.
Qed.

(** Lines 714-723 on a dock that was just added. *)
Lemma restore_widget_state_last (module_name : string) (db : store) (t : string)
    (docks : list dock) (d : dock) :
  (restore_widget_state (length docks) module_name db
     {| dash_title := t; dash_docks := docks ++ [d] |}).1
  = {| dash_title := t; dash_docks := docks ++ [d] |}
  \/ exists w,
       dock_widget d = Some w
       /\ (restore_widget_state (length docks) module_name db
             {| dash_title := t; dash_docks := docks ++ [d] |}).1
          = {| dash_title := t;
               dash_docks :=
                 docks ++ [with_widget_id
                             (cls_restore_state (w_class w) db (w_widget_id w) module_name).1
                             d] |}.
Proof.
  unfold restore_widget_state. rewrite widget_at_last.
  destruct (dock_widget d) as [w|] eqn:Hw; [|now left].
  destruct (get_widget_setting db module_name "state") as [saved|]; [|now left].
  destruct (Py.truthy saved); [|now left].
  right. exists w. split; [reflexivity|]. cbn [fst]. apply with_widget_id_at_last.
Qed.

(** The dock [add_widget] adds. *)
Lemma add_widget_to_spec (di : nat) (db : store) (dashboard : DashboardTab)
    (cls : widget_class) (widget_name widget_title : string) (area : Z) :
  exists (m : nat) (d : dock),
    let display_title := display_title_of widget_title (S m) in
    let id := new_widget_id widget_name display_title di (S m) in
    let created := new_widget db cls widget_name display_title id in
    add_widget_to di db dashboard cls widget_name widget_title area
    = ({| dash_title := dash_title dashboard; dash_docks := dash_docks dashboard ++ [d] |},
       length (dash_docks dashboard), id,
       cls_save_state cls created.2 (w_widget_id created.1))
    /\ find_dock_name (map objectName (dash_docks dashboard)) ("dock_" +:+ widget_name)
       = (name_at ("dock_" +:+ widget_name) m, S m)
    /\ objectName d = name_at ("dock_" +:+ widget_name) m
    /\ windowTitle d = display_title
    /\ dock_area d = area
    /\ dock_widget d = Some created.1.
Proof.
  destruct (find_dock_name_fresh (map objectName (dash_docks dashboard))
              ("dock_" +:+ widget_name)) as (m & E & _).
  exists m. unfold add_widget_to. rewrite E. cbv beta iota zeta.
  eexists. split; [reflexivity|]. cbn [objectName windowTitle dock_area dock_widget new_dock].
  repeat split.
Qed.

Lemma new_widget_class (db : store) (cls : widget_class)
    (widget_name display_title widget_id : string) :
  w_class (new_widget db cls widget_name display_title widget_id).1 = cls.
Proof.
  unfold new_widget. destruct (cls_init cls db _ None) as [a db1].
  destruct (String.eqb widget_name "tree_list"); [reflexivity|].
  destruct (hasattr a); [|reflexivity].
  now destruct (cls_set_widget_id cls db1 a widget_id).
Qed.

Lemma restore_instance_spec (plugins : gmap string plugin_info) (di : nat) (db : store)
    (dashboard : DashboardTab) (instance : widget_info) :
  match restore_instance plugins di db dashboard instance with
  | None => resolves plugins instance = false
  | Some (dashboard', k, _) =>
      resolves plugins instance = true
      /\ k = length (dash_docks dashboard)
      /\ dash_title dashboard' = dash_title dashboard
      /\ exists d cls,
           dash_docks dashboard' = dash_docks dashboard ++ [d]
           /\ entry_class plugins instance = Some cls
           /\ dock_class d = Some cls
           /\ (keeps_saved_id (entry_id instance) cls -> dock_id d = entry_id instance)
  end.
Proof.
  unfold restore_instance, resolves, entry_class.
  destruct (resolve plugins instance) as [[[module_name pi] cls]|] eqn:E; [|reflexivity].
  assert (Htruthy : Py.truthy (entry_id instance) = true).
  { apply (resolves_truthy plugins). unfold resolves. now rewrite E. }
  apply resolve_module_name in E. rewrite <- E in *. clear E. unfold keeps_saved_id.
  destruct (String.eqb (base_module_of module_name) "custom_list").
  { repeat split. eexists _, cls. split; [reflexivity|]. split; [reflexivity|].
    split; [reflexivity|]. intros Hkw. unfold dock_id. cbn.
    now rewrite (Hkw db _ module_name Htruthy). }
  destruct (String.eqb (base_module_of module_name) "tree_list").
  { repeat split. eexists _, cls. repeat split. }
  destruct (add_widget_to_spec di db dashboard cls (base_module_of module_name)
              (default (default "Widget" (pi_title pi)) (wi_title instance))
              (default RightDockWidgetArea (wi_area instance)))
    as (m & d & Eadd & _ & _ & _ & _ & Hw).
  cbv zeta in Eadd, Hw. rewrite Eadd. clear Eadd.
  set (db1 := cls_save_state cls _ _). clearbody db1.
  set (created := new_widget _ _ _ _ _) in Hw.
  assert (Hcls : w_class created.1 = cls) by apply new_widget_class.
  clearbody created.
  destruct (set_widget_id_last module_name db1 (dash_title dashboard)
              (dash_docks dashboard) d) as (a & Hset & Ha).
  destruct (set_widget_id _ _ _ _) as [dashboard1 db2]. cbn [fst] in Hset. subst dashboard1.
  specialize (Ha _ Hw). rewrite Hcls in Ha.
  assert (Hw1 : dock_widget (with_widget_id a d)
                = Some {| w_class := cls; w_widget_id := a;
                          w_list_title := w_list_title created.1 |}).
  { cbn. now rewrite Hw, Hcls. }
  destruct (restore_widget_state_last module_name db2 (dash_title dashboard)
              (dash_docks dashboard) (with_widget_id a d)) as [Hsame|(w & Hw2 & Hrs)].
  - destruct (restore_widget_state _ _ _ _) as [dashboard2 db3]. cbn [fst] in Hsame.
    subst dashboard2. cbn [dash_title dash_docks]. repeat split.
    eexists _, cls. split; [reflexivity|]. split; [reflexivity|].
    split; [unfold dock_class; now rewrite Hw1|].
    intros Hassign. unfold dock_id. rewrite Hw1. cbn [w_widget_id]. rewrite Ha.
    now rewrite (proj1 (Hassign db1 (w_widget_id created.1) module_name Htruthy)).
  - destruct (restore_widget_state _ _ _ _) as [dashboard2 db3]. cbn [fst] in Hrs.
    subst dashboard2. cbn [dash_title dash_docks]. repeat split.
    rewrite Hw1 in Hw2. injection Hw2 as <-. cbn [w_class w_widget_id].
    eexists _, cls. split; [reflexivity|]. split; [reflexivity|].
    split; [unfold dock_class; cbn; rewrite Hw; cbn; now rewrite Hcls|].
    intros Hassign. rewrite Ha.
    rewrite (proj1 (Hassign db1 (w_widget_id created.1) module_name Htruthy)).
    rewrite (proj2 (Hassign db2 (PyStr module_name) module_name Htruthy)).
    unfold dock_id. cbn. rewrite Hw. reflexivity.
Qed.

(** What the loop creates, whatever the store: a dock for every entry
    that resolves, after the docks that were there, in the order of
    the entries, with a widget of the class of the entry, which reads
    the saved id when its class keeps the id the restore gives it. *)
Lemma create_widgets_spec (plugins : gmap string plugin_info) (di : nat) (db : store)
    (instances : list widget_info) (dashboard : DashboardTab) :
  exists new,
    let r := create_widgets plugins di db instances dashboard in
    dash_docks r.1.1.1 = dash_docks dashboard ++ new
    /\ dash_title r.1.1.1 = dash_title dashboard
    /\ map fst r.1.1.2 = seq (length (dash_docks dashboard)) (length new)
    /\ map snd r.1.1.2 = List.filter (resolves plugins) instances
    /\ map dock_class new = map (entry_class plugins) (map snd r.1.1.2)
    /\ Forall2 (fun d instance =>
                  forall cls, entry_class plugins instance = Some cls ->
                              keeps_saved_id (entry_id instance) cls ->
                              dock_id d = entry_id instance)
         new (map snd r.1.1.2)
    /\ r.1.2 = map create_event r.1.1.2.
Proof.
  revert db dashboard.
  induction instances as [|instance instances IH]; intros db dashboard.
  - exists []. cbn. rewrite app_nil_r. repeat split. constructor.
  - cbn [create_widgets List.filter].
    pose proof (restore_instance_spec plugins di db dashboard instance) as Hone.
    destruct (restore_instance plugins di db dashboard instance) as [[[dashboard' k] db']|].
    + destruct Hone as (-> & -> & Ht & d & cls & Hd & Hec & Hdc & Hid).
      destruct (IH db' dashboard') as (new & Hdocks & Htitle & Hfst & Hsnd & Hcls & Hids & Hevs).
      destruct (create_widgets plugins di db' instances dashboard')
        as [[[dashboard'' docks] evs] db''].
      cbn in *. exists (d :: new). rewrite Hdocks, Hd, <- app_assoc.
      rewrite Hd, length_app in Hfst. cbn in Hfst.
      repeat split; try congruence.
      * cbn. f_equal. rewrite Hfst. f_equal. lia.
      * cbn. rewrite Hcls, Hdc, Hec. reflexivity.
      * constructor; [|exact Hids]. intros cls' Hcls' Hkeeps.
        apply Hid. congruence.
      * unfold create_event at 1. cbn. now f_equal.
    + rewrite Hone. apply IH.
Qed.

(** The three phases, one after the other. *)
Lemma restore_dashboard_body_phases (plugins : gmap string plugin_info) (di : nat)
    (db : store) (dashboard : DashboardTab) (info : dashboard_info) :
  let c := create_widgets plugins di db (default [] (di_widgets info)) dashboard in
  let s := restore_dashboard_state info c.1.1.2 (dash_docks c.1.1.1) in
  let e := ensure_visible c.1.1.2 s.1 in
  restore_dashboard_body plugins di db dashboard info
  = Ok ({| dash_title := dash_title c.1.1.1; dash_docks := e.1 |}, c.1.1.2,
        c.1.2 ++ s.2 ++ e.2, c.2).
Proof.
  unfold restore_dashboard_body.
  destruct (create_widgets _ _ _ _ _) as [[[dashboard' docks] evs1] db']. cbn.
  destruct (restore_dashboard_state _ _ _) as [live evs2]. cbn.
  destruct (ensure_visible _ _) as [live' evs3]. reflexivity.
Qed.

(** ** What the later phases keep and what they change *)

Lemma alter_keeps_widgets (f : dock -> dock) (k : nat) (live : list dock) :
  (forall d, dock_widget (f d) = dock_widget d) ->
  map dock_widget (alter f k live) = map dock_widget live.
Proof.
  intros Hf. change (dock_widget <$> alter f k live = dock_widget <$> live).
  rewrite (list_fmap_alter dock_widget f id) by (apply Forall_true; exact Hf).
  now apply list_alter_id.
Qed.

Lemma restoreState_keeps_widgets (blob : list byte) (live : list dock) :
  map dock_widget (restoreState blob live) = map dock_widget live.
Proof.
  unfold restoreState. apply list_eq. intros i.
  change (map dock_widget) with (fmap (M:=list) dock_widget).
  rewrite !list_lookup_fmap, list_lookup_imap. now destruct (live !! i).
Qed.

Lemma reapply_visibility_keeps_widgets (widget_states : list (nat * bool))
    (live : list dock) :
  map dock_widget (reapply_visibility widget_states live).1 = map dock_widget live.
Proof.
  revert live. induction widget_states as [|[k v] rest IH]; intros live; [reflexivity|].
  cbn [reapply_visibility]. destruct v; [|apply IH].
  specialize (IH (alter set_visible k live)).
  destruct (reapply_visibility rest (alter set_visible k live)) as [live' evs].
  cbn in *. rewrite IH. now apply alter_keeps_widgets.
Qed.

(** The blob line 744 applies, if it applies one: some dock was
    created, the record has a non-empty [state], it is hexadecimal
    text, and the bytes are not empty. *)
Definition state_blob (info : dashboard_info) (docks : list (nat * widget_info))
    : option (list byte) :=
  match docks, di_state info with
  | _ :: _, Some state =>
      if Py.truthy state then
        match Hex.fromhex state with
        | Some (b :: bs) => Some (b :: bs)
        | _ => None
        end
      else None
  | _, _ => None
  end.

(** The visibility line 741 reads off each dock created. *)
Definition widget_states_of (docks : list (nat * widget_info)) (live : list dock)
    : list (nat * bool) :=
  map (fun p => (p.1, dock_visible live p.1)) docks.

Definition read_event (s : nat * bool) : event := EvReadVisible s.1 s.2.

Lemma restore_dashboard_state_spec (info : dashboard_info)
    (docks : list (nat * widget_info)) (live : list dock) :
  restore_dashboard_state info docks live
  = match state_blob info docks with
    | None => (live, [])
    | Some blob =>
        let r := reapply_visibility (widget_states_of docks live) (restoreState blob live) in
        (r.1, map read_event (widget_states_of docks live) ++ EvRestoreState blob :: r.2)
    end.
Proof.
  unfold restore_dashboard_state, state_blob.
  destruct docks as [|p docks]; [reflexivity|].
  destruct (di_state info) as [state|]; [|reflexivity].
  destruct (Py.truthy state); [|reflexivity].
  unfold restore_state_body. destruct (Hex.fromhex state) as [[|b bs]|]; try reflexivity.
  unfold mbind, result_bind.
  assert (Hst : map (fun '(k, _) => (k, dock_visible live k)) (p :: docks)
                = widget_states_of (p :: docks) live).
  { apply map_ext. now intros [k wi]. }
  rewrite Hst.
  assert (Hrd : map (fun '(k, v) => EvReadVisible k v) (widget_states_of (p :: docks) live)
                = map read_event (widget_states_of (p :: docks) live)).
  { apply map_ext. now intros [k v]. }
  rewrite Hrd.
  now destruct (reapply_visibility _ _).
Qed.


Lemma restore_dashboard_state_keeps_widgets (info : dashboard_info)
    (docks : list (nat * widget_info)) (live : list dock) :
  map dock_widget (restore_dashboard_state info docks live).1 = map dock_widget live.
Proof.
  rewrite restore_dashboard_state_spec. destruct (state_blob info docks); [|reflexivity].
  cbn. now rewrite reapply_visibility_keeps_widgets, restoreState_keeps_widgets.
Qed.

(** The rounds of the last loop, by what they do. *)
Lemma ensure_visible_body_cases (k : nat) (instance : widget_info) (live : list dock) :
  match ensure_visible_body k instance live with
  | Ok (live', evs) =>
      match wi_geometry instance with
      | Some geom =>
          exists r,
            normalize_geometry geom = Ok r
            /\ fits r = true
            /\ live' = alter set_visible k
                         (alter (set_geometry (qt_setGeometry live k r)) k live)
            /\ evs = [EvSetGeometry k r; EvSetVisible k]
      | None => live' = alter set_visible k live /\ evs = [EvSetVisible k]
      end
  | Raise _ =>
      exists geom,
        wi_geometry instance = Some geom
        /\ match normalize_geometry geom with
           | Ok r => fits r = false
           | Raise _ => True
           end
  end.
Proof.
  unfold ensure_visible_body, setGeometry.
  destruct (wi_geometry instance) as [geom|]; cbn; [|now split].
  destruct (normalize_geometry geom) as [r|e] eqn:Hn; cbn;
    [|exists geom; now rewrite Hn].
  destruct (fits r) eqn:Hfit; cbn.
  - now exists r.
  - exists geom. now rewrite Hn.
Qed.

Lemma ensure_visible_body_keeps_widgets (k : nat) (instance : widget_info)
    (live live' : list dock) (evs : list event) :
  ensure_visible_body k instance live = Ok (live', evs) ->
  map dock_widget live' = map dock_widget live.
Proof.
  intros E. pose proof (ensure_visible_body_cases k instance live) as Hc.
  rewrite E in Hc. destruct (wi_geometry instance) as [geom|].
  - destruct Hc as (r & _ & _ & -> & _). now rewrite !alter_keeps_widgets.
  - destruct Hc as [-> _]. now rewrite alter_keeps_widgets.
Qed.

Lemma ensure_visible_keeps_widgets (docks : list (nat * widget_info)) (live : list dock) :
  map dock_widget (ensure_visible docks live).1 = map dock_widget live.
Proof.
  revert live. induction docks as [|[k instance] docks IH]; intros live; [reflexivity|].
  cbn [ensure_visible].
  destruct (ensure_visible_body k instance live) as [[live' evs]|e] eqn:E; [|apply IH].
  specialize (IH live'). destruct (ensure_visible docks live') as [live'' evs'].
  cbn in *. rewrite IH. now apply ensure_visible_body_keeps_widgets in E.
Qed.

Lemma widgets_length (live live' : list dock) :
  map dock_widget live' = map dock_widget live -> length live' = length live.
Proof. intros E. apply (f_equal length) in E. now rewrite !length_map in E. Qed.

Lemma widgets_dock_id (live live' : list dock) :
  map dock_widget live' = map dock_widget live -> map dock_id live' = map dock_id live.
Proof.
  intros E.
  pose (f := fun o : option widget =>
               match o with
               | Some w => match w_widget_id w with PyStr s => s | _ => "" end
               | None => ""
               end).
  assert (Hf : forall l, map dock_id l = map f (map dock_widget l)).
  { intros l. rewrite map_map. reflexivity. }
  now rewrite !Hf, E.
Qed.

Lemma widgets_dock_class (live live' : list dock) :
  map dock_widget live' = map dock_widget live ->
  map dock_class live' = map dock_class live.
Proof.
  intros E.
  assert (Hf : forall l, map dock_class l = map (fmap w_class) (map dock_widget l)).
  { intros l. rewrite map_map. reflexivity. }
  now rewrite !Hf, E.
Qed.

(** ** Visibility and geometry through the phases *)








(** A round of the last loop leaves alone the docks it is not for. *)
Lemma ensure_visible_body_other (k : nat) (instance : widget_info)
    (live live' : list dock) (evs : list event) (j : nat) :
  ensure_visible_body k instance live = Ok (live', evs) ->
  k <> j -> live' !! j = live !! j.
Proof.
  intros E Hne. pose proof (ensure_visible_body_cases k instance live) as Hc.
  rewrite E in Hc. destruct (wi_geometry instance) as [geom|].
  - destruct Hc as (r & _ & _ & -> & _). now rewrite !list_lookup_alter_ne.
  - destruct Hc as [-> _]. now rewrite list_lookup_alter_ne.
Qed.

(** The last loop leaves alone the docks it is not given. *)
Lemma ensure_visible_other (docks : list (nat * widget_info)) (live : list dock) (j : nat) :
  j ∉ map fst docks -> (ensure_visible docks live).1 !! j = live !! j.
Proof.
  revert live. induction docks as [|[k instance] docks IH]; intros live Hj; [reflexivity|].
  cbn [ensure_visible]. cbn in Hj. apply not_elem_of_cons in Hj as [Hne Hj].
  destruct (ensure_visible_body k instance live) as [[live' evs]|e] eqn:E; [|now apply IH].
  specialize (IH live' Hj). destruct (ensure_visible docks live') as [live'' evs'].
  cbn in *. rewrite IH. apply (ensure_visible_body_other _ _ _ _ _ _ E). congruence.
Qed.


Definition full_geometry (x y w h : Z) : geometry_info :=
  {| geom_x := Some x; geom_y := Some y; geom_width := Some w; geom_height := Some h |}.






(** ** One dashboard restored *)





(** The docks of a dashboard once its restore is over: those that were
    there and the docks created, with the widgets the first loop gave
    them. *)
Lemma restored_docks_widgets (plugins : gmap string plugin_info) (di : nat) (db : store)
    (dashboard : DashboardTab) (info : dashboard_info) :
  let c := create_widgets plugins di db (default [] (di_widgets info)) dashboard in
  let s := restore_dashboard_state info c.1.1.2 (dash_docks c.1.1.1) in
  map dock_widget (ensure_visible c.1.1.2 s.1).1 = map dock_widget (dash_docks c.1.1.1).
Proof.
  cbn zeta. now rewrite ensure_visible_keeps_widgets, restore_dashboard_state_keeps_widgets.
Qed.





(** ** The identifier [add_widget] gives *)

(** C5 (amended). [add_widget] disambiguates the object name of the
    dock, not the widget id: the dock is named [dock_B], or, when that
    name is taken among the live docks of the dashboard, [dock_B_n]
    for the first [n >= 1] that is free; the counter is [n + 1], and
    the title shown is [T] in the first case and [T counter] in the
    second. The id [add_widget] chooses is [B] verbatim except for
    four kinds: [custom_list], [code_viewer] and [wysiwyg_editor] get
    [B_] and the shown title in lower case with every space replaced
    by an underscore, and [tree_list] gets [treelist_d<tab>_<counter>].
    The widget is of the class given; it reads the id chosen when it
    is a tree list, whose [_widget_id] is set, and otherwise when it
    has the attribute [widget_id] and its class stores what is
    assigned to it; a widget without the attribute is assigned
    nothing. *)
Theorem add_widget_identifier (dashboard_index : nat) (db : store)
    (dashboard : DashboardTab) (cls : widget_class) (widget_name widget_title : string)
    (area : Z) :
  let existing := map objectName (dash_docks dashboard) in
  let base_name := "dock_" +:+ widget_name in
  exists (m : nat) (d : dock) (w : widget) (db' : store),
    let display_title := display_title_of widget_title (S m) in
    let id := new_widget_id widget_name display_title dashboard_index (S m) in
    let created := cls_init cls db (title_keyword widget_name display_title) None in
    add_widget_to dashboard_index db dashboard cls widget_name widget_title area
    = ({| dash_title := dash_title dashboard; dash_docks := dash_docks dashboard ++ [d] |},
       length (dash_docks dashboard), id, db')
    /\ objectName d = name_at base_name m
    /\ (objectName d ∉ existing)
    /\ (forall i, (i < m)%nat -> name_at base_name i ∈ existing)
    /\ windowTitle d = display_title
    /\ (m = 0%nat -> display_title = widget_title)
    /\ (widget_name ∉ ["tree_list"; "custom_list"; "code_viewer"; "wysiwyg_editor"] ->
        id = widget_name)
    /\ (widget_name ∈ ["custom_list"; "code_viewer"; "wysiwyg_editor"] ->
        id = widget_name +:+ "_" +:+ sanitize display_title)
    /\ (widget_name = "tree_list" ->
        id = "treelist_d" +:+ Py.str_of_nat dashboard_index
               +:+ "_" +:+ Py.str_of_nat (S m))
    /\ dock_widget d = Some w
    /\ w_class w = cls
    /\ (widget_name = "tree_list" -> w_widget_id w = PyStr id)
    /\ (widget_name <> "tree_list" ->
        w_widget_id w
        = if hasattr created.1 then (cls_set_widget_id cls created.2 created.1 id).1
          else NoAttr)
    /\ (widget_name <> "tree_list" -> hasattr created.1 = true ->
        (cls_set_widget_id cls created.2 created.1 id).1 = PyStr id ->
        dock_id d = id).
Proof.
  cbn zeta.
  destruct (find_dock_name_fresh (map objectName (dash_docks dashboard))
              ("dock_" +:+ widget_name)) as (m & E & Hfresh & Hbefore).
  destruct (add_widget_to_spec dashboard_index db dashboard cls widget_name widget_title area)
    as (m' & d & Eadd & E' & Hname & Htitle & _ & Hw).
  rewrite E in E'. injection E' as Hnames Hm. subst m'.
  clear Hnames. cbv zeta in Eadd, Htitle, Hw.
  exists m, d. eexists _, _. split; [exact Eadd|].
  split; [exact Hname|]. split; [now rewrite Hname|]. split; [exact Hbefore|].
  split; [exact Htitle|].
  split; [intros ->; reflexivity|].
  split.
  { intros Hnot. unfold new_widget_id.
    apply not_elem_of_cons in Hnot as [H1 Hnot].
    apply not_elem_of_cons in Hnot as [H2 Hnot].
    apply not_elem_of_cons in Hnot as [H3 Hnot].
    apply not_elem_of_cons in Hnot as [H4 _].
    apply String.eqb_neq in H1, H2, H3, H4. now rewrite H1, H2, H3, H4. }
  split.
  { intros Hin_names. unfold new_widget_id.
    repeat (apply elem_of_cons in Hin_names as [->|Hin_names]; [reflexivity|]).
    now apply elem_of_nil in Hin_names. }
  split; [intros ->; reflexivity|].
  split; [exact Hw|]. split; [apply new_widget_class|].
  set (display_title := display_title_of widget_title (S m)) in *.
  set (id := new_widget_id widget_name display_title dashboard_index (S m)) in *.
  assert (Hattr : w_widget_id (new_widget db cls widget_name display_title id).1
                  = if String.eqb widget_name "tree_list" then PyStr id
                    else let created := cls_init cls db
                                          (title_keyword widget_name display_title) None in
                         if hasattr created.1
                         then (cls_set_widget_id cls created.2 created.1 id).1
                         else NoAttr).
  { unfold new_widget. destruct (cls_init cls db _ None) as [a db1]. cbn [fst snd].
    destruct (String.eqb widget_name "tree_list"); [reflexivity|].
    destruct a as [| |s]; cbn [hasattr]; [reflexivity| |];
      now destruct (cls_set_widget_id cls db1 _ id). }
  split; [|split].
  - intros ->. exact Hattr.
  - intros Hne. apply String.eqb_neq in Hne. rewrite Hattr, Hne. reflexivity.
  - intros Hne Hhas Hstores. apply String.eqb_neq in Hne.
    unfold dock_id. rewrite Hw, Hattr, Hne. cbv zeta. now rewrite Hhas, Hstores.
Qed.

(** ** The workspace restored *)

Definition saved_title (info : dashboard_info) : string :=
  default "Dashboard" (di_title info).

Definition fresh_dashboard (info : dashboard_info) : DashboardTab :=
  {| dash_title := saved_title info; dash_docks := [] |}.

(** The dashboard a record is restored to as the tab at [index] when
    the store is [db], what is done to its docks, and the store its
    widgets leave. *)
Definition restored_dashboard (plugins : gmap string plugin_info) (index : nat)
    (db : store) (info : dashboard_info) : DashboardTab :=
  match restore_dashboard_body plugins index db (fresh_dashboard info) info with
  | Ok (dashboard, _, _, _) => dashboard
  | Raise _ => fresh_dashboard info
  end.

Definition restored_events (plugins : gmap string plugin_info) (index : nat)
    (db : store) (info : dashboard_info) : list event :=
  match restore_dashboard_body plugins index db (fresh_dashboard info) info with
  | Ok (_, _, evs, _) => evs
  | Raise _ => []
  end.

Definition restored_store (plugins : gmap string plugin_info) (index : nat)
    (db : store) (info : dashboard_info) : store :=
  match restore_dashboard_body plugins index db (fresh_dashboard info) info with
  | Ok (_, _, _, db') => db'
  | Raise _ => db
  end.

(** The records restored one after the other, the first as the tab at
    [index]: the tabs, what is done, and the store at the end. *)
Fixpoint restored_tabs (plugins : gmap string plugin_info) (index : nat) (db : store)
    (infos : list dashboard_info) : list (string * DashboardTab) :=
  match infos with
  | [] => []
  | info :: infos' =>
      (saved_title info, restored_dashboard plugins index db info)
        :: restored_tabs plugins (S index) (restored_store plugins index db info) infos'
  end.

Fixpoint restored_trace (plugins : gmap string plugin_info) (index : nat) (db : store)
    (infos : list dashboard_info) : list (nat * event) :=
  match infos with
  | [] => []
  | info :: infos' =>
      map (pair index) (restored_events plugins index db info)
        ++ restored_trace plugins (S index) (restored_store plugins index db info) infos'
  end.

Fixpoint restored_stores (plugins : gmap string plugin_info) (index : nat) (db : store)
    (infos : list dashboard_info) : store :=
  match infos with
  | [] => db
  | info :: infos' =>
      restored_stores plugins (S index) (restored_store plugins index db info) infos'
  end.

Lemma restored_dashboard_eq (plugins : gmap string plugin_info) (index : nat)
    (db : store) (info : dashboard_info) :
  restore_dashboard_body plugins index db (fresh_dashboard info) info
  = Ok (restored_dashboard plugins index db info,
        (create_widgets plugins index db (default [] (di_widgets info))
           (fresh_dashboard info)).1.1.2,
        restored_events plugins index db info,
        restored_store plugins index db info).
Proof.
  unfold restored_dashboard, restored_events, restored_store.
  now rewrite restore_dashboard_body_phases.
Qed.

Lemma restore_dashboard_layout_spec (mw : MainWindow) (index : nat)
    (info : dashboard_info) (t : string) (dashboard : DashboardTab) :
  tabs mw !! index = Some (t, dashboard) ->
  exists dashboard' docks evs db',
    restore_dashboard_body (plugins mw) index (db mw) dashboard info
    = Ok (dashboard', docks, evs, db')
    /\ tabs (restore_dashboard_layout mw index info) = <[index := (t, dashboard')]> (tabs mw)
    /\ plugins (restore_dashboard_layout mw index info) = plugins mw
    /\ db (restore_dashboard_layout mw index info) = db'
    /\ window_visible (restore_dashboard_layout mw index info) = window_visible mw
    /\ trace (restore_dashboard_layout mw index info) = trace mw ++ map (pair index) evs.
Proof.
  intros Hlookup. unfold restore_dashboard_layout.
  cbn [tabs plugins db setCurrentIndex]. rewrite Hlookup.
  rewrite restore_dashboard_body_phases. cbn zeta.
  eexists _, _, _, _. split; [reflexivity|].
  destruct (currentIndex mw) as [i|]; cbn; [destruct (tabs mw !! i); cbn|]; repeat split.
Qed.

Lemma restore_dashboards_spec (dashboards : list saved_dashboard) (mw : MainWindow)
    (n : nat) :
  let r := restore_dashboards dashboards mw n in
  let infos := readable dashboards in
  tabs r.1 = tabs mw ++ restored_tabs (plugins mw) (length (tabs mw)) (db mw) infos
  /\ r.2 = (n + length infos)%nat
  /\ plugins r.1 = plugins mw
  /\ db r.1 = restored_stores (plugins mw) (length (tabs mw)) (db mw) infos
  /\ window_visible r.1 = window_visible mw
  /\ trace r.1
     = trace mw ++ restored_trace (plugins mw) (length (tabs mw)) (db mw) infos.
Proof.
  revert mw n. induction dashboards as [|[info|] dashboards IH]; intros mw n; cbn zeta.
  - cbn. rewrite !app_nil_r. repeat split. lia.
  - cbn [restore_dashboards readable omap list_omap]. unfold addTab.
    set (mw1 := {| tabs := tabs mw ++ [(default "Dashboard" (di_title info),
                                         {| dash_title := default "Dashboard" (di_title info);
                                            dash_docks := [] |})];
                   currentIndex := _; db := db mw; plugins := plugins mw;
                   window_visible := window_visible mw; trace := trace mw |}).
    destruct (restore_dashboard_layout_spec mw1 (length (tabs mw)) info
                (saved_title info) (fresh_dashboard info))
      as (dashboard' & docks & evs & db' & Hbody & Htabs & Hplug & Hdb & Hvis & Htrace).
    { subst mw1. cbn. now rewrite list_lookup_middle. }
    set (mw2 := restore_dashboard_layout mw1 (length (tabs mw)) info) in *.
    specialize (IH mw2 (S n)). cbn zeta in IH.
    destruct IH as (IHtabs & IHn & IHplug & IHdb & IHvis & IHtrace).
    assert (Htabs2 : tabs mw2 = tabs mw ++ [(saved_title info, dashboard')]).
    { rewrite Htabs. subst mw1. cbn.
      rewrite insert_app_r_alt by reflexivity. now rewrite Nat.sub_diag. }
    assert (Hlen2 : length (tabs mw2) = S (length (tabs mw))).
    { rewrite Htabs2, length_app. cbn. lia. }
    change (plugins mw1) with (plugins mw) in Hbody, Hplug.
    change (db mw1) with (db mw) in Hbody.
    change (restore_dashboard_body (plugins mw) (length (tabs mw)) (db mw)
              {| dash_title := default "Dashboard" (di_title info); dash_docks := [] |} info)
      with (restore_dashboard_body (plugins mw) (length (tabs mw)) (db mw)
              (fresh_dashboard info) info) in Hbody.
    assert (Hd : restored_dashboard (plugins mw) (length (tabs mw)) (db mw) info = dashboard').
    { unfold restored_dashboard. now rewrite Hbody. }
    assert (He : restored_events (plugins mw) (length (tabs mw)) (db mw) info = evs).
    { unfold restored_events. now rewrite Hbody. }
    assert (Hs : restored_store (plugins mw) (length (tabs mw)) (db mw) info = db').
    { unfold restored_store. now rewrite Hbody. }
    rewrite IHtabs, IHn, IHplug, IHdb, IHvis, IHtrace, Hplug, Hdb, Hvis, Htrace, Hlen2, Htabs2.
    cbn [restored_tabs restored_trace restored_stores length].
    rewrite Hd, He, Hs, <- !app_assoc. cbn [app].
    repeat split. unfold readable. lia.
  - cbn [restore_dashboards readable omap list_omap]. apply IH.
Qed.

Lemma restored_tabs_titles (plugins : gmap string plugin_info) (index : nat) (db : store)
    (infos : list dashboard_info) :
  map fst (restored_tabs plugins index db infos) = map saved_title infos.
Proof.
  revert index db. induction infos as [|info infos IH]; intros index db; [reflexivity|].
  cbn. now rewrite IH.
Qed.

(** The tab of the record at [i] is what the restore of that record
    alone gives, from the store the records before it have left; and
    what was done to it is in the trace under the index of the tab. *)
Lemma restored_tabs_lookup (plugins : gmap string plugin_info) (index : nat) (db : store)
    (infos : list dashboard_info) (i : nat) (info : dashboard_info) :
  infos !! i = Some info ->
  exists db_i,
    restored_tabs plugins index db infos !! i
    = Some (saved_title info, restored_dashboard plugins (index + i) db_i info)
    /\ forall e, e ∈ restored_events plugins (index + i) db_i info ->
                 ((index + i)%nat, e) ∈ restored_trace plugins index db infos.
Proof.
  revert index db i. induction infos as [|info0 infos IH]; intros index db i Hi.
  - discriminate.
  - destruct i as [|i]; cbn in Hi.
    + injection Hi as ->. exists db. rewrite Nat.add_0_r. split; [reflexivity|].
      intros e He. cbn. apply elem_of_app. left. apply list_elem_of_fmap. now exists e.
    + destruct (IH (S index) (restored_store plugins index db info0) i Hi)
        as (db_i & Hl & Htr).
      exists db_i. replace (index + S i)%nat with (S index + i)%nat by lia.
      split; [exact Hl|]. intros e He. cbn. apply elem_of_app. right. now apply Htr.
Qed.

Lemma restored_dashboard_title (plugins : gmap string plugin_info) (index : nat)
    (db : store) (info : dashboard_info) :
  dash_title (restored_dashboard plugins index db info) = saved_title info.
Proof.
  unfold restored_dashboard. rewrite restore_dashboard_body_phases. cbn.
  destruct (create_widgets_spec plugins index db (default [] (di_widgets info))
              (fresh_dashboard info)) as (new & _ & Ht & _).
  exact Ht.
Qed.

Lemma Forall2_same_ids (Q : string -> widget_info -> Prop) (after before : list dock)
    (entries : list widget_info) :
  map dock_id after = map dock_id before ->
  Forall2 (fun d instance => Q (dock_id d) instance) before entries ->
  Forall2 (fun d instance => Q (dock_id d) instance) after entries.
Proof.
  intros Hsame Hids. revert after Hsame.
  induction Hids as [|d instance before entries Hd _ IH]; intros after Hsame.
  - destruct after; [constructor|discriminate].
  - destruct after as [|d' after]; [discriminate|]. cbn in Hsame.
    injection Hsame as Hd' Hrest. constructor; [|now apply IH].
    now rewrite Hd'.
Qed.

(** The docks of a restored dashboard are those of the entries that
    resolve, in the order of the record: the dock at [j] is that of
    the [j]-th of these entries. *)
Lemma restored_dashboard_docks (plugins : gmap string plugin_info) (index : nat)
    (db : store) (info : dashboard_info) :
  let c := create_widgets plugins index db (default [] (di_widgets info))
             (fresh_dashboard info) in
  let entries := List.filter (resolves plugins) (default [] (di_widgets info)) in
  map fst c.1.1.2 = seq 0 (length entries)
  /\ map snd c.1.1.2 = entries
  /\ length (dash_docks (restored_dashboard plugins index db info)) = length entries
  /\ map dock_class (dash_docks (restored_dashboard plugins index db info))
     = map (entry_class plugins) entries
  /\ Forall2 (fun d instance =>
                forall cls, entry_class plugins instance = Some cls ->
                            keeps_saved_id (entry_id instance) cls ->
                            dock_id d = entry_id instance)
       (dash_docks (restored_dashboard plugins index db info)) entries.
Proof.
  cbn zeta. unfold restored_dashboard. rewrite restore_dashboard_body_phases. cbn zeta.
  pose proof (restored_docks_widgets plugins index db (fresh_dashboard info) info)
    as Hwidgets.
  destruct (create_widgets_spec plugins index db (default [] (di_widgets info))
              (fresh_dashboard info)) as (new & Hdocks & _ & Hfst & Hsnd & Hcls & Hids & _).
  cbn zeta in Hwidgets, Hdocks, Hfst, Hsnd, Hcls, Hids. cbn [dash_docks].
  set (c := create_widgets plugins index db (default [] (di_widgets info))
              (fresh_dashboard info)) in *.
  cbn [fresh_dashboard dash_docks app length] in Hdocks, Hfst.
  assert (Hlen : length new = length (List.filter (resolves plugins)
                                        (default [] (di_widgets info)))).
  { rewrite <- Hsnd. apply (f_equal length) in Hfst.
    rewrite !length_map in *. rewrite length_seq in Hfst. lia. }
  rewrite <- Hdocks in Hcls, Hids, Hlen. rewrite Hsnd in Hcls, Hids.
  split; [now rewrite Hfst, <- Hdocks, Hlen|]. split; [exact Hsnd|].
  split; [now rewrite (widgets_length _ _ Hwidgets)|].
  split; [now rewrite (widgets_dock_class _ _ Hwidgets)|].
  exact (Forall2_same_ids
           (fun id instance =>
              forall cls, entry_class plugins instance = Some cls ->
                          keeps_saved_id (entry_id instance) cls -> id = entry_id instance)
           _ _ _ (widgets_dock_id _ _ Hwidgets) Hids).
Qed.

(** [show_first_tab] on the tabs. *)
Definition show_docks (i : nat) (docks : list dock) : list dock :=
  match i with
  | O => map set_visible docks
  | S _ => docks
  end.

Definition shown (i : nat) (p : string * DashboardTab) : string * DashboardTab :=
  (p.1, {| dash_title := dash_title p.2; dash_docks := show_docks i (dash_docks p.2) |}).

Lemma show_first_tab_tabs (mw : MainWindow) :
  tabs (show_first_tab mw) = imap shown (tabs mw).
Proof.
  unfold show_first_tab. destruct (tabs mw) as [|[t dashboard] rest] eqn:E;
    [now rewrite E|].
  cbn [tabs with_tabs]. rewrite imap_cons. unfold shown at 1. cbn. f_equal.
  rewrite <- (list_fmap_id rest) at 1. rewrite <- imap_const.
  apply imap_ext. intros i [t' d'] _. unfold compose, shown. cbn. now destruct d'.
Qed.

Lemma show_docks_ids (i : nat) (docks : list dock) :
  map dock_id (show_docks i docks) = map dock_id docks.
Proof. destruct i; [|reflexivity]. cbn. now rewrite map_map. Qed.

Lemma show_docks_classes (i : nat) (docks : list dock) :
  map dock_class (show_docks i docks) = map dock_class docks.
Proof. destruct i; [|reflexivity]. cbn. now rewrite map_map. Qed.

Lemma show_docks_length (i : nat) (docks : list dock) :
  length (show_docks i docks) = length docks.
Proof. destruct i; [|reflexivity]. cbn. now rewrite length_map. Qed.


(** A saved list with a record the loop can read is restored by the
    loop, and the first tab is shown. *)
Lemma restore_layout_saved (answer : string * bool) (mw : MainWindow)
    (dashboards : list saved_dashboard) :
  json_loads (get_widget_setting_or (db mw) "main_window" "dashboards" "[]")
  = Some dashboards ->
  readable dashboards <> [] ->
  restore_layout answer mw
  = show_first_tab (restore_dashboards dashboards (with_tabs mw [] None []) 0).1.
Proof.
  intros Hloads Hne. unfold restore_layout. rewrite Hloads.
  destruct dashboards as [|r dashboards]; [now contradiction Hne|].
  pose proof (restore_dashboards_spec (r :: dashboards) (with_tabs mw [] None []) 0)
    as (_ & Hn & _).
  destruct (restore_dashboards (r :: dashboards) (with_tabs mw [] None []) 0)
    as [mw' n]. cbn [snd] in Hn. subst n.
  rewrite bool_decide_eq_false_2; [reflexivity|].
  destruct (readable (r :: dashboards)); [contradiction|]. cbn. lia.
Qed.

(** A saved list that is not empty and has no record the loop can
    read leaves the window without tabs, and the default dashboard is
    created. *)
Lemma restore_layout_unreadable (answer : string * bool) (mw : MainWindow)
    (dashboards : list saved_dashboard) :
  json_loads (get_widget_setting_or (db mw) "main_window" "dashboards" "[]")
  = Some dashboards ->
  dashboards <> [] ->
  readable dashboards = [] ->
  restore_layout answer mw = add_dashboard answer (with_tabs mw [] None []).
Proof.
  intros Hloads Hne Hnone. unfold restore_layout. rewrite Hloads.
  destruct dashboards as [|r dashboards]; [contradiction|].
  assert (Hall : forall l mw0 n, readable l = [] -> restore_dashboards l mw0 n = (mw0, n)).
  { clear. induction l as [|[info|] l IH]; intros mw0 n Hl; [reflexivity|discriminate|].
    cbn. now apply IH. }
  now rewrite (Hall _ _ _ Hnone).
Qed.

Lemma restore_layout_tabs (answer : string * bool) (mw : MainWindow)
    (dashboards : list saved_dashboard) :
  json_loads (get_widget_setting_or (db mw) "main_window" "dashboards" "[]")
  = Some dashboards ->
  readable dashboards <> [] ->
  tabs (restore_layout answer mw)
  = imap shown (restored_tabs (plugins mw) 0 (db mw) (readable dashboards)).
Proof.
  intros Hloads Hne. rewrite (restore_layout_saved _ _ _ Hloads Hne).
  pose proof (restore_dashboards_spec dashboards (with_tabs mw [] None []) 0)
    as (Htabs & _). cbn in Htabs.
  now rewrite show_first_tab_tabs, Htabs.
Qed.

Lemma restore_layout_titles (answer : string * bool) (mw : MainWindow)
    (dashboards : list saved_dashboard) :
  json_loads (get_widget_setting_or (db mw) "main_window" "dashboards" "[]")
  = Some dashboards ->
  readable dashboards <> [] ->
  map fst (tabs (restore_layout answer mw)) = map saved_title (readable dashboards).
Proof.
  intros Hloads Hne. rewrite (restore_layout_tabs _ _ _ Hloads Hne).
  rewrite <- (restored_tabs_titles (plugins mw) 0 (db mw)).
  apply list_eq. intros i.
  change (map fst) with (fmap (M:=list) (@fst string DashboardTab)).
  rewrite !list_lookup_fmap, list_lookup_imap.
  now destruct (restored_tabs _ _ _ _ !! i).
Qed.

(** The tab of the record at [i], once the first tab was shown. *)
Lemma restore_layout_lookup (answer : string * bool) (mw : MainWindow)
    (dashboards : list saved_dashboard) (i : nat) (info : dashboard_info) :
  json_loads (get_widget_setting_or (db mw) "main_window" "dashboards" "[]")
  = Some dashboards ->
  readable dashboards !! i = Some info ->
  exists db_i,
    tabs (restore_layout answer mw) !! i
    = Some (saved_title info,
            {| dash_title := saved_title info;
               dash_docks :=
                 show_docks i (dash_docks (restored_dashboard (plugins mw) i db_i info)) |})
    /\ forall e, e ∈ restored_events (plugins mw) i db_i info ->
                 (i, e) ∈ trace (restore_layout answer mw).
Proof.
  intros Hloads Hi.
  assert (Hne : readable dashboards <> []) by (intros E; now rewrite E in Hi).
  destruct (restored_tabs_lookup (plugins mw) 0 (db mw) _ i info Hi) as (db_i & Hl & Htr).
  exists db_i. split.
  - rewrite (restore_layout_tabs _ _ _ Hloads Hne), list_lookup_imap, Hl. cbn.
    unfold shown. cbn. now rewrite restored_dashboard_title.
  - intros e He. rewrite (restore_layout_saved _ _ _ Hloads Hne).
    assert (Hshow : forall mw0 x, x ∈ trace mw0 -> x ∈ trace (show_first_tab mw0)).
    { clear. intros mw0 x Hx. unfold show_first_tab.
      destruct (tabs mw0) as [|[t dashboard] rest]; [easy|].
      cbn. apply elem_of_app. now left. }
    apply Hshow.
    pose proof (restore_dashboards_spec dashboards (with_tabs mw [] None []) 0)
      as (_ & _ & _ & _ & _ & ->).
    apply elem_of_app. right. cbn. now apply Htr.
Qed.

(** C9 (amended). [restore_dashboard_layout] returns nothing, and the
    loop of [restore_layout] counts every element of the saved list
    that it can read, which is every one for which a tab is added,
    whether or not any of its widgets was restored. So, when the saved
    list has an element that can be read, every such element becomes a
    tab with its saved title, in order, holding one dock for each of
    its entries that resolve, of the class the entry resolves to: a
    record none of whose widgets can be restored leaves an empty
    dashboard with the saved title, and no default dashboard is
    created in its place. The default dashboard is created, in a
    window without tabs, when the list is not empty and no element of
    it can be read. *)
Theorem restore_keeps_every_saved_dashboard (answer : string * bool) (mw : MainWindow)
    (dashboards : list saved_dashboard)
    (Hloads : json_loads (get_widget_setting_or (db mw) "main_window" "dashboards" "[]")
              = Some dashboards)
    (Hne : dashboards <> []) :
  let infos := readable dashboards in
  (restore_dashboards dashboards (with_tabs mw [] None []) 0).2 = length infos
  /\ (infos = [] ->
      restore_layout answer mw = add_dashboard answer (with_tabs mw [] None [])
      /\ length (tabs (restore_layout answer mw)) = 1%nat)
  /\ (infos <> [] ->
      map fst (tabs (restore_layout answer mw)) = map saved_title infos
      /\ forall i info, infos !! i = Some info ->
           exists dashboard,
             tabs (restore_layout answer mw) !! i = Some (saved_title info, dashboard)
             /\ dash_title dashboard = saved_title info
             /\ length (dash_docks dashboard)
                = length (List.filter (resolves (plugins mw)) (default [] (di_widgets info)))
             /\ map dock_class (dash_docks dashboard)
                = map (entry_class (plugins mw))
                    (List.filter (resolves (plugins mw)) (default [] (di_widgets info)))).
Proof.
  cbn zeta. split; [|split].
  - now pose proof (restore_dashboards_spec dashboards (with_tabs mw [] None []) 0)
      as (_ & -> & _).
  - intros Hnone. rewrite (restore_layout_unreadable _ _ _ Hloads Hne Hnone).
    split; [reflexivity|].
    destruct (add_dashboard_tabs answer (with_tabs mw [] None [])) as (title & -> & _).
    reflexivity.
  - intros Hsome. split; [exact (restore_layout_titles _ _ _ Hloads Hsome)|].
    intros i info Hi.
    destruct (restore_layout_lookup answer mw dashboards i info Hloads Hi)
      as (db_i & Hl & _).
    eexists. split; [exact Hl|]. cbn [dash_title dash_docks].
    destruct (restored_dashboard_docks (plugins mw) i db_i info)
      as (_ & _ & Hlen & Hcls & _).
    split; [reflexivity|].
    split; [now rewrite show_docks_length|now rewrite show_docks_classes].
Qed.

(** ** Saving, then restoring *)












(** The record [save_layout] writes for a tab. *)
Definition saved_record (p : string * DashboardTab) : dashboard_info :=
  {| di_title := Some p.1;
     di_state := di_state (save_dashboard_layout p.2);
     di_widgets := di_widgets (save_dashboard_layout p.2) |}.

Lemma save_document_records (mw : MainWindow) :
  save_document mw = map saved_record (tabs mw).
Proof. unfold save_document. apply map_ext. now intros [t dashboard]. Qed.



End Properties.

(** * Worked examples *)

Section DefaultExample.

#[local] Instance default_toolkit : Toolkit := Demo.toolkit [].

(** C2 at a window that starts without tabs and without stored
    workspace. *)
Lemma restore_layout_default_witness :
  json_loads "[]" = Some []
  /\ get_widget_setting (db (Demo.window [] ∅)) "main_window" "dashboards" = None
  /\ restore_layout ("", false) (Demo.window [] ∅)
     = add_dashboard ("", false) (Demo.window [] ∅)
  /\ length (tabs (restore_layout ("", false) (Demo.window [] ∅))) = 1%nat.
Proof.
  assert (Hempty : json_loads "[]" = Some []) by (vm_compute; reflexivity).
  assert (Hstored : get_widget_setting (db (Demo.window [] ∅)) "main_window" "dashboards"
                    = None) by (vm_compute; reflexivity).
  split; [exact Hempty|]. split; [exact Hstored|].
  destruct (restore_layout_default ("", false) (Demo.window [] ∅) Hempty (or_introl Hstored))
    as (Heq & _ & _ & Hlen).
  split; [exact Heq|]. apply Hlen. reflexivity.
Defined.

End DefaultExample.

Section RecordExample.

(** A record with a clock saved too wide, a list saved off screen and
    too low, and an entry of a plugin that is gone. *)
Definition clock_entry : widget_info :=
  Demo.entry "clock" "dock_clock" "Clock" 10 20 5000 300.

Definition list_entry : widget_info :=
  Demo.entry "custom_list_groceries" "dock_custom_list" "Groceries" (-5) 0 400 50.

Definition gone_entry : widget_info :=
  Demo.entry "nonexistent" "dock_nonexistent" "Gone" 0 0 300 300.

Definition main_record : dashboard_info :=
  {| di_title := Some "Main"; di_state := Some "0a0b";
     di_widgets := Some [clock_entry; gone_entry; list_entry] |}.

Definition empty_main : DashboardTab := {| dash_title := "Main"; dash_docks := [] |}.

#[local] Instance record_toolkit : Toolkit := Demo.toolkit [[main_record]].



End RecordExample.

Section OverflowExample.

(** The toolkit of [Demo] for a window that is not shown yet: a dock
    is not visible when it is created. *)
#[local] Instance unshown_toolkit : Toolkit :=
  {| qt_saveState := fun _ => [x0a; x0b];
     qt_restoreState := fun _ _ _ => Demo.hidden;
     qt_new_dock_visible := false;
     qt_new_dock_geometry :=
       {| rect_x := 0; rect_y := 0; rect_width := 640; rect_height := 480 |};
     qt_setGeometry := fun _ _ r => r;
     json_dumps := Demo.show_document;
     json_loads := Demo.read_document [] |}.




End OverflowExample.

Section LostDashboardExample.

(** A saved workspace with one dashboard whose only widget is of a
    plugin that is gone. *)
Definition lost_record : dashboard_info :=
  {| di_title := Some "Main"; di_state := Some "";
     di_widgets := Some [gone_entry] |}.

#[local] Instance lost_toolkit : Toolkit :=
  Demo.toolkit_of [[Saved lost_record]; [Saved main_record];
                   [Unreadable; Saved main_record]; [Unreadable]].

Definition lost_window : MainWindow :=
  Demo.window [] {[ ("main_window", "dashboards") := Demo.show_document [lost_record] ]}.

Definition main_window : MainWindow :=
  Demo.window [] {[ ("main_window", "dashboards") := Demo.show_document [main_record] ]}.

(** A saved list whose first element is no dict. *)
Definition torn_window : MainWindow :=
  Demo.window []
    {[ ("main_window", "dashboards")
       := Demo.array (map Demo.show_saved [Unreadable; Saved main_record]) ]}.

(** A saved list whose only element is no dict. *)
Definition null_window : MainWindow :=
  Demo.window [] {[ ("main_window", "dashboards") := "[null]" ]}.

(** C9 as stated fails at [lost_window]: no widget of the record is
    restored, and the window keeps the empty dashboard under its saved
    title, where a default dashboard would be titled [Dashboard 1]. *)
Lemma restore_keeps_failed_dashboard :
  json_loads (get_widget_setting_or (db lost_window) "main_window" "dashboards" "[]")
  = Some [Saved lost_record]
  /\ restored_widgets Demo.registry 0 (db lost_window) empty_main lost_record = 0%nat
  /\ tabs (restore_layout ("", false) lost_window) = [("Main", empty_main)]
  /\ tabs (add_dashboard ("", false) (Demo.window [] ∅))
     = [("Dashboard 1", {| dash_title := "Dashboard 1"; dash_docks := [] |})].
Proof. repeat split; vm_compute; reflexivity. Qed.

(** C9 (amended) at [torn_window]: the element that is no dict is
    given up, the record after it becomes the first tab. *)
Lemma restore_keeps_every_saved_dashboard_witness :
  json_loads (get_widget_setting_or (db torn_window) "main_window" "dashboards" "[]")
  = Some [Unreadable; Saved main_record]
  /\ [Unreadable; Saved main_record] <> []
  /\ (restore_dashboards [Unreadable; Saved main_record]
        (with_tabs torn_window [] None []) 0).2 = 1%nat
  /\ map fst (tabs (restore_layout ("", false) torn_window)) = ["Main"]
  /\ exists dashboard,
       tabs (restore_layout ("", false) torn_window) !! 0%nat = Some ("Main", dashboard)
       /\ map (fmap cls_name) (map dock_class (dash_docks dashboard))
          = [Some "ClockWidget"; Some "CustomListWidget"].
Proof.
  assert (Hloads : json_loads (get_widget_setting_or (db torn_window)
                                 "main_window" "dashboards" "[]")
                   = Some [Unreadable; Saved main_record]) by (vm_compute; reflexivity).
  assert (Hne : [Unreadable; Saved main_record] <> []) by discriminate.
  split; [exact Hloads|]. split; [exact Hne|].
  destruct (restore_keeps_every_saved_dashboard ("", false) torn_window
              [Unreadable; Saved main_record] Hloads Hne) as (Hcount & _ & Hsome).
  split; [exact Hcount|].
  destruct (Hsome ltac:(discriminate)) as (Htitles & Hat).
  split; [exact Htitles|].
  destruct (Hat 0%nat main_record eq_refl) as (dashboard & Hd & _ & _ & Hcls).
  exists dashboard. split; [exact Hd|]. rewrite Hcls. vm_compute. reflexivity.
Defined.

(** At [null_window] no element of the list can be read: the window is
    left without tabs and gets the default dashboard. *)
Example restore_unreadable_list_gives_default :
  json_loads (get_widget_setting_or (db null_window) "main_window" "dashboards" "[]")
  = Some [Unreadable]
  /\ tabs (restore_layout ("", false) null_window)
     = [("Dashboard 1", {| dash_title := "Dashboard 1"; dash_docks := [] |})].
Proof. repeat split; vm_compute; reflexivity. Qed.

End LostDashboardExample.

Section RoundTripExample.

Definition clock_class : widget_class :=
  Demo.attribute_class "ClockWidget" "clock" Demo.clock_state.

(** A clock the user made 5000 wide. *)
Definition wide_clock : dock :=
  {| objectName := "dock_clock"; windowTitle := "Clock"; dock_area := 2;
     isFloating := true; isVisible := true;
     geometry := {| rect_x := 10; rect_y := 20; rect_width := 5000; rect_height := 300 |};
     dock_widget := Some {| w_class := clock_class; w_widget_id := PyStr "clock";
                            w_list_title := None |} |}.


(** What [save_layout] writes for [wide_window]. *)
Definition wide_record : dashboard_info :=
  {| di_title := Some "Main"; di_state := Some "0a0b";
     di_widgets :=
       Some [{| wi_module_name := Some "clock"; wi_dock_name := Some "dock_clock";
                wi_title := Some "Clock"; wi_area := Some 2; wi_floating := Some true;
                wi_visible := Some true;
                wi_geometry := Some (full_geometry 10 20 5000 300) |}] |}.

#[local] Instance wide_toolkit : Toolkit := Demo.toolkit [[wide_record]].





End RoundTripExample.

Section IdentifierExamples.

#[local] Instance identifier_toolkit : Toolkit := Demo.toolkit [].

(** The names the scan of the modules directory and
    [_load_builtin_plugins] register, the name the latter derives from
    the class of the tree list apart. *)
Definition registered_names : list string :=
  ["calculator"; "clock"; "code_viewer"; "custom_list"; "markdown_viewer";
   "rest_api_table"; "stats"; "stock_market"; "tree_list"; "weather_forecast";
   "web_view"; "wysiwyg_editor"; "scientific_calculator"].

(** C6 as stated fails at the id of the first tree list of the first
    tab: no registered name is a prefix of it, and were the name
    derived from the class registered too, that name would be the
    longest match; the program answers [tree_list] from the literal
    prefix [treelist_]. An id that only starts with a registered name
    is left as it is. *)
Lemma base_module_is_not_longest_prefix_match :
  new_widget_id "tree_list" "Tree List" 0 1 = "treelist_d0_1"
  /\ base_module_of "treelist_d0_1" = "tree_list"
  /\ longest_prefix_match registered_names "treelist_d0_1" = None
  /\ longest_prefix_match ("treelist" :: registered_names) "treelist_d0_1" = Some "treelist"
  /\ base_module_of "clock_2" = "clock_2"
  /\ longest_prefix_match registered_names "clock_2" = Some "clock".
Proof. repeat split; vm_compute; reflexivity. Qed.

(** C6 (amended) at a custom list whose title starts with the prefix
    of the code viewers, the tests taken in another order. *)
Lemma base_module_of_literal_prefix_witness :
  ("custom_list_", "custom_list") ∈ known_prefixes
  /\ base_module_of "custom_list_code_viewer_notes" = "custom_list"
  /\ strip_by [("code_viewer_", "code_viewer"); ("custom_list_", "custom_list");
               ("treelist_", "tree_list"); ("wysiwyg_editor_", "wysiwyg_editor")]
       "custom_list_code_viewer_notes"
     = base_module_of "custom_list_code_viewer_notes".
Proof.
  assert (Hin : ("custom_list_", "custom_list") ∈ known_prefixes)
    by apply list_elem_of_here.
  split; [exact Hin|].
  destruct (base_module_of_literal_prefix "custom_list_" "custom_list" "code_viewer_notes"
              [("code_viewer_", "code_viewer"); ("custom_list_", "custom_list");
               ("treelist_", "tree_list"); ("wysiwyg_editor_", "wysiwyg_editor")]
              Hin (perm_swap _ _ _)) as [Hbase Horder].
  split; [exact Hbase|]. apply Horder.
Defined.

Definition list_class : widget_class :=
  Demo.titled_class "CustomListWidget" "custom_list" "Custom List".

(** A dashboard that holds the custom list [Groceries]. *)
Definition groceries_dashboard : DashboardTab :=
  {| dash_title := "Main";
     dash_docks :=
       [{| objectName := "dock_custom_list"; windowTitle := "Groceries"; dock_area := 2;
           isFloating := false; isVisible := true;
           geometry := {| rect_x := 0; rect_y := 0; rect_width := 300; rect_height := 200 |};
           dock_widget := Some {| w_class := list_class;
                                  w_widget_id := PyStr "custom_list_groceries";
                                  w_list_title := Some "Groceries" |} |}] |}.

(** C5 as stated fails at a second custom list, titled [To Do]: no
    live dock has the id or the name [custom_list_to_do], and yet the
    id is not [custom_list_to_do], nor [custom_list_1]; the suffix is
    that of the dock name, which was taken, and it goes into the
    title. A tab in the title is not replaced. *)
Lemma add_widget_id_follows_dock_name :
  map objectName (dash_docks groceries_dashboard) = ["dock_custom_list"]
  /\ map dock_id (dash_docks groceries_dashboard) = ["custom_list_groceries"]
  /\ (add_widget_to 0 ∅ groceries_dashboard list_class "custom_list" "To Do" 2).1.2
     = "custom_list_to_do_2"
  /\ map objectName
       (dash_docks (add_widget_to 0 ∅ groceries_dashboard list_class
                      "custom_list" "To Do" 2).1.1.1)
     = ["dock_custom_list"; "dock_custom_list_1"]
  /\ sanitize (String "T" (String "009" "o")) = String "t" (String "009" "o").
Proof. repeat split; vm_compute; reflexivity. Qed.

End IdentifierExamples.

Section RenameExample.

(** The lists of a custom list written as [json.dumps] writes lists of
    strings that need no escape; the decoder reads the texts of the
    lists it is given and raises on every other text. *)
Definition show_strings (l : list string) : string :=
  Demo.array (map Demo.quote l).

#[local] Instance strings_codec : CustomList.JsonList string :=
  {| CustomList.dumps := show_strings;
     CustomList.loads := fun s =>
       find (fun l => String.eqb (show_strings l) s)
            [[]; ["Name"]; ["Name"; "Price"]; ["Milk"]] |}.

Definition foo_list : CustomList.CustomListWidget string string :=
  {| CustomList.base_widget_id := "custom_list";
     CustomList._widget_id := "custom_list_foo";
     CustomList.list_title := "Foo";
     CustomList.default_column := "Name";
     CustomList.columns := ["Name"; "Price"];
     CustomList.items := ["Milk"] |}.

Definition foo_store : store :=
  {[ ("custom_list_foo", "columns") := show_strings ["Name"; "Price"];
     ("custom_list_foo", "items") := show_strings ["Milk"] ]}.

(** C4 fails in the program: renaming the list [Foo], which has the
    columns [Name] and [Price], to [Bar] leaves the default column
    alone under the new id. The setter of [widget_id] has loaded the
    columns stored under the new id, of which there are none, before
    [edit_title] saves; the items, which the setter leaves when none
    are stored, do move. The old id keeps both keys, each with the
    text of the empty list. *)
Lemma rename_loses_columns :
  let r := CustomList.edit_title "Bar" true foo_store foo_list in
  CustomList._widget_id r.2 = "custom_list_bar"
  /\ get_widget_setting foo_store "custom_list_foo" "columns"
     = Some (show_strings ["Name"; "Price"])
  /\ get_widget_setting r.1 "custom_list_bar" "columns" = Some (show_strings ["Name"])
  /\ CustomList.columns r.2 = ["Name"]
  /\ get_widget_setting r.1 "custom_list_bar" "items" = Some (show_strings ["Milk"])
  /\ get_widget_setting r.1 "custom_list_foo" "columns" = Some "[]"
  /\ get_widget_setting r.1 "custom_list_foo" "items" = Some "[]".
Proof. repeat split; vm_compute; reflexivity. Qed.

End RenameExample.

(** * Further properties of the window *)

Section Window.
Context `{Toolkit}.

(** ** Dashboards and widgets added by hand *)

(** The title [add_dashboard] gives (lines 209-216). *)
Definition new_dashboard_title (answer : string * bool) (mw : MainWindow) : string :=
  if window_visible mw && answer.2 && negb (Py.is_blank answer.1) then answer.1
  else "Dashboard " +:+ Py.str_of_nat (length (tabs mw) + 1).

(** X1. [add_dashboard] puts one empty dashboard after the tabs there
    are, leaves these as they are, and makes the new tab the current
    one. Its title is what the user typed, when the window is shown,
    the dialog was accepted and the text is not blank, and
    [Dashboard n] for the [n]-th tab otherwise. *)
Theorem add_dashboard_appends_current (answer : string * bool) (mw : MainWindow) :
  let title := new_dashboard_title answer mw in
  tabs (add_dashboard answer mw)
  = tabs mw ++ [(title, {| dash_title := title; dash_docks := [] |})]
  /\ currentIndex (add_dashboard answer mw) = Some (length (tabs mw))
  /\ currentWidget (add_dashboard answer mw)
     = Some (title, {| dash_title := title; dash_docks := [] |})
  /\ db (add_dashboard answer mw) = db mw
  /\ plugins (add_dashboard answer mw) = plugins mw.
Proof.
  cbn zeta. unfold new_dashboard_title, add_dashboard, currentWidget.
  destruct answer as [text ok]. cbn [fst snd].
  set (title := if window_visible mw then _ else _).
  assert (Ht : title
               = if window_visible mw && ok && negb (Py.is_blank text) then text
                 else "Dashboard " +:+ Py.str_of_nat (length (tabs mw) + 1)).
  { subst title. destruct (window_visible mw), ok, (Py.is_blank text); reflexivity. }
  rewrite <- Ht. clearbody title. cbn.
  rewrite length_app. cbn.
  rewrite bool_decide_eq_true_2 by lia. cbn.
  rewrite lookup_app_r by lia. rewrite Nat.sub_diag. repeat split.
Qed.

(** X2. [add_widget] keeps the object names of the docks of a dashboard
    distinct. *)
Theorem add_widget_keeps_dock_names_distinct (dashboard_index : nat) (db : store)
    (dashboard : DashboardTab) (cls : widget_class) (widget_name widget_title : string)
    (area : Z)
    (Hnames : NoDup (map objectName (dash_docks dashboard))) :
  NoDup (map objectName
           (dash_docks (add_widget_to dashboard_index db dashboard cls
                          widget_name widget_title area).1.1.1)).
Proof.
  destruct (find_dock_name_fresh (map objectName (dash_docks dashboard))
              ("dock_" +:+ widget_name)) as (m & E & Hfresh & _).
  destruct (add_widget_to_spec dashboard_index db dashboard cls widget_name widget_title area)
    as (m' & d & Eadd & E' & Hname & _).
  rewrite E in E'. injection E' as Hnames' Hm. cbv zeta in Eadd. rewrite Eadd.
  cbn [fst dash_docks]. rewrite map_app. cbn [map]. apply NoDup_app.
  split; [exact Hnames|]. split; [|apply NoDup_singleton].
  intros x Hx Hx'. apply list_elem_of_singleton in Hx'. subst x.
  rewrite Hname, <- Hnames' in Hx. contradiction.
Qed.

Lemma find_dock_name_nil (base_name : string) :
  find_dock_name [] base_name = (base_name, 1%nat).
Proof.
  unfold find_dock_name. cbn [length find_dock_name_loop].
  now rewrite bool_decide_eq_false_2 by apply not_elem_of_nil.
Qed.

(** X3. With no current dashboard, [add_widget] first creates one, as
    [add_dashboard] does, and the widget goes there: the window gains
    one tab, which holds the new dock alone. *)
Theorem add_widget_creates_dashboard (answer : string * bool) (mw : MainWindow)
    (cls : widget_class) (widget_name widget_title : string) (area : Z)
    (Hnone : currentWidget mw = None) :
  exists d,
    tabs (add_widget answer mw cls widget_name widget_title area)
    = tabs mw ++ [(new_dashboard_title answer mw,
                   {| dash_title := new_dashboard_title answer mw; dash_docks := [d] |})]
    /\ objectName d = "dock_" +:+ widget_name
    /\ windowTitle d = widget_title
    /\ currentIndex (add_widget answer mw cls widget_name widget_title area)
       = Some (length (tabs mw)).
Proof.
  destruct (add_dashboard_appends_current answer mw) as (Htabs & Hcur & _).
  cbn zeta in Htabs. unfold add_widget. rewrite Hnone. cbv beta iota zeta.
  set (mw1 := add_dashboard answer mw) in *. clearbody mw1. rewrite Hcur.
  assert (Hl : tabs mw1 !! length (tabs mw)
               = Some (new_dashboard_title answer mw,
                       {| dash_title := new_dashboard_title answer mw; dash_docks := [] |})).
  { rewrite Htabs, lookup_app_r by lia. now rewrite Nat.sub_diag. }
  rewrite Hl, Htabs.
  destruct (add_widget_to_spec (length (tabs mw)) (db mw1)
              {| dash_title := new_dashboard_title answer mw; dash_docks := [] |}
              cls widget_name widget_title area)
    as (m & d & Eadd & Efind & Hname & Htitle & _).
  cbn [dash_docks map] in Efind. rewrite find_dock_name_nil in Efind.
  injection Efind as _ Hm. subst m. cbv zeta in Eadd, Htitle. rewrite Eadd.
  cbn [tabs currentIndex dash_title dash_docks app].
  rewrite insert_app_r_alt by reflexivity. rewrite Nat.sub_diag.
  exists d. split; [reflexivity|]. split; [exact Hname|]. split; [exact Htitle|reflexivity].
Qed.

(** X4. With a current dashboard, [add_widget] adds one dock at the end
    of that dashboard and leaves the other tabs and the docks that
    were there as they are. *)
Theorem add_widget_adds_one_dock (answer : string * bool) (mw : MainWindow)
    (cls : widget_class) (widget_name widget_title : string) (area : Z)
    (i : nat) (t : string) (dashboard : DashboardTab)
    (Hcur : currentIndex mw = Some i) (Htab : tabs mw !! i = Some (t, dashboard)) :
  exists d,
    tabs (add_widget answer mw cls widget_name widget_title area)
    = <[i := (t, {| dash_title := dash_title dashboard;
                    dash_docks := dash_docks dashboard ++ [d] |})]> (tabs mw)
    /\ (objectName d ∉ map objectName (dash_docks dashboard))
    /\ currentIndex (add_widget answer mw cls widget_name widget_title area) = Some i.
Proof.
  unfold add_widget, currentWidget. rewrite Hcur. cbn. rewrite Htab, Hcur, Htab.
  destruct (find_dock_name_fresh (map objectName (dash_docks dashboard))
              ("dock_" +:+ widget_name)) as (m & E & Hfresh & _).
  destruct (add_widget_to_spec i (db mw) dashboard cls widget_name widget_title area)
    as (m' & d & Eadd & E' & Hname & _).
  rewrite E in E'. injection E' as Hnames' Hm. cbv zeta in Eadd. rewrite Eadd.
  cbn [tabs currentIndex].
  exists d. split; [reflexivity|]. split; [|reflexivity].
  now rewrite Hname, <- Hnames'.
Qed.

End Window.


Section Persistence.
Context `{Toolkit}.

(** ** What saving writes *)

(** X5. [save_layout] writes the one key of the workspace and nothing
    else: every other setting of the store is as it was, and so are
    the tabs, the current tab and the plugins. The document has one
    record for each tab, in the order of the tabs, under the title of
    the tab. Saving twice is saving once. *)
Theorem save_layout_writes_one_key (mw : MainWindow) :
  get_widget_setting (db (save_layout mw)) "main_window" "dashboards"
  = Some (json_dumps (save_document mw))
  /\ (forall widget_id key,
        (widget_id, key) <> ("main_window", "dashboards") ->
        get_widget_setting (db (save_layout mw)) widget_id key
        = get_widget_setting (db mw) widget_id key)
  /\ tabs (save_layout mw) = tabs mw
  /\ currentIndex (save_layout mw) = currentIndex mw
  /\ plugins (save_layout mw) = plugins mw
  /\ map di_title (save_document mw) = map (fun p => Some p.1) (tabs mw)
  /\ save_layout (save_layout mw) = save_layout mw.
Proof.
  unfold save_layout, get_widget_setting, set_widget_setting. cbn.
  split; [apply lookup_insert_eq|].
  split; [intros widget_id key Hne; now apply lookup_insert_ne|].
  do 3 (split; [reflexivity|]).
  split.
  - unfold save_document. rewrite map_map. apply map_ext. now intros [t dashboard].
  - f_equal. unfold save_document at 1. cbn. apply insert_insert_eq.
Qed.

(** ** The docking state and the geometry of an entry *)

Definition without_state (info : dashboard_info) : dashboard_info :=
  {| di_title := di_title info; di_state := None; di_widgets := di_widgets info |}.

(** X6. A saved docking state that is not hexadecimal text is as good as
    none: the restore of the dashboard raises nothing and does what it
    does for the record without its [state]. *)
Theorem restore_ignores_malformed_state (plugins : gmap string plugin_info) (di : nat)
    (db : store) (dashboard : DashboardTab) (info : dashboard_info) (state : string)
    (Hstate : di_state info = Some state)
    (Hbad : Hex.fromhex state = None) :
  restore_dashboard_body plugins di db dashboard info
  = restore_dashboard_body plugins di db dashboard (without_state info).
Proof.
  rewrite !restore_dashboard_body_phases. cbn [di_widgets without_state].
  rewrite !restore_dashboard_state_spec.
  assert (Hnone : forall docks, state_blob info docks = None).
  { intros docks. unfold state_blob. rewrite Hstate, Hbad.
    destruct docks; [reflexivity|]. now destruct (Py.truthy state). }
  assert (Hnone' : forall docks, state_blob (without_state info) docks = None).
  { intros docks. unfold state_blob. cbn. now destruct docks. }
  now rewrite Hnone, Hnone'.
Qed.

(** No widget is constructed for entries that do not resolve, so the
    store is left as it was. *)
Lemma create_widgets_none (plugins : gmap string plugin_info) (di : nat) (db : store)
    (instances : list widget_info) (dashboard : DashboardTab) :
  List.filter (resolves plugins) instances = [] ->
  create_widgets plugins di db instances dashboard = (dashboard, [], [], db).
Proof.
  induction instances as [|instance instances IH]; intros Hnone; [reflexivity|].
  cbn [List.filter] in Hnone. cbn [create_widgets].
  pose proof (restore_instance_spec plugins di db dashboard instance) as Hone.
  destruct (restore_instance plugins di db dashboard instance) as [[[dashboard' k] db']|].
  - destruct Hone as [Hres _]. rewrite Hres in Hnone. discriminate.
  - rewrite Hone in Hnone. now apply IH.
Qed.

(** X7. No docking state is applied when no widget of the record was
    created, whatever the record holds as its [state]: the dashboard
    and the store are left as they were. *)
Theorem no_widget_no_docking_state (plugins : gmap string plugin_info) (di : nat)
    (db : store) (dashboard : DashboardTab) (info : dashboard_info)
    (Hnone : List.filter (resolves plugins) (default [] (di_widgets info)) = []) :
  restore_dashboard_body plugins di db dashboard info
  = Ok ({| dash_title := dash_title dashboard; dash_docks := dash_docks dashboard |},
        [], [], db).
Proof.
  rewrite restore_dashboard_body_phases, (create_widgets_none _ _ _ _ _ Hnone).
  reflexivity.
Qed.

Lemma ensure_visible_body_raises (k : nat) (instance : widget_info) (live : list dock)
    (geom : geometry_info) :
  wi_geometry instance = Some geom ->
  geom_x geom = None \/ geom_y geom = None \/ geom_width geom = None
  \/ geom_height geom = None ->
  ensure_visible_body k instance live = Raise KeyError.
Proof.
  intros Hg Hmiss. unfold ensure_visible_body, normalize_geometry. rewrite Hg.
  destruct (geom_x geom), (geom_y geom), (geom_width geom), (geom_height geom);
    cbn; try reflexivity.
  destruct Hmiss as [?|[?|[?|?]]]; discriminate.
Qed.

(** X8. The last loop of the restore on an entry whose [geometry] lacks
    one of its four fields: the lookup raises, the round is given up,
    and the dock is neither moved nor shown; it stays as the docking
    state left it. An entry with no [geometry] at all has its dock
    shown where it is. *)
Theorem incomplete_geometry_leaves_dock (docks : list (nat * widget_info))
    (live : list dock) (k : nat) (instance : widget_info)
    (Hnodup : NoDup (map fst docks))
    (Hin : (k, instance) ∈ docks) :
  match wi_geometry instance with
  | Some geom =>
      geom_x geom = None \/ geom_y geom = None \/ geom_width geom = None
      \/ geom_height geom = None ->
      (ensure_visible docks live).1 !! k = live !! k
  | None => (ensure_visible docks live).1 !! k = set_visible <$> live !! k
  end.
Proof.
  revert live. induction docks as [|[k0 i0] docks IH]; intros live.
  - now apply elem_of_nil in Hin.
  - cbn in Hnodup. apply NoDup_cons in Hnodup as [Hk0 Hnodup].
    apply elem_of_cons in Hin as [[= <- <-]|Hin].
    + clear IH. cbn [ensure_visible].
      destruct (wi_geometry instance) as [geom|] eqn:Hg.
      * intros Hmiss. rewrite (ensure_visible_body_raises _ _ _ geom Hg Hmiss).
        now apply ensure_visible_other.
      * unfold ensure_visible_body. rewrite Hg. cbn.
        pose proof (ensure_visible_other docks (alter set_visible k live) k Hk0) as Ho.
        destruct (ensure_visible docks (alter set_visible k live)) as [live' evs].
        cbn in *. rewrite Ho. apply list_lookup_alter_eq.
    + assert (Hne : k0 <> k).
      { intros ->. apply Hk0. apply list_elem_of_fmap. now exists (k, instance). }
      specialize (IH Hnodup Hin). cbn [ensure_visible].
      destruct (ensure_visible_body k0 i0 live) as [[live' evs]|e] eqn:E; [|apply IH].
      assert (Hsame : live' !! k = live !! k)
        by exact (ensure_visible_body_other _ _ _ _ _ _ E Hne).
      specialize (IH live'). destruct (ensure_visible docks live') as [live'' evs'].
      cbn in *. destruct (wi_geometry instance) as [geom|].
      * intros Hmiss. now rewrite (IH Hmiss).
      * now rewrite IH, Hsame.
Qed.

(** ** The workspace after a restore *)

(** X9. After the restore of a saved list that is not empty the first tab
    is the current one and every one of its docks is visible; and the
    tabs are those of the list alone, whatever tabs the window had
    before. *)
Theorem restore_shows_first_tab (answer : string * bool) (mw other : MainWindow)
    (dashboards : list saved_dashboard)
    (Hloads : json_loads (get_widget_setting_or (db mw) "main_window" "dashboards" "[]")
              = Some dashboards)
    (Hne : readable dashboards <> [])
    (Hdb : db other = db mw) (Hplugins : plugins other = plugins mw) :
  currentIndex (restore_layout answer mw) = Some 0%nat
  /\ (exists t dashboard,
        tabs (restore_layout answer mw) !! 0%nat = Some (t, dashboard)
        /\ Forall (fun d => isVisible d = true) (dash_docks dashboard))
  /\ tabs (restore_layout answer other) = tabs (restore_layout answer mw).
Proof.
  split; [|split].
  - rewrite (restore_layout_saved _ _ _ Hloads Hne).
    pose proof (restore_dashboards_spec dashboards (with_tabs mw [] None []) 0)
      as (Htabs & _). cbn in Htabs.
    unfold show_first_tab. rewrite Htabs.
    destruct (readable dashboards) as [|info infos]; [congruence|].
    cbn [restored_tabs setCurrentIndex currentIndex with_tabs].
    rewrite Htabs. now rewrite bool_decide_eq_true_2 by (cbn; lia).
  - rewrite (restore_layout_tabs _ _ _ Hloads Hne).
    destruct (readable dashboards) as [|info infos]; [congruence|].
    eexists _, _. split; [reflexivity|]. cbn.
    apply Forall_forall. intros d Hd.
    apply list_elem_of_fmap in Hd as (d0 & -> & _). reflexivity.
  - rewrite (restore_layout_tabs _ _ _ Hloads Hne).
    rewrite <- Hdb in Hloads. rewrite (restore_layout_tabs _ _ _ Hloads Hne).
    now rewrite Hplugins, Hdb.
Qed.

End Persistence.


Section Tabs.
Context `{Toolkit}.

(** The tab [QTabWidget.removeTab] leaves current, which is the
    toolkit's choice. *)
Variable qt_current_after_remove : nat -> option nat -> nat -> option nat.

(** ** Closing and renaming a tab, closing a dock *)


(** [_rename_tab] (lines 853-874); [new_name] and [ok] are what the
    dialog returns. *)
Definition rename_tab (index : nat) (new_name : string) (ok : bool) (mw : MainWindow)
    : MainWindow :=
  if ok && negb (Py.is_blank new_name) then
    save_layout
      {| tabs := alter (fun p => (new_name, {| dash_title := new_name;
                                               dash_docks := dash_docks p.2 |}))
                   index (tabs mw);
         currentIndex := currentIndex mw; db := db mw; plugins := plugins mw;
         window_visible := window_visible mw; trace := trace mw |}
  else mw.

Definition hide (d : dock) : dock :=
  {| objectName := objectName d; windowTitle := windowTitle d;
     dock_area := dock_area d; isFloating := isFloating d;
     isVisible := false; geometry := geometry d; dock_widget := dock_widget d |}.

(** [_handle_dock_close] (lines 352-375) on the dock at [k], once the
    deletion it asked for has been carried out: the user's answer
    [yes] deletes the dock, any other answer hides it. *)
Definition handle_dock_close (yes : bool) (k : nat) (dashboard : DashboardTab)
    : DashboardTab :=
  {| dash_title := dash_title dashboard;
     dash_docks := if yes then delete k (dash_docks dashboard)
                   else alter hide k (dash_docks dashboard) |}.


(** X11. A rename that is accepted with a name that is not blank gives the
    name, as typed, to the tab and to its dashboard, and saves the
    workspace at once: the stored document has the new title at
    [index], the other titles and every list of widgets are as a save
    before the rename would have written them. A rename that is
    cancelled, or to a blank name, changes nothing and saves
    nothing. *)
Theorem rename_tab_is_saved (index : nat) (new_name : string) (ok : bool)
    (mw : MainWindow) :
  let mw' := rename_tab index new_name ok mw in
  if ok && negb (Py.is_blank new_name) then
    map fst (tabs mw') = alter (fun _ => new_name) index (map fst (tabs mw))
    /\ map (fun p => dash_title p.2) (tabs mw')
       = alter (fun _ => new_name) index (map (fun p => dash_title p.2) (tabs mw))
    /\ map (fun p => dash_docks p.2) (tabs mw') = map (fun p => dash_docks p.2) (tabs mw)
    /\ get_widget_setting (db mw') "main_window" "dashboards"
       = Some (json_dumps (save_document mw'))
    /\ map di_title (save_document mw')
       = alter (fun _ => Some new_name) index (map di_title (save_document mw))
    /\ map di_widgets (save_document mw') = map di_widgets (save_document mw)
  else mw' = mw.
Proof.
  cbn zeta. unfold rename_tab. destruct (ok && negb (Py.is_blank new_name)); [|reflexivity].
  set (f := fun p : string * DashboardTab =>
              (new_name, {| dash_title := new_name; dash_docks := dash_docks p.2 |})).
  cbn [tabs db save_layout].
  assert (Hmap : forall (B : Type) (g : string * DashboardTab -> B) (h : B -> B),
             (forall p, g (f p) = h (g p)) ->
             map g (alter f index (tabs mw)) = alter h index (map g (tabs mw))).
  { intros B g h Hgh. change (g <$> alter f index (tabs mw) = alter h index (g <$> tabs mw)).
    apply list_fmap_alter. apply Forall_true. exact Hgh. }
  split; [apply (Hmap _ fst (fun _ => new_name)); reflexivity|].
  split; [apply (Hmap _ (fun p => dash_title p.2) (fun _ => new_name)); reflexivity|].
  split.
  { rewrite (Hmap _ (fun p => dash_docks p.2) id) by reflexivity. apply list_alter_id.
    reflexivity. }
  split.
  { unfold get_widget_setting, set_widget_setting. rewrite lookup_insert_eq.
    reflexivity. }
  rewrite !save_document_records. cbn [tabs]. rewrite !map_map. split.
  - apply (Hmap _ (fun p => di_title (saved_record p)) (fun _ => Some new_name)).
    reflexivity.
  - rewrite (Hmap _ (fun p => di_widgets (saved_record p)) id) by reflexivity.
    apply list_alter_id. reflexivity.
Qed.

(** X12. A dock the user closes without deleting it is only hidden: the
    entries a save writes for the dashboard are those it would have
    written before, the entry of the hidden dock among them. *)
Theorem closed_dock_is_still_saved (k : nat) (dashboard : DashboardTab) :
  di_widgets (save_dashboard_layout (handle_dock_close false k dashboard))
  = di_widgets (save_dashboard_layout dashboard)
  /\ dock_visible (dash_docks (handle_dock_close false k dashboard)) k = false
  /\ length (dash_docks (handle_dock_close false k dashboard))
     = length (dash_docks dashboard).
Proof.
  unfold handle_dock_close, save_dashboard_layout. cbn.
  assert (Hsave : forall docks, save_docks (alter hide k docks) = save_docks docks).
  { intros docks. revert k. induction docks as [|d docks IH]; intros k; [reflexivity|].
    destruct k as [|k]; cbn [alter list_alter save_docks].
    - reflexivity.
    - change (list_alter hide k docks) with (alter hide k docks). now rewrite IH. }
  rewrite Hsave. split; [reflexivity|]. split.
  - unfold dock_visible. rewrite list_lookup_alter_eq.
    now destruct (dash_docks dashboard !! k).
  - apply length_alter.
Qed.

End Tabs.


Section Reappearing.
Context `{Toolkit}.

(** ** What a restore shows *)


End Reappearing.


Section WindowExamples.

#[local] Existing Instance identifier_toolkit.

Definition groceries_window : MainWindow :=
  Demo.window [("Main", groceries_dashboard)] ∅.

Lemma add_widget_keeps_dock_names_distinct_witness :
  NoDup (map objectName (dash_docks groceries_dashboard))
  /\ NoDup (map objectName
              (dash_docks (add_widget_to 0 ∅ groceries_dashboard list_class
                             "custom_list" "To Do" 2).1.1.1)).
Proof.
  assert (Hnames : NoDup (map objectName (dash_docks groceries_dashboard)))
    by (simpl; apply NoDup_singleton).
  split; [exact Hnames|].
  exact (add_widget_keeps_dock_names_distinct 0 ∅ groceries_dashboard list_class
           "custom_list" "To Do" 2 Hnames).
Defined.

Lemma add_widget_creates_dashboard_witness :
  currentWidget (Demo.window [] ∅) = None
  /\ exists d,
       tabs (add_widget ("", false) (Demo.window [] ∅) clock_class "clock" "Clock" 2)
       = [("Dashboard 1", {| dash_title := "Dashboard 1"; dash_docks := [d] |})]
       /\ objectName d = "dock_clock".
Proof.
  assert (Hnone : currentWidget (Demo.window [] ∅) = None) by reflexivity.
  split; [exact Hnone|].
  destruct (add_widget_creates_dashboard ("", false) (Demo.window [] ∅) clock_class
              "clock" "Clock" 2 Hnone) as (d & Htabs & Hname & _).
  exists d. split; [rewrite Htabs; vm_compute; reflexivity|exact Hname].
Defined.

Lemma add_widget_adds_one_dock_witness :
  currentIndex groceries_window = Some 0%nat
  /\ tabs groceries_window !! 0%nat = Some ("Main", groceries_dashboard)
  /\ exists d,
       tabs (add_widget ("", false) groceries_window list_class "custom_list" "To Do" 2)
       = [("Main", {| dash_title := "Main";
                      dash_docks := dash_docks groceries_dashboard ++ [d] |})]
       /\ (objectName d ∉ ["dock_custom_list"]).
Proof.
  assert (Hcur : currentIndex groceries_window = Some 0%nat) by reflexivity.
  assert (Htab : tabs groceries_window !! 0%nat = Some ("Main", groceries_dashboard))
    by reflexivity.
  split; [exact Hcur|]. split; [exact Htab|].
  destruct (add_widget_adds_one_dock ("", false) groceries_window list_class
              "custom_list" "To Do" 2 0 "Main" groceries_dashboard Hcur Htab)
    as (d & Htabs & Hfresh & _).
  exists d. split; [rewrite Htabs; reflexivity|exact Hfresh].
Defined.

(** A record whose docking state is not hexadecimal, and one none of
    whose widgets can be created. *)
Definition garbled_record : dashboard_info :=
  {| di_title := Some "Main"; di_state := Some "zz"; di_widgets := Some [clock_entry] |}.

Definition orphan_record : dashboard_info :=
  {| di_title := Some "Main"; di_state := Some "0a0b"; di_widgets := Some [gone_entry] |}.

Lemma restore_ignores_malformed_state_witness :
  di_state garbled_record = Some "zz"
  /\ Hex.fromhex "zz" = None
  /\ restore_dashboard_body Demo.registry 0 ∅ empty_main garbled_record
     = restore_dashboard_body Demo.registry 0 ∅ empty_main (without_state garbled_record).
Proof.
  assert (Hbad : Hex.fromhex "zz" = None) by (vm_compute; reflexivity).
  split; [reflexivity|]. split; [exact Hbad|].
  exact (restore_ignores_malformed_state Demo.registry 0 ∅ empty_main garbled_record "zz"
           eq_refl Hbad).
Defined.

Lemma no_widget_no_docking_state_witness :
  List.filter (resolves Demo.registry) (default [] (di_widgets orphan_record)) = []
  /\ restore_dashboard_body Demo.registry 0 ∅ empty_main orphan_record
     = Ok (empty_main, [], [], ∅).
Proof.
  assert (Hnone : List.filter (resolves Demo.registry)
                    (default [] (di_widgets orphan_record)) = [])
    by (vm_compute; reflexivity).
  split; [exact Hnone|].
  exact (no_widget_no_docking_state Demo.registry 0 ∅ empty_main orphan_record Hnone).
Defined.

(** An entry whose geometry has lost its [y]. *)
Definition torn_entry : widget_info :=
  {| wi_module_name := Some "clock"; wi_dock_name := Some "dock_clock";
     wi_title := Some "Clock"; wi_area := Some 2; wi_floating := Some false;
     wi_visible := Some true;
     wi_geometry := Some {| geom_x := Some 1; geom_y := None;
                            geom_width := Some 300; geom_height := Some 200 |} |}.

Lemma incomplete_geometry_leaves_dock_witness :
  NoDup (map fst [(0%nat, torn_entry)])
  /\ (0%nat, torn_entry) ∈ [(0%nat, torn_entry)]
  /\ (ensure_visible [(0%nat, torn_entry)] [hide wide_clock]).1 !! 0%nat
     = Some (hide wide_clock).
Proof.
  assert (Hnodup : NoDup (map fst [(0%nat, torn_entry)])) by apply NoDup_singleton.
  assert (Hin : (0%nat, torn_entry) ∈ [(0%nat, torn_entry)]) by apply list_elem_of_here.
  split; [exact Hnodup|]. split; [exact Hin|].
  apply (incomplete_geometry_leaves_dock [(0%nat, torn_entry)] [hide wide_clock]
           0 torn_entry Hnodup Hin).
  right. left. reflexivity.
Defined.


End WindowExamples.

Section RestoreExamples.

#[local] Existing Instance lost_toolkit.

Lemma restore_shows_first_tab_witness :
  json_loads (get_widget_setting_or (db main_window) "main_window" "dashboards" "[]")
  = Some [Saved main_record]
  /\ readable [Saved main_record] <> []
  /\ currentIndex (restore_layout ("", false) main_window) = Some 0%nat
  /\ tabs (restore_layout ("", false)
             (Demo.window [("Old", empty_main)] (db main_window)))
     = tabs (restore_layout ("", false) main_window).
Proof.
  assert (Hloads : json_loads (get_widget_setting_or (db main_window)
                                 "main_window" "dashboards" "[]")
                   = Some [Saved main_record]) by (vm_compute; reflexivity).
  assert (Hne : readable [Saved main_record] <> []) by discriminate.
  split; [exact Hloads|]. split; [exact Hne|].
  destruct (restore_shows_first_tab ("", false) main_window
              (Demo.window [("Old", empty_main)] (db main_window)) [Saved main_record]
              Hloads Hne eq_refl eq_refl) as (Hcur & _ & Hsame).
  split; [exact Hcur|exact Hsame].
Defined.

End RestoreExamples.

Section HiddenExample.

#[local] Existing Instance wide_toolkit.



End HiddenExample.


(** * The widgets that rename themselves *)

(** ** The code viewer ([modules/code_viewer/widget.py]) *)

Module CodeViewer.

Record CodeViewerWidget := {
  base_widget_id : string;
  widget_id : string;
  code_title : string }.

(** The value [edit_title] moves for one key: what is stored under
    the old id, when something is, and it is not empty. *)
Definition move_setting (db0 db : store) (old_widget_id new_widget_id key : string)
    : store :=
  match get_widget_setting db0 old_widget_id key with
  | Some value =>
      if Py.truthy value then set_widget_setting db new_widget_id key value else db
  | None => db
  end.

(** [edit_title] (lines 219-248); [new_title] and [ok] are what the
    dialog returns. *)
Definition edit_title (new_title : string) (ok : bool) (db : store) (w : CodeViewerWidget)
    : store * CodeViewerWidget :=
  if ok && negb (Py.is_blank new_title) then
    let old_widget_id := widget_id w in
    let w := {| base_widget_id := base_widget_id w;
                widget_id := base_widget_id w +:+ "_" +:+ sanitize new_title;
                code_title := new_title |} in
    if negb (String.eqb old_widget_id (widget_id w)) then
      let db1 := move_setting db db old_widget_id (widget_id w) "content" in
      let db2 := move_setting db db1 old_widget_id (widget_id w) "language" in
      let db3 := set_widget_setting db2 old_widget_id "content" "" in
      let db4 := set_widget_setting db3 old_widget_id "language" "" in
      (db4, w)
    else (db, w)
  else (db, w).

(** [load_content] (lines 260-271): the language it looks up in the
    combo box and the content it puts in the editor, [None] where it
    leaves the editor as it is. *)
Definition load_content (db : store) (w : CodeViewerWidget) : string * option string :=
  let language := get_widget_setting_or db (widget_id w) "language" "python" in
  let content := get_widget_setting_or db (widget_id w) "content" "" in
  (language, if Py.truthy content then Some content else None).

End CodeViewer.

Section CodeViewerProperties.

Import CodeViewer.

(** The id a widget of the given base has under a title. *)
Definition titled_id (base title : string) : string :=
  base +:+ "_" +:+ sanitize title.

(** X14. A rename of a code viewer that changes its id moves its content
    and its language: what was stored under the old id, and was not
    empty, is stored under the new id, and the old id holds the empty
    text for both keys, which [load_content] reads as nothing stored.
    Every other setting of the store is as it was. *)
Theorem code_viewer_rename_moves_settings (new_title : string) (db : store)
    (w : CodeViewerWidget) (content language : string)
    (Hblank : Py.is_blank new_title = false)
    (Hid : titled_id (base_widget_id w) new_title <> widget_id w)
    (Hcontent : get_widget_setting db (widget_id w) "content" = Some content)
    (Hlanguage : get_widget_setting db (widget_id w) "language" = Some language)
    (Hc : Py.truthy content = true) (Hl : Py.truthy language = true) :
  let r := edit_title new_title true db w in
  let new_id := titled_id (base_widget_id w) new_title in
  widget_id r.2 = new_id
  /\ code_title r.2 = new_title
  /\ get_widget_setting r.1 new_id "content" = Some content
  /\ get_widget_setting r.1 new_id "language" = Some language
  /\ load_content r.1 r.2 = (language, Some content)
  /\ get_widget_setting r.1 (widget_id w) "content" = Some ""
  /\ get_widget_setting r.1 (widget_id w) "language" = Some ""
  /\ forall id key,
       id <> new_id -> id <> widget_id w ->
       get_widget_setting r.1 id key = get_widget_setting db id key.
Proof.
  cbn zeta. unfold edit_title. rewrite Hblank. cbn [andb negb].
  fold (titled_id (base_widget_id w) new_title).
  set (new_id := titled_id (base_widget_id w) new_title) in *.
  cbn [widget_id].
  assert (Hne : String.eqb (widget_id w) new_id = false).
  { apply String.eqb_neq. congruence. }
  rewrite Hne. cbn [negb fst snd widget_id code_title].
  unfold move_setting. rewrite Hcontent, Hlanguage, Hc, Hl.
  unfold load_content, get_widget_setting_or, get_widget_setting, set_widget_setting in *.
  cbn [widget_id].
  assert (Hk : "content" <> "language") by discriminate.
  repeat split.
  - rewrite !lookup_insert_ne by congruence. apply lookup_insert_eq.
  - rewrite !lookup_insert_ne by congruence. apply lookup_insert_eq.
  - rewrite !(lookup_insert_ne _ (widget_id w, _)) by congruence.
    rewrite lookup_insert_eq.
    rewrite (lookup_insert_ne _ (new_id, "language")) by congruence.
    rewrite lookup_insert_eq. cbn. now rewrite Hc.
  - rewrite lookup_insert_ne by congruence. apply lookup_insert_eq.
  - apply lookup_insert_eq.
  - intros id key Hnew Hold. now rewrite !lookup_insert_ne by congruence.
Qed.

End CodeViewerProperties.

(** ** The custom list ([modules/custom_list/widget.py]) *)

Section CustomListProperties.

Import CustomList.
Context {column item : Type} `{JsonList column} `{JsonList item}.

#[local] Abbreviation Widget := (CustomListWidget column item).

(** What the list holds once it has loaded the state stored under its
    id, as its constructor and the setter of [widget_id] do. *)
Definition reload (db : store) (w : Widget) : Widget :=
  load_items db (load_columns db w).

(** X16. What a custom list saves is what a custom list with the same id
    loads, provided the JSON codec reads back what it wrote: the same
    items, and the same columns, except that a list saved without
    columns comes back with the default column. *)
Theorem custom_list_saved_state_reloads (db : store) (w w0 : Widget)
    (Hid : _widget_id w0 = _widget_id w)
    (Hcolumns : loads (dumps (columns w)) = Some (columns w))
    (Hitems : loads (dumps (items w)) = Some (items w))
    (Hc : Py.truthy (dumps (columns w)) = true)
    (Hi : Py.truthy (dumps (items w)) = true) :
  let db' := save_items (save_columns db w) w in
  columns (reload db' w0)
  = match columns w with [] => [default_column w0] | _ => columns w end
  /\ items (reload db' w0) = items w.
Proof.
  cbn zeta. set (db' := save_items (save_columns db w) w).
  assert (Hdbc : get_widget_setting db' (_widget_id w) "columns" = Some (dumps (columns w))).
  { unfold db', save_items, save_columns, get_widget_setting, set_widget_setting.
    rewrite lookup_insert_ne by (intros [= E]; discriminate E). apply lookup_insert_eq. }
  assert (Hdbi : get_widget_setting db' (_widget_id w) "items" = Some (dumps (items w))).
  { unfold db', save_items, save_columns, get_widget_setting, set_widget_setting.
    apply lookup_insert_eq. }
  clearbody db'. unfold reload.
  assert (Hwc : _widget_id (load_columns db' w0) = _widget_id w
                /\ columns (load_columns db' w0)
                   = match columns w with [] => [default_column w0] | _ => columns w end).
  { unfold load_columns. rewrite Hid, Hdbc, Hc, Hcolumns.
    destruct (columns w); cbn; now split. }
  destruct Hwc as [Hwid Hwcols].
  set (wc := load_columns db' w0) in *. clearbody wc.
  unfold load_items. rewrite Hwid, Hdbi, Hi, Hitems. cbn. now split.
Qed.

Lemma set_widget_id_fresh (db : store) (w : Widget) (value : string) :
  Py.truthy value = true ->
  get_widget_setting db value "columns" = None ->
  _widget_id (set_widget_id db w value) = value
  /\ list_title (set_widget_id db w value) = list_title w
  /\ base_widget_id (set_widget_id db w value) = base_widget_id w
  /\ columns (set_widget_id db w value) = [default_column w]
  /\ (get_widget_setting db value "items" = None ->
      items (set_widget_id db w value) = items w).
Proof.
  intros Htruthy Hnone. unfold set_widget_id. rewrite Htruthy.
  unfold load_columns. cbn [_widget_id]. rewrite Hnone.
  unfold load_items. cbn [_widget_id with_columns].
  destruct (get_widget_setting db value "items") as [saved|].
  - destruct (Py.truthy saved); [destruct (loads saved)|]; cbn; repeat split; discriminate.
  - cbn. repeat split.
Qed.

(** X17. A rename of a custom list to an id under which no columns are
    stored resets the columns: whatever columns the list had, it has
    the default column alone afterwards, and that is what is stored
    under the new id, while the old id holds the text of the empty
    list. The items are kept and stored under the new id when none
    were stored there. *)
Theorem custom_list_rename_resets_columns (new_title : string) (db : store) (w : Widget)
    (Hblank : Py.is_blank new_title = false)
    (Hid : titled_id (base_widget_id w) new_title <> _widget_id w)
    (Hnone : get_widget_setting db (titled_id (base_widget_id w) new_title) "columns"
             = None) :
  let r := edit_title new_title true db w in
  let new_id := titled_id (base_widget_id w) new_title in
  _widget_id r.2 = new_id
  /\ list_title r.2 = new_title
  /\ columns r.2 = [default_column w]
  /\ get_widget_setting r.1 new_id "columns" = Some (dumps [default_column w])
  /\ get_widget_setting r.1 (_widget_id w) "columns" = Some "[]"
  /\ get_widget_setting r.1 (_widget_id w) "items" = Some "[]"
  /\ (get_widget_setting db new_id "items" = None ->
      items r.2 = items w
      /\ get_widget_setting r.1 new_id "items" = Some (dumps (items w))).
Proof.
  cbn zeta. unfold edit_title. rewrite Hblank. cbn [andb negb].
  cbn [base_widget_id list_title _widget_id].
  fold (titled_id (base_widget_id w) new_title).
  set (new_id := titled_id (base_widget_id w) new_title) in *.
  assert (Htruthy : Py.truthy new_id = true).
  { subst new_id. unfold titled_id. now destruct (base_widget_id w). }
  set (wt := {| base_widget_id := base_widget_id w; _widget_id := _widget_id w;
                list_title := new_title; default_column := default_column w;
                columns := columns w; items := items w |}).
  destruct (set_widget_id_fresh db wt new_id Htruthy Hnone)
    as (Hw_id & Hw_title & Hw_base & Hw_cols & Hw_items).
  cbn [wt list_title base_widget_id default_column items] in Hw_title, Hw_base, Hw_cols,
    Hw_items.
  set (w2 := set_widget_id db wt new_id) in *. clearbody w2. clear wt.
  rewrite Hw_id.
  assert (Hne : String.eqb (_widget_id w) new_id = false).
  { apply String.eqb_neq. congruence. }
  rewrite Hne. cbn [negb fst snd].
  unfold save_items, save_columns, get_widget_setting, set_widget_setting in *.
  rewrite Hw_id, Hw_cols, Hw_base.
  split; [reflexivity|]. split; [exact Hw_title|]. split; [reflexivity|].
  split.
  { rewrite !lookup_insert_ne by (intros [= E]; congruence). apply lookup_insert_eq. }
  split.
  { rewrite lookup_insert_ne by (intros [= E]; discriminate E). apply lookup_insert_eq. }
  split; [apply lookup_insert_eq|].
  intros Hitems. split; [now apply Hw_items|].
  rewrite !lookup_insert_ne by (intros [= E]; congruence). rewrite lookup_insert_eq.
  now rewrite (Hw_items Hitems).
Qed.

End CustomListProperties.


(** ** The data of a custom list *)

Module ListData.

(** The values the program puts in the cells of an item. *)
Inductive cell :=
| CellText (text : string)
| CellLink (text url : string)
| CellColored (text : string) (color : option string)
| CellBool (checked : bool).

(** The dict of a column, as the program makes it: [id] and [name]
    are always there, [type] is read with [get]. *)
Record column_config := {
  col_id : string;
  col_name : string;
  col_type : option string;
  col_sortable : option bool }.

(** An item: the dict from column ids to cells. *)
Abbreviation item := (gmap string cell).

Definition is_type (type : string) (col : column_config) : bool :=
  match col_type col with
  | Some t => String.eqb t type
  | None => false
  end.

Section Operations.

Import CustomList.
Context `{JsonList column_config} `{JsonList item}.

#[local] Abbreviation Widget := (CustomListWidget column_config item).

Definition with_state (w : Widget) (cols : list column_config) (its : list item) : Widget :=
  {| base_widget_id := base_widget_id w; _widget_id := _widget_id w;
     list_title := list_title w; default_column := default_column w;
     columns := cols; items := its |}.

(** [delete_column] (lines 838-867); [yes] is the user's answer to the
    question. The result is [None] when [self.columns[column_index]]
    raises [IndexError], which nothing catches. *)
Definition delete_column (column_index : Z) (yes : bool) (db : store) (w : Widget)
    : option (store * Widget) :=
  if (column_index <=? 0)%Z then Some (db, w)
  else
    match columns w !! Z.to_nat column_index with
    | None => None
    | Some column =>
        if yes then
          let cols := delete (Z.to_nat column_index) (columns w) in
          let its := map (fun it : item => delete (col_id column) it) (items w) in
          let w := with_state w cols its in
          let db := save_columns db w in
          let db := save_items db w in
          Some (db, w)
        else Some (db, w)
    end.

(** The cell [import_items] gives a column before it sets the title
    (lines 925-929), and the one it gives the first column (lines
    932-936). *)
Definition empty_cell (col : column_config) : cell :=
  if is_type "link" col then CellLink "" "" else CellText "".

Definition title_cell (col : column_config) (line : string) : cell :=
  if is_type "link" col then CellLink line line else CellText line.

Definition import_item (first : column_config) (cols : list column_config)
    (line : string) : item :=
  let it := foldl (fun (it : item) col => <[col_id col := empty_cell col]> it) ∅ cols in
  <[col_id first := title_cell first line]> it.

(** [import_items] (lines 900-952); [accepted] says whether the dialog
    was accepted and [lines] is what its [get_lines] returns. *)
Definition import_items (accepted : bool) (lines : list string) (db : store) (w : Widget)
    : store * Widget :=
  let '(db, w) :=
    match columns w with
    | [] =>
        let w := with_state w [default_column w] (items w) in
        (save_columns db w, w)
    | _ => (db, w)
    end in
  if accepted then
    match lines, columns w with
    | [], _ => (db, w)
    | _, first :: _ =>
        let w := with_state w (columns w)
                   (items w ++ map (import_item first (columns w)) lines) in
        (save_items db w, w)
    | _, [] => (db, w)
    end
  else (db, w).

(** [clear_all_checkmarks] (lines 962-977). *)
Definition clear_all_checkmarks (db : store) (w : Widget) : store * Widget :=
  let checkbox_columns := map col_id (List.filter (is_type "checkbox") (columns w)) in
  match checkbox_columns with
  | [] => (db, w)
  | _ =>
      let clear (it : item) : item :=
        foldl (fun (it : item) id => <[id := CellBool false]> it) it checkbox_columns in
      let w := with_state w (columns w) (map clear (items w)) in
      (save_items db w, w)
  end.

End Operations.

End ListData.

Section ListDataProperties.

Import CustomList ListData.
Context `{JsonList column_config} `{JsonList item}.

#[local] Abbreviation ListWidget := (CustomListWidget column_config item).

(** X19. [delete_column] never deletes the first column, whatever the
    index and the answer: when it returns, the list has the first
    column it had, and a list that had columns still has some. *)
Theorem delete_column_keeps_first_column (column_index : Z) (yes : bool) (db db' : store)
    (w w' : ListWidget)
    (Hdone : delete_column column_index yes db w = Some (db', w')) :
  head (columns w') = head (columns w)
  /\ (columns w <> [] -> columns w' <> [])
  /\ ((column_index <= 0)%Z -> (db', w') = (db, w)).
Proof.
  unfold delete_column in Hdone.
  destruct (column_index <=? 0)%Z eqn:Hle.
  - injection Hdone as <- <-. repeat split; auto.
  - apply Z.leb_gt in Hle.
    destruct (columns w !! Z.to_nat column_index) as [column|] eqn:Hcol; [|discriminate].
    destruct yes; injection Hdone as <- <-; [|repeat split; auto; lia].
    cbn [columns with_state]. destruct (Z.to_nat column_index) as [|n] eqn:Hn; [lia|].
    destruct (columns w) as [|c cs]; [discriminate|]. cbn.
    repeat split; [discriminate|lia].
Qed.

(** X20. A column deleted on the user's word takes its data with it: the
    columns are the others in their order, no item has a cell under
    the id of the column any more, every other cell of every item is
    as it was, and both the columns and the items are saved under the
    id of the list. *)
Theorem delete_column_removes_data (column_index : Z) (db : store) (w : ListWidget)
    (column : column_config)
    (Hpos : (0 < column_index)%Z)
    (Hcol : columns w !! Z.to_nat column_index = Some column) :
  exists db' w',
    delete_column column_index true db w = Some (db', w')
    /\ columns w' = delete (Z.to_nat column_index) (columns w)
    /\ length (columns w') = (length (columns w) - 1)%nat
    /\ length (items w') = length (items w)
    /\ (forall i it', items w' !! i = Some it' ->
        it' !! col_id column = None
        /\ exists it, items w !! i = Some it
                      /\ forall k, k <> col_id column -> it' !! k = it !! k)
    /\ get_widget_setting db' (_widget_id w) "columns" = Some (dumps (columns w'))
    /\ get_widget_setting db' (_widget_id w) "items" = Some (dumps (items w')).
Proof.
  unfold delete_column. rewrite (proj2 (Z.leb_gt _ _) Hpos), Hcol.
  eexists _, _. split; [reflexivity|]. cbn [columns items with_state _widget_id].
  split; [reflexivity|].
  split; [rewrite length_delete by (rewrite Hcol; eauto); reflexivity|].
  split; [apply length_map|]. split.
  - intros i it' Hi.
    change (map (fun it : item => delete (col_id column) it) (items w))
      with ((fun it : item => delete (col_id column) it) <$> items w) in Hi.
    rewrite list_lookup_fmap in Hi.
    destruct (items w !! i) as [it|]; [|discriminate]. injection Hi as <-.
    split; [apply lookup_delete_eq|].
    exists it. split; [reflexivity|]. intros k Hk. now apply lookup_delete_ne.
  - unfold save_items, save_columns, get_widget_setting, set_widget_setting.
    cbn [columns items with_state _widget_id]. split.
    + rewrite lookup_insert_ne by (intros [= E]; discriminate E). apply lookup_insert_eq.
    + apply lookup_insert_eq.
Qed.

Lemma foldl_insert_const (v : cell) (ids : list string) (it : item) (k : string) :
  foldl (fun (it : item) id => <[id := v]> it) it ids !! k
  = if bool_decide (k ∈ ids) then Some v else it !! k.
Proof.
  revert it. induction ids as [|id ids IH]; intros it; cbn [foldl].
  - now rewrite bool_decide_eq_false_2 by apply not_elem_of_nil.
  - rewrite IH. destruct (decide (k ∈ ids)) as [Hin|Hin].
    + rewrite !bool_decide_eq_true_2; [reflexivity| |exact Hin].
      now apply elem_of_cons; right.
    + rewrite (bool_decide_eq_false_2 _ Hin). destruct (decide (k = id)) as [->|Hne].
      * rewrite lookup_insert_eq, bool_decide_eq_true_2; [reflexivity|].
        apply elem_of_cons. now left.
      * rewrite lookup_insert_ne by congruence.
        rewrite bool_decide_eq_false_2; [reflexivity|].
        intros Hk. apply elem_of_cons in Hk as [?|?]; contradiction.
Qed.

(** The ids of the checkbox columns of a list. *)
Definition checkbox_ids (w : ListWidget) : list string :=
  map col_id (List.filter (is_type "checkbox") (columns w)).

(** X21. [clear_all_checkmarks] unchecks every checkbox column in every
    item, also where the item had no cell for the column, and touches
    no other cell; the items are then saved. Without a checkbox
    column it changes nothing and saves nothing. Clearing twice is
    clearing once. *)
Theorem clear_all_checkmarks_unchecks (db : store) (w : ListWidget) :
  let r := clear_all_checkmarks db w in
  columns r.2 = columns w
  /\ length (items r.2) = length (items w)
  /\ (forall i it', items r.2 !! i = Some it' ->
      exists it, items w !! i = Some it
                 /\ forall k, it' !! k = if bool_decide (k ∈ checkbox_ids w)
                                         then Some (CellBool false) else it !! k)
  /\ (checkbox_ids w = [] -> r = (db, w))
  /\ (checkbox_ids w <> [] ->
      get_widget_setting r.1 (_widget_id w) "items" = Some (dumps (items r.2)))
  /\ (clear_all_checkmarks r.1 r.2).2 = r.2.
Proof.
  cbn zeta. unfold clear_all_checkmarks. fold (checkbox_ids w).
  destruct (checkbox_ids w) as [|id ids] eqn:Hids.
  - cbn [fst snd]. fold (checkbox_ids w). rewrite Hids.
    split; [reflexivity|]. split; [reflexivity|]. split.
    + intros i it' Hi. exists it'. split; [exact Hi|]. intros k.
      now rewrite bool_decide_eq_false_2 by apply not_elem_of_nil.
    + repeat split. congruence.
  - cbn [fst snd columns items with_state _widget_id].
    set (clear := fun it : item =>
                    foldl (fun (it : item) id => <[id := CellBool false]> it) it (id :: ids)).
    split; [reflexivity|]. split; [apply length_map|]. split; [|split; [|split]].
    + intros i it' Hi. change (map clear (items w)) with (clear <$> items w) in Hi.
      rewrite list_lookup_fmap in Hi.
      destruct (items w !! i) as [it|]; [|discriminate]. injection Hi as <-.
      exists it. split; [reflexivity|]. intros k. apply foldl_insert_const.
    + discriminate.
    + intros _. unfold save_items, get_widget_setting, set_widget_setting.
      cbn [items with_state _widget_id]. apply lookup_insert_eq.
    + unfold checkbox_ids. cbn [columns with_state]. fold (checkbox_ids w). rewrite Hids.
      cbn [snd items with_state columns _widget_id base_widget_id list_title default_column].
      f_equal. rewrite map_map. apply map_ext. intros it.
      apply map_eq. intros k. subst clear. cbv beta.
      rewrite !foldl_insert_const. now destruct (bool_decide (k ∈ id :: ids)).
Qed.

Lemma foldl_insert_empty_cells (cols : list column_config) (it : item) (k : string) :
  (k ∈ map col_id cols ->
   exists col, col ∈ cols /\ col_id col = k
               /\ foldl (fun (it : item) col => <[col_id col := empty_cell col]> it) it cols
                  !! k = Some (empty_cell col))
  /\ ((k ∉ map col_id cols) ->
      foldl (fun (it : item) col => <[col_id col := empty_cell col]> it) it cols !! k
      = it !! k).
Proof.
  revert it. induction cols as [|c cols IH]; intros it; cbn [foldl map].
  - split; [intros Hk; now apply elem_of_nil in Hk|reflexivity].
  - destruct (IH (<[col_id c := empty_cell c]> it)) as [IHin IHout].
    destruct (decide (k ∈ map col_id cols)) as [Hin|Hnin].
    + split; [|intros Hk; exfalso; apply Hk; apply elem_of_cons; now right].
      intros _. destruct (IHin Hin) as (col & Hcol & Hid & Hlook).
      exists col. split; [apply elem_of_cons; now right|]. now split.
    + split.
      * intros Hk. apply elem_of_cons in Hk as [->|Hk]; [|contradiction].
        exists c. split; [apply elem_of_cons; now left|]. split; [reflexivity|].
        rewrite (IHout Hnin). apply lookup_insert_eq.
      * intros Hk. rewrite (IHout Hnin). apply lookup_insert_ne.
        intros E. apply Hk. rewrite <- E. apply elem_of_cons. now left.
Qed.

(** X22. [import_items] on a list that has columns, when the dialog is
    accepted with some lines: the items there were are kept, and one
    item is added for each line, in the order of the lines. The new
    item has the line as the cell of the first column, an empty cell
    for every other column, and no other cell; the items are saved
    under the id of the list. *)
Theorem import_items_appends (lines : list string) (db : store) (w : ListWidget)
    (first : column_config) (rest : list column_config)
    (Hlines : lines <> [])
    (Hcolumns : columns w = first :: rest) :
  let r := import_items true lines db w in
  columns r.2 = columns w
  /\ items r.2 = items w ++ map (import_item first (columns w)) lines
  /\ length (items r.2) = (length (items w) + length lines)%nat
  /\ (forall line,
        import_item first (columns w) line !! col_id first = Some (title_cell first line)
        /\ (forall k, k <> col_id first -> k ∈ map col_id rest ->
            exists col, col ∈ rest /\ col_id col = k
                        /\ import_item first (columns w) line !! k = Some (empty_cell col))
        /\ (forall k, (k ∉ map col_id (columns w)) ->
            import_item first (columns w) line !! k = None))
  /\ get_widget_setting r.1 (_widget_id w) "items" = Some (dumps (items r.2)).
Proof.
  cbn zeta. unfold import_items. rewrite Hcolumns.
  destruct lines as [|line lines]; [congruence|].
  cbn [fst snd columns items with_state _widget_id]. rewrite Hcolumns.
  cbn [fst snd columns items with_state _widget_id].
  split; [reflexivity|]. split; [reflexivity|].
  split; [rewrite length_app, length_map; reflexivity|]. split.
  - intros l. unfold import_item. split; [apply lookup_insert_eq|]. split.
    + intros k Hk Hin. rewrite lookup_insert_ne by congruence.
      destruct (foldl_insert_empty_cells (first :: rest) ∅ k) as [Hfound _].
      destruct Hfound as (col & Hcol & Hid & Hlook).
      { cbn. apply elem_of_cons. now right. }
      apply elem_of_cons in Hcol as [->|Hcol]; [congruence|].
      exists col. now repeat split.
    + intros k Hk. cbn in Hk. apply not_elem_of_cons in Hk as [Hne Hk].
      rewrite lookup_insert_ne by congruence.
      destruct (foldl_insert_empty_cells (first :: rest) ∅ k) as [_ Hout].
      rewrite Hout; [apply lookup_empty|].
      cbn. intros Hin. apply elem_of_cons in Hin as [?|?]; contradiction.
  - unfold save_items, get_widget_setting, set_widget_setting.
    cbn [items with_state _widget_id]. apply lookup_insert_eq.
Qed.

(** X23. [import_items] adds nothing when the dialog is cancelled or gives
    no line. *)
Theorem import_items_without_lines (accepted : bool) (lines : list string) (db : store)
    (w : ListWidget)
    (Hnothing : accepted = false \/ lines = []) :
  items (import_items accepted lines db w).2 = items w
  /\ (columns w <> [] -> import_items accepted lines db w = (db, w)).
Proof.
  unfold import_items. destruct (columns w) as [|first rest] eqn:Hcolumns.
  - cbn [columns with_state]. split; [|congruence].
    destruct Hnothing as [-> | ->]; [reflexivity|]. now destruct accepted.
  - rewrite Hcolumns. split; [|intros _];
      (destruct Hnothing as [-> | ->]; [reflexivity|]; now destruct accepted).
Qed.

End ListDataProperties.


Section RenameExamples.

Import CodeViewer.

Definition foo_viewer : CodeViewerWidget :=
  {| base_widget_id := "code_viewer"; widget_id := "code_viewer_foo"; code_title := "Foo" |}.

Definition viewer_store : store :=
  {[ ("code_viewer_foo", "content") := "print(1)";
     ("code_viewer_foo", "language") := "python" ]}.

Lemma code_viewer_rename_moves_settings_witness :
  Py.is_blank "Bar" = false
  /\ titled_id "code_viewer" "Bar" <> "code_viewer_foo"
  /\ get_widget_setting viewer_store "code_viewer_foo" "content" = Some "print(1)"
  /\ get_widget_setting (edit_title "Bar" true viewer_store foo_viewer).1
       "code_viewer_bar" "content" = Some "print(1)"
  /\ get_widget_setting (edit_title "Bar" true viewer_store foo_viewer).1
       "code_viewer_foo" "content" = Some "".
Proof.
  assert (Hblank : Py.is_blank "Bar" = false) by reflexivity.
  assert (Hid : titled_id (base_widget_id foo_viewer) "Bar" <> widget_id foo_viewer)
    by (vm_compute; discriminate).
  assert (Hcontent : get_widget_setting viewer_store (widget_id foo_viewer) "content"
                     = Some "print(1)") by (vm_compute; reflexivity).
  assert (Hlanguage : get_widget_setting viewer_store (widget_id foo_viewer) "language"
                      = Some "python") by (vm_compute; reflexivity).
  split; [exact Hblank|]. split; [exact Hid|]. split; [exact Hcontent|].
  destruct (code_viewer_rename_moves_settings "Bar" viewer_store foo_viewer
              "print(1)" "python" Hblank Hid Hcontent Hlanguage eq_refl eq_refl)
    as (_ & _ & Hnew & _ & _ & Hold & _).
  split; [exact Hnew|exact Hold].
Defined.

End RenameExamples.

Section ListExamples.

Import CustomList.
#[local] Existing Instance strings_codec.

(** A list just made, with the id of [foo_list]. *)
Definition blank_list : CustomListWidget string string :=
  {| base_widget_id := "custom_list"; _widget_id := "custom_list_foo";
     list_title := "Foo"; default_column := "Name";
     columns := ["Name"]; items := [] |}.

Lemma custom_list_saved_state_reloads_witness :
  loads (dumps (columns foo_list)) = Some (columns foo_list)
  /\ loads (dumps (items foo_list)) = Some (items foo_list)
  /\ columns (reload (save_items (save_columns ∅ foo_list) foo_list) blank_list)
     = ["Name"; "Price"]
  /\ items (reload (save_items (save_columns ∅ foo_list) foo_list) blank_list) = ["Milk"].
Proof.
  assert (Hcolumns : loads (dumps (columns foo_list)) = Some (columns foo_list))
    by (vm_compute; reflexivity).
  assert (Hitems : loads (dumps (items foo_list)) = Some (items foo_list))
    by (vm_compute; reflexivity).
  split; [exact Hcolumns|]. split; [exact Hitems|].
  exact (custom_list_saved_state_reloads ∅ foo_list blank_list eq_refl Hcolumns Hitems
           eq_refl eq_refl).
Defined.

Lemma custom_list_rename_resets_columns_witness :
  Py.is_blank "Bar" = false
  /\ titled_id "custom_list" "Bar" <> "custom_list_foo"
  /\ get_widget_setting foo_store (titled_id "custom_list" "Bar") "columns" = None
  /\ columns foo_list = ["Name"; "Price"]
  /\ columns (edit_title "Bar" true foo_store foo_list).2 = ["Name"].
Proof.
  assert (Hblank : Py.is_blank "Bar" = false) by reflexivity.
  assert (Hid : titled_id (base_widget_id foo_list) "Bar" <> _widget_id foo_list)
    by (vm_compute; discriminate).
  assert (Hnone : get_widget_setting foo_store
                    (titled_id (base_widget_id foo_list) "Bar") "columns" = None)
    by (vm_compute; reflexivity).
  split; [exact Hblank|]. split; [exact Hid|]. split; [exact Hnone|].
  split; [reflexivity|].
  destruct (custom_list_rename_resets_columns "Bar" foo_store foo_list Hblank Hid Hnone)
    as (_ & _ & Hcols & _).
  exact Hcols.
Defined.

End ListExamples.

Section ListDataExamples.

Import CustomList ListData.

(** A codec that writes the number of records and reads nothing back:
    the operations on the data do not depend on the text they save. *)
Definition counting_codec (A : Type) : JsonList A :=
  {| dumps := fun l => "[" +:+ pretty (length l) +:+ "]"; loads := fun _ => None |}.

#[local] Existing Instance counting_codec.

Definition title_column : column_config :=
  {| col_id := "title"; col_name := "Title"; col_type := Some "text";
     col_sortable := Some true |}.

Definition done_column : column_config :=
  {| col_id := "done"; col_name := "Done"; col_type := Some "checkbox";
     col_sortable := Some false |}.

Definition shopping_list : CustomListWidget column_config item :=
  {| base_widget_id := "custom_list"; _widget_id := "custom_list_shopping";
     list_title := "Shopping"; default_column := title_column;
     columns := [title_column; done_column];
     items := [ {[ "title" := CellText "Milk"; "done" := CellBool true ]} ] |}.

Lemma delete_column_keeps_first_column_witness :
  delete_column 0 true ∅ shopping_list = Some (∅, shopping_list)
  /\ head (columns shopping_list) = Some title_column.
Proof.
  assert (Hdone : delete_column 0 true ∅ shopping_list = Some (∅, shopping_list))
    by reflexivity.
  split; [exact Hdone|].
  destruct (delete_column_keeps_first_column 0 true ∅ ∅ shopping_list shopping_list Hdone)
    as (Hhead & _).
  exact Hhead.
Defined.

Lemma delete_column_removes_data_witness :
  (0 < 1)%Z
  /\ columns shopping_list !! Z.to_nat 1 = Some done_column
  /\ exists db' w',
       delete_column 1 true ∅ shopping_list = Some (db', w')
       /\ columns w' = [title_column]
       /\ forall i it', items w' !! i = Some it' -> it' !! "done" = None.
Proof.
  assert (Hpos : (0 < 1)%Z) by lia.
  assert (Hcol : columns shopping_list !! Z.to_nat 1 = Some done_column) by reflexivity.
  split; [exact Hpos|]. split; [exact Hcol|].
  destruct (delete_column_removes_data 1 ∅ shopping_list done_column Hpos Hcol)
    as (db' & w' & Hdone & Hcols & _ & _ & Hitems & _).
  exists db', w'. split; [exact Hdone|]. split; [exact Hcols|].
  intros i it' Hi. exact (proj1 (Hitems i it' Hi)).
Defined.

Lemma import_items_appends_witness :
  ["Eggs"; "Tea"] <> []
  /\ columns shopping_list = [title_column; done_column]
  /\ length (items (import_items true ["Eggs"; "Tea"] ∅ shopping_list).2) = 3%nat
  /\ import_item title_column (columns shopping_list) "Eggs" !! "title"
     = Some (CellText "Eggs").
Proof.
  assert (Hlines : ["Eggs"; "Tea"] <> []) by discriminate.
  assert (Hcolumns : columns shopping_list = [title_column; done_column]) by reflexivity.
  split; [exact Hlines|]. split; [exact Hcolumns|].
  destruct (import_items_appends ["Eggs"; "Tea"] ∅ shopping_list title_column
              [done_column] Hlines Hcolumns) as (_ & _ & Hlen & Hitem & _).
  split; [exact Hlen|]. exact (proj1 (Hitem "Eggs")).
Defined.

Lemma import_items_without_lines_witness :
  (true = false \/ @nil string = [])
  /\ import_items true [] ∅ shopping_list = (∅, shopping_list).
Proof.
  assert (Hnothing : true = false \/ @nil string = []) by (right; reflexivity).
  split; [exact Hnothing|].
  destruct (import_items_without_lines true [] ∅ shopping_list Hnothing) as (_ & Hsame).
  apply Hsame. discriminate.
Defined.

End ListDataExamples.


(** * Names, titles and ids *)

Section RestoredDocks.
Context `{Toolkit}.

(** X24. The dock a restore creates for an entry (lines 617-690). A custom
    list and a tree list get the object name that was saved, or
    [dock_custom_list] and [dock_tree_list] when none was, and the
    saved title. Every other kind goes through [add_widget]: the saved
    object name is not used, the dock is named [dock_B] for the base
    module [B], or [dock_B_n] for the first [n] that is free, and in
    that case the title gets the counter. The dock goes to the saved
    area, or to the right when none was saved, at the end of the docks
    of the dashboard. *)
Theorem restored_dock_name_and_title (plugins : gmap string plugin_info) (di : nat)
    (db db' : store) (dashboard dashboard' : DashboardTab) (instance : widget_info)
    (k : nat)
    (Hsome : restore_instance plugins di db dashboard instance = Some (dashboard', k, db')) :
  exists d pi,
    let base := base_module_of (entry_id instance) in
    let title := default (default "Widget" (pi_title pi)) (wi_title instance) in
    dash_docks dashboard' = dash_docks dashboard ++ [d]
    /\ k = length (dash_docks dashboard)
    /\ plugins !! base = Some pi
    /\ dock_area d = default RightDockWidgetArea (wi_area instance)
    /\ (base = "custom_list" ->
        objectName d = default "dock_custom_list" (wi_dock_name instance)
        /\ windowTitle d = title)
    /\ (base = "tree_list" ->
        objectName d = default "dock_tree_list" (wi_dock_name instance)
        /\ windowTitle d = title)
    /\ (base <> "custom_list" -> base <> "tree_list" ->
        exists m,
          objectName d = name_at ("dock_" +:+ base) m
          /\ (objectName d ∉ map objectName (dash_docks dashboard))
          /\ windowTitle d = display_title_of title (S m)).
Proof.
  unfold restore_instance in Hsome.
  destruct (resolve plugins instance) as [[[module_name pi] cls]|] eqn:E; [|discriminate].
  pose proof (resolve_module_name _ _ _ _ _ E) as ->.
  assert (Hpi : plugins !! base_module_of (entry_id instance) = Some pi).
  { unfold resolve in E. fold (entry_id instance) in E.
    destruct (negb (Py.truthy (entry_id instance))); [discriminate|].
    destruct (plugins !! base_module_of (entry_id instance)) as [pi'|]; [|discriminate].
    cbn in E. destruct (pi_widget_class pi'); [|discriminate]. cbn in E. congruence. }
  destruct (String.eqb (base_module_of (entry_id instance)) "custom_list") eqn:Hcl.
  { apply String.eqb_eq in Hcl. injection Hsome as <- <- _.
    eexists _, pi. cbn zeta. cbn [dash_docks]. split; [reflexivity|].
    split; [reflexivity|]. split; [exact Hpi|]. split; [reflexivity|].
    split; [now intros _|]. split; [intros Ht; rewrite Hcl in Ht; discriminate|].
    intros Hne. contradiction. }
  destruct (String.eqb (base_module_of (entry_id instance)) "tree_list") eqn:Htl.
  { apply String.eqb_eq in Htl. injection Hsome as <- <- _.
    eexists _, pi. cbn zeta. cbn [dash_docks]. split; [reflexivity|].
    split; [reflexivity|]. split; [exact Hpi|]. split; [reflexivity|].
    split; [intros Ht; rewrite Htl in Ht; discriminate|]. split; [now intros _|].
    intros _ Hne. contradiction. }
  apply String.eqb_neq in Hcl, Htl.
  destruct (find_dock_name_fresh (map objectName (dash_docks dashboard))
              ("dock_" +:+ base_module_of (entry_id instance))) as (m & Ef & Hfresh & _).
  destruct (add_widget_to_spec di db dashboard cls (base_module_of (entry_id instance))
              (default (default "Widget" (pi_title pi)) (wi_title instance))
              (default RightDockWidgetArea (wi_area instance)))
    as (m' & d & Eadd & Ef' & Hname & Htitle & Harea & _).
  rewrite Ef in Ef'. injection Ef' as Hnames Hm. subst m'.
  cbv zeta in Eadd, Htitle. rewrite Eadd in Hsome. clear Eadd.
  set (db1 := cls_save_state cls _ _) in Hsome. clearbody db1.
  destruct (set_widget_id_last (entry_id instance) db1 (dash_title dashboard)
              (dash_docks dashboard) d) as (a & Hset & _).
  destruct (set_widget_id _ _ _ _) as [dashboard1 db2]. cbn [fst] in Hset. subst dashboard1.
  assert (Hdocks : exists a', dash_docks dashboard'
                              = dash_docks dashboard ++ [with_widget_id a' d]
                              /\ k = length (dash_docks dashboard)).
  { destruct (restore_widget_state_last (entry_id instance) db2 (dash_title dashboard)
                (dash_docks dashboard) (with_widget_id a d)) as [Hsame|(w & _ & Hrs)];
      destruct (restore_widget_state _ _ _ _) as [dashboard2 db3];
      cbn [fst] in *; subst dashboard2; injection Hsome as <- <- _.
    - now exists a.
    - eexists. split; [|reflexivity]. cbn [dash_docks]. do 2 f_equal.
      unfold with_widget_id. cbn. now destruct (dock_widget d). }
  destruct Hdocks as (a' & Hdocks & Hk).
  exists (with_widget_id a' d), pi. cbn zeta. split; [exact Hdocks|]. split; [exact Hk|].
  split; [exact Hpi|]. split; [exact Harea|].
  split; [intros; contradiction|]. split; [intros; contradiction|].
  intros _ _. exists m. cbn [objectName windowTitle with_widget_id].
  split; [exact Hname|]. split; [now rewrite Hname|exact Htitle].
Qed.

End RestoredDocks.

Section Sanitize.

Definition sanitize_ascii (c : ascii) : ascii :=
  let c := Py.lower_char c in
  if Ascii.eqb c " " then "_"%char else c.

Lemma sanitize_cons (c : ascii) (s : string) :
  sanitize (String c s) = String (sanitize_ascii c) (sanitize s).
Proof. reflexivity. Qed.

Lemma sanitize_ascii_idempotent (c : ascii) :
  sanitize_ascii (sanitize_ascii c) = sanitize_ascii c.
Proof. destruct c as [[] [] [] [] [] [] [] []]; reflexivity. Qed.

Lemma sanitize_ascii_lower (c : ascii) :
  sanitize_ascii (Py.lower_char c) = sanitize_ascii c.
Proof. destruct c as [[] [] [] [] [] [] [] []]; reflexivity. Qed.

Lemma sanitize_ascii_not_space (c : ascii) : sanitize_ascii c <> " "%char.
Proof. destruct c as [[] [] [] [] [] [] [] []]; discriminate. Qed.

(** X25. The part of a widget id that comes from the title, for a title in
    ASCII, and in Latin-1: it is as long as the title and holds no
    space; taking it again changes nothing, and neither does the case
    of the title. So the custom lists titled [t], [t] in lower case
    and [sanitize t] have one id, and with it one stored state. *)
Theorem sanitize_is_idempotent (title : string) (dashboard_index counter : nat) :
  String.length (sanitize title) = String.length title
  /\ sanitize (sanitize title) = sanitize title
  /\ sanitize (Py.lower title) = sanitize title
  /\ (forall n, String.get n (sanitize title) <> Some " "%char)
  /\ new_widget_id "custom_list" (sanitize title) dashboard_index counter
     = new_widget_id "custom_list" title dashboard_index counter.
Proof.
  assert (Hidem : sanitize (sanitize title) = sanitize title).
  { induction title as [|c s IH]; [reflexivity|].
    rewrite !sanitize_cons, sanitize_ascii_idempotent. now f_equal. }
  split; [|split; [exact Hidem|split; [|split]]].
  - clear Hidem. induction title as [|c s IH]; [reflexivity|].
    rewrite sanitize_cons. cbn [String.length]. now rewrite IH.
  - clear Hidem. induction title as [|c s IH]; [reflexivity|].
    cbn [Py.lower]. rewrite !sanitize_cons, sanitize_ascii_lower. now f_equal.
  - clear Hidem. induction title as [|c s IH]; intros n; [now destruct n|].
    rewrite sanitize_cons. destruct n as [|n]; cbn [String.get].
    + intros [= E]. now apply (sanitize_ascii_not_space c).
    + apply IH.
  - unfold new_widget_id. cbn [String.eqb Ascii.eqb Bool.eqb]. now rewrite Hidem.
Qed.

(** A capital with an accent is lowered too. *)
Example sanitize_lowers_accented_capitals :
  sanitize (String "201" (String "t" (String "233" " A")))
  = String "233" (String "t" (String "233" "_a")).
Proof. reflexivity. Qed.

End Sanitize.


(** * Fetching with retries ([app/data_ingest.py]) *)

Module Ingest.

(** [c.upper()] on one character of Latin-1: the sharp s becomes
    [SS]; the micro sign and the y with diaeresis become letters
    outside Latin-1, which is [None] here. *)
Definition upper_char (c : ascii) : option string :=
  let n := N_of_ascii c in
  if (((97 <=? n) && (n <=? 122))
      || ((224 <=? n) && (n <=? 254) && negb (n =? 247)))%N
  then Some (String (ascii_of_N (n - 32)) "")
  else if (n =? 223)%N then Some "SS"
  else if ((n =? 181) || (n =? 255))%N then None
  else Some (String c "").

(** [s.upper()], when it is text of Latin-1. *)
Fixpoint upper (s : string) : option string :=
  match s with
  | EmptyString => Some EmptyString
  | String c s' =>
      match upper_char c, upper s' with
      | Some u, Some r => Some (u +:+ r)
      | _, _ => None
      end
  end.

(** The methods [_fetch_with_retry] has a branch for. A method whose
    upper case is not text of Latin-1 is none of the four. *)
Definition supported (method : string) : bool :=
  match upper method with
  | Some m =>
      String.eqb m "GET" || String.eqb m "POST" || String.eqb m "PUT"
      || String.eqb m "DELETE"
  | None => false
  end.

Section Fetch.

Variable response : Type.

(** What the session answers to the request number [n] of the call:
    a response, or [None] for a [requests.RequestException]. *)
Variable send : nat -> option response.

(** The loop [while retry_count < max_retries] (lines 182-205), with
    what it returns, the number of requests it sent and the exponents
    [e] of the pauses [backoff_factor ** e] it made, in order. [fuel]
    is [max_retries - retry_count], the rounds that are left. *)
Fixpoint fetch_loop (fuel retry_count max_retries : nat)
    : option response * nat * list nat :=
  match fuel with
  | O => (None, 0%nat, [])
  | S fuel' =>
      match send retry_count with
      | Some r => (Some r, 1%nat, [])
      | None =>
          let retry_count := S retry_count in
          if (max_retries <=? retry_count)%nat then (None, 1%nat, [])
          else
            let '(r, n, pauses) := fetch_loop fuel' retry_count max_retries in
            (r, S n, retry_count :: pauses)
      end
  end.

(** [_fetch_with_retry] (lines 177-205): the [ValueError] of a method
    without a branch is raised in the first round and not caught. *)
Definition fetch_with_retry (method : string) (max_retries : nat)
    : result (option response * nat * list nat) :=
  match max_retries with
  | O => Ok (None, 0%nat, [])
  | S _ =>
      if supported method then Ok (fetch_loop max_retries 0 max_retries)
      else Raise ValueError
  end.

(** The requests that fail before the first that succeeds, among the
    [n] requests from number [c] on. *)
Fixpoint failures_before (c n : nat) : nat :=
  match n with
  | O => O
  | S n' =>
      match send c with
      | Some _ => O
      | None => S (failures_before (S c) n')
      end
  end.

End Fetch.

End Ingest.

Section IngestProperties.

Import Ingest.
Context {response : Type}.
Variable send : nat -> option response.

Lemma fetch_loop_spec (fuel c max_retries : nat) :
  (c + fuel = max_retries)%nat ->
  let k := failures_before response send c fuel in
  fetch_loop response send fuel c max_retries
  = (if (k <? fuel)%nat then send (c + k)%nat else None,
     Nat.min (S k) fuel,
     seq (S c) (Nat.min k (fuel - 1))).
Proof.
  revert c. induction fuel as [|fuel IH]; intros c Hsum; [reflexivity|].
  cbn [fetch_loop failures_before]. destruct (send c) as [r|] eqn:Hc.
  - cbn. now rewrite Nat.add_0_r, Hc.
  - destruct (max_retries <=? S c)%nat eqn:Hmax.
    + apply Nat.leb_le in Hmax. assert (fuel = 0%nat) as -> by lia. reflexivity.
    + apply Nat.leb_gt in Hmax. rewrite (IH (S c)) by lia. cbn zeta.
      set (k := failures_before response send (S c) fuel).
      replace (c + S k)%nat with (S c + k)%nat by lia.
      change (S k <? S fuel)%nat with (k <? fuel)%nat.
      replace (Nat.min (S (S k)) (S fuel)) with (S (Nat.min (S k) fuel)) by lia.
      replace (Nat.min (S k) (S fuel - 1)) with (S (Nat.min k (fuel - 1))) by lia.
      reflexivity.
Qed.

(** X26. For a method it has a branch for, [_fetch_with_retry] sends at
    most [max_retries] requests, one after the other, and stops at the
    first that gets a response, which it returns; when all fail it
    returns [None]. It pauses after every failure but the last of the
    [max_retries], the pause after failure number [e] being
    [backoff_factor ** e]. *)
Theorem fetch_returns_first_response (method : string) (max_retries : nat)
    (Hmethod : supported method = true) :
  let k := failures_before response send 0 max_retries in
  fetch_with_retry response send method max_retries
  = Ok (if (k <? max_retries)%nat then send k else None,
        Nat.min (S k) max_retries,
        seq 1 (Nat.min k (max_retries - 1)))
  /\ (forall i, (i < k)%nat -> send i = None)
  /\ ((k < max_retries)%nat -> exists r, send k = Some r)
  /\ (k <= max_retries)%nat.
Proof.
  cbn zeta. split.
  - unfold fetch_with_retry. rewrite Hmethod.
    destruct max_retries as [|n]; [reflexivity|].
    now rewrite (fetch_loop_spec (S n) 0 (S n)) by lia.
  - assert (Hgen : forall n c,
               (forall i, (i < failures_before response send c n)%nat ->
                          send (c + i)%nat = None)
               /\ ((failures_before response send c n < n)%nat ->
                   exists r, send (c + failures_before response send c n)%nat = Some r)
               /\ (failures_before response send c n <= n)%nat).
    { induction n as [|n IH]; intros c; cbn [failures_before].
      - repeat split; intros; lia.
      - destruct (send c) as [r|] eqn:Hc.
        + split; [intros; lia|]. split; [|lia]. intros _. exists r.
          now rewrite Nat.add_0_r.
        + destruct (IH (S c)) as (Hfail & Hsucc & Hle). split; [|split; [|lia]].
          * intros [|i] Hi; [now rewrite Nat.add_0_r|].
            replace (c + S i)%nat with (S c + i)%nat by lia. apply Hfail. lia.
          * intros Hlt. destruct Hsucc as [r Hr]; [lia|]. exists r.
            now replace (c + S (failures_before response send (S c) n))%nat
              with (S c + failures_before response send (S c) n)%nat by lia. }
    destruct (Hgen max_retries 0%nat) as (Hfail & Hsucc & Hle).
    split; [exact Hfail|]. split; [exact Hsucc|exact Hle].
Qed.

End IngestProperties.

Section IngestExamples.

Import Ingest.

(** A server that answers the third request. *)
Definition third_time (n : nat) : option string :=
  if (n <? 2)%nat then None else Some "ok".

Lemma fetch_returns_first_response_witness :
  supported "get" = true
  /\ fetch_with_retry string third_time "get" 3 = Ok (Some "ok", 3%nat, [1%nat; 2%nat])
  /\ fetch_with_retry string third_time "get" 2 = Ok (None, 2%nat, [1%nat]).
Proof.
  assert (Hmethod : supported "get" = true) by reflexivity.
  split; [exact Hmethod|]. split.
  - exact (proj1 (fetch_returns_first_response third_time "get" 3 Hmethod)).
  - exact (proj1 (fetch_returns_first_response third_time "get" 2 Hmethod)).
Defined.

End IngestExamples.


Section RestoredDockExample.

#[local] Existing Instance identifier_toolkit.

Lemma restored_dock_name_and_title_witness :
  exists dashboard' k d,
    restore_instance Demo.registry 0 ∅ empty_main list_entry = Some (dashboard', k, ∅)
    /\ dash_docks dashboard' = [d]
    /\ objectName d = "dock_custom_list"
    /\ windowTitle d = "Groceries".
Proof.
  destruct (restore_instance Demo.registry 0 ∅ empty_main list_entry)
    as [[[dashboard' k] db']|] eqn:Hsome; [|vm_compute in Hsome; discriminate].
  assert (Hdb : db' = ∅) by (vm_compute in Hsome; now injection Hsome as _ _ <-).
  subst db'.
  destruct (restored_dock_name_and_title Demo.registry 0 ∅ ∅ empty_main dashboard'
              list_entry k Hsome) as (d & pi & Hdocks & _ & _ & _ & Hlist & _).
  exists dashboard', k, d. split; [reflexivity|]. split; [exact Hdocks|].
  apply Hlist. vm_compute. reflexivity.
Defined.

End RestoredDockExample.
